(** * Smart Witness ESP32-CAM firmware: lifecycle and command session controller

    Shallow embedding of [smart_witness_single_file.ino].  The firmware's
    globals become one [State] record, every firmware function becomes a
    function in a small state monad whose outcomes also record a device
    restart ([ESP.restart()]) or a panic (a null pointer handed to
    [strncpy] or dereferenced).  The outside world (wall clock, Telegram
    transport, camera, WiFi, flash file system, random numbers) is a record
    of oracles threaded through the state, and everything the firmware does
    to the outside is appended to a time-stamped trace. *)

From Stdlib Require Import ZArith String Ascii List Bool Lia.
From Stdlib Require DecimalString HexadecimalString.
From stdpp Require Import base option list strings gmap.

Local Open Scope string_scope.
Local Open Scope Z_scope.

(** ** Machine integers

    [unsigned long] and [uint32_t] are 32 bits wide on the ESP32; their
    arithmetic wraps around. *)

Definition wrap32 (z : Z) : Z := z mod 2 ^ 32.

Definition UINT32_MAX : Z := 2 ^ 32 - 1.

(** [int] is a signed 32-bit integer. *)
Definition in_int_range (z : Z) : bool := (- 2 ^ 31 <=? z) && (z <? 2 ^ 31).

(** ** Strings

    An Arduino [String] is a Rocq [string] (a sequence of bytes).  A
    [char buf[N]] field of the configuration holds a C string; it is
    modelled by its contents, the bytes before the terminating NUL. *)

Definition strlen (s : string) : Z := Z.of_nat (String.length s).

Definition is_nul (c : ascii) : bool := Ascii.eqb c zero.

(** [strncpy(dst, src, n)] into a buffer whose byte [n] is NUL (all buffers
    of the firmware are zero-initialised and written with
    [sizeof(buf) - 1]): [dst] then holds the first [n] bytes of [src], or
    fewer when [src] ends (or has a NUL) earlier. *)
Fixpoint strncpy (src : string) (n : nat) : string :=
  match n, src with
  | S n', String c rest => if is_nul c then "" else String c (strncpy rest n')
  | _, _ => ""
  end.

(** [String.startsWith] *)
Definition startsWith (s p : string) : bool := String.prefix p s.

(** [String.indexOf(',')] : [None] is the source's [-1]. *)
Definition indexOf_comma (s : string) : option nat := String.index 0 "," s.

(** [String.substring(from)] and [String.substring(from, to)]. *)
Definition substring_from (from : nat) (s : string) : string :=
  String.substring from (String.length s - from) s.
Definition substring_to (from to : nat) (s : string) : string :=
  String.substring from (to - from) s.

(** [String(n)] for an integer [n]: its decimal representation. *)
Definition String_of_Z (z : Z) : string :=
  DecimalString.NilZero.string_of_int (Z.to_int z).

(** A line feed (the source's backslash-n) and a double quote. *)
Definition nl : string := String (ascii_of_nat 10) EmptyString.
Definition dq : string := String (ascii_of_nat 34) EmptyString.
Definition q (s : string) : string := dq ++ s ++ dq.

(** ** System states *)

Inductive SystemState :=
| NEED_CONFIG
| BLE_CONFIG_PHASE
| PIN_CONFIG_PHASE
| GROUP_WAIT_PHASE
| NORMAL_OPERATION.

Definition SystemState_eqb (a b : SystemState) : bool :=
  match a, b with
  | NEED_CONFIG, NEED_CONFIG
  | BLE_CONFIG_PHASE, BLE_CONFIG_PHASE
  | PIN_CONFIG_PHASE, PIN_CONFIG_PHASE
  | GROUP_WAIT_PHASE, GROUP_WAIT_PHASE
  | NORMAL_OPERATION, NORMAL_OPERATION => true
  | _, _ => false
  end.

(** ** Configuration structure *)

Record SmartWitnessConfig := mkConfig {
  deviceName : string;          (* char[32]  *)
  friendlyName : string;        (* char[64]  *)
  devicePIN : string;           (* char[4]   *)
  wifiSSID : list string;       (* char[3][64] *)
  wifiPassword : list string;   (* char[3][64] *)
  telegramToken : string;       (* char[128] *)
  telegramUser : string;        (* char[64]  *)
  personalChatId : string;      (* char[32]  *)
  familiarChatId : string;      (* char[32]  *)
  vecinalChatId : string;       (* char[32]  *)
  alertMsg : string;            (* char[100] *)
  isConfigured : bool;
  pinConfigured : bool;
  configVersion : Z             (* uint32_t  *)
}.

(** [sizeof(field) - 1] for each buffer. *)
Definition sz_deviceName : nat := 31.
Definition sz_friendlyName : nat := 63.
Definition sz_devicePIN : nat := 3.
Definition sz_wifi : nat := 63.
Definition sz_telegramToken : nat := 127.
Definition sz_telegramUser : nat := 63.
Definition sz_chatId : nat := 31.
Definition sz_alertMsg : nat := 99.

(** [memset(&config, 0, sizeof(config))] *)
Definition zero_config : SmartWitnessConfig :=
  mkConfig "" "" "" (replicate 3 "") (replicate 3 "") "" "" "" "" "" "" false false 0.

(** Field updates. *)
Definition with_deviceName v c := mkConfig v (friendlyName c) (devicePIN c) (wifiSSID c) (wifiPassword c) (telegramToken c) (telegramUser c) (personalChatId c) (familiarChatId c) (vecinalChatId c) (alertMsg c) (isConfigured c) (pinConfigured c) (configVersion c).
Definition with_friendlyName v c := mkConfig (deviceName c) v (devicePIN c) (wifiSSID c) (wifiPassword c) (telegramToken c) (telegramUser c) (personalChatId c) (familiarChatId c) (vecinalChatId c) (alertMsg c) (isConfigured c) (pinConfigured c) (configVersion c).
Definition with_devicePIN v c := mkConfig (deviceName c) (friendlyName c) v (wifiSSID c) (wifiPassword c) (telegramToken c) (telegramUser c) (personalChatId c) (familiarChatId c) (vecinalChatId c) (alertMsg c) (isConfigured c) (pinConfigured c) (configVersion c).
Definition with_wifiSSID v c := mkConfig (deviceName c) (friendlyName c) (devicePIN c) v (wifiPassword c) (telegramToken c) (telegramUser c) (personalChatId c) (familiarChatId c) (vecinalChatId c) (alertMsg c) (isConfigured c) (pinConfigured c) (configVersion c).
Definition with_wifiPassword v c := mkConfig (deviceName c) (friendlyName c) (devicePIN c) (wifiSSID c) v (telegramToken c) (telegramUser c) (personalChatId c) (familiarChatId c) (vecinalChatId c) (alertMsg c) (isConfigured c) (pinConfigured c) (configVersion c).
Definition with_telegramToken v c := mkConfig (deviceName c) (friendlyName c) (devicePIN c) (wifiSSID c) (wifiPassword c) v (telegramUser c) (personalChatId c) (familiarChatId c) (vecinalChatId c) (alertMsg c) (isConfigured c) (pinConfigured c) (configVersion c).
Definition with_telegramUser v c := mkConfig (deviceName c) (friendlyName c) (devicePIN c) (wifiSSID c) (wifiPassword c) (telegramToken c) v (personalChatId c) (familiarChatId c) (vecinalChatId c) (alertMsg c) (isConfigured c) (pinConfigured c) (configVersion c).
Definition with_personalChatId v c := mkConfig (deviceName c) (friendlyName c) (devicePIN c) (wifiSSID c) (wifiPassword c) (telegramToken c) (telegramUser c) v (familiarChatId c) (vecinalChatId c) (alertMsg c) (isConfigured c) (pinConfigured c) (configVersion c).
Definition with_familiarChatId v c := mkConfig (deviceName c) (friendlyName c) (devicePIN c) (wifiSSID c) (wifiPassword c) (telegramToken c) (telegramUser c) (personalChatId c) v (vecinalChatId c) (alertMsg c) (isConfigured c) (pinConfigured c) (configVersion c).
Definition with_vecinalChatId v c := mkConfig (deviceName c) (friendlyName c) (devicePIN c) (wifiSSID c) (wifiPassword c) (telegramToken c) (telegramUser c) (personalChatId c) (familiarChatId c) v (alertMsg c) (isConfigured c) (pinConfigured c) (configVersion c).
Definition with_alertMsg v c := mkConfig (deviceName c) (friendlyName c) (devicePIN c) (wifiSSID c) (wifiPassword c) (telegramToken c) (telegramUser c) (personalChatId c) (familiarChatId c) (vecinalChatId c) v (isConfigured c) (pinConfigured c) (configVersion c).
Definition with_isConfigured v c := mkConfig (deviceName c) (friendlyName c) (devicePIN c) (wifiSSID c) (wifiPassword c) (telegramToken c) (telegramUser c) (personalChatId c) (familiarChatId c) (vecinalChatId c) (alertMsg c) v (pinConfigured c) (configVersion c).
Definition with_pinConfigured v c := mkConfig (deviceName c) (friendlyName c) (devicePIN c) (wifiSSID c) (wifiPassword c) (telegramToken c) (telegramUser c) (personalChatId c) (familiarChatId c) (vecinalChatId c) (alertMsg c) (isConfigured c) v (configVersion c).
Definition with_configVersion v c := mkConfig (deviceName c) (friendlyName c) (devicePIN c) (wifiSSID c) (wifiPassword c) (telegramToken c) (telegramUser c) (personalChatId c) (familiarChatId c) (vecinalChatId c) (alertMsg c) (isConfigured c) (pinConfigured c) v.

(** [config.wifiSSID[i]] (the source only uses [i < 3]). *)
Definition wifiSSID_at (c : SmartWitnessConfig) (i : nat) : string := wifiSSID c !!! i.
Definition wifiPassword_at (c : SmartWitnessConfig) (i : nat) : string := wifiPassword c !!! i.

(** ** Function 4: validate configuration

    The source keeps a flag [valid] that each failed check clears, and
    scans the three SSIDs with a loop that breaks at the first non-empty
    one. *)

Fixpoint hasWiFi_loop (c : SmartWitnessConfig) (i n : nat) : bool :=
  match n with
  | O => false
  | S n' => if 0 <? strlen (wifiSSID_at c i) then true else hasWiFi_loop c (S i) n'
  end.

Definition hasValidConfig (c : SmartWitnessConfig) : bool :=
  let valid := true in
  let valid := if strlen (deviceName c) =? 0 then false else valid in
  let valid := if negb (strlen (devicePIN c) =? 3) then false else valid in
  let hasWiFi := hasWiFi_loop c 0 3 in
  let valid := if negb hasWiFi then false else valid in
  let valid := if strlen (telegramToken c) <? 40 then false else valid in
  let valid := if strlen (personalChatId c) =? 0 then false else valid in
  valid.

(** ** Role derivation *)

Definition getChatType (c : SmartWitnessConfig) (chat_id : string) : string :=
  if String.eqb chat_id (personalChatId c) then "personal"
  else if String.eqb chat_id (familiarChatId c) then "familiar"
  else if String.eqb chat_id (vecinalChatId c) then "vecinal"
  else "unknown".

(** ** Telegram statistics, editing session, BLE objects *)

Record TelegramStatistics := mkStats {
  totalMessagesSent : Z;        (* unsigned long *)
  totalFailedSends : Z;
  lastSuccessfulSend : Z;
  lastErrorTime : Z;
  lastError : string;
  pollCount : Z;
  commandsProcessed : Z
}.

Definition with_totalMessagesSent v st := mkStats v (totalFailedSends st) (lastSuccessfulSend st) (lastErrorTime st) (lastError st) (pollCount st) (commandsProcessed st).
Definition with_totalFailedSends v st := mkStats (totalMessagesSent st) v (lastSuccessfulSend st) (lastErrorTime st) (lastError st) (pollCount st) (commandsProcessed st).
Definition with_lastSuccessfulSend v st := mkStats (totalMessagesSent st) (totalFailedSends st) v (lastErrorTime st) (lastError st) (pollCount st) (commandsProcessed st).
Definition with_lastErrorTime v st := mkStats (totalMessagesSent st) (totalFailedSends st) (lastSuccessfulSend st) v (lastError st) (pollCount st) (commandsProcessed st).
Definition with_lastError v st := mkStats (totalMessagesSent st) (totalFailedSends st) (lastSuccessfulSend st) (lastErrorTime st) v (pollCount st) (commandsProcessed st).
Definition with_pollCount v st := mkStats (totalMessagesSent st) (totalFailedSends st) (lastSuccessfulSend st) (lastErrorTime st) (lastError st) v (commandsProcessed st).
Definition with_commandsProcessed v st := mkStats (totalMessagesSent st) (totalFailedSends st) (lastSuccessfulSend st) (lastErrorTime st) (lastError st) (pollCount st) v.

(** The five globals of the "simplified editing state". *)
Record EditingState := mkEditing {
  editingMode : bool;
  editingField : string;
  editingChatID : string;
  pendingEditValue : string;
  editingStartTime : Z          (* unsigned long *)
}.

Definition with_pendingEditValue v e :=
  mkEditing (editingMode e) (editingField e) (editingChatID e) v (editingStartTime e).

(** The BLE object pointers ([true]: not [nullptr]) and what the server
    currently exposes. *)
Record BLEObjects := mkBLE {
  pServer : bool;
  pStatusCharacteristic : bool;
  pPinCharacteristic : bool;
  advertising : bool;
  deviceConnected : bool
}.

(** ** The outside world *)

(** A value of an ArduinoJson document. *)
Inductive JsonVariant :=
| JNull
| JBool (b : bool)
| JInt (z : Z)
| JString (s : string)
| JOther.

Abbreviation JsonDocument := (gmap string JsonVariant).

Record World := mkWorld {
  clock : Z;                           (* milliseconds since boot, not wrapped *)
  net : list (bool * N);               (* Telegram transport: result and duration of the calls to come *)
  camera : list bool;                  (* esp_camera_fb_get: frames to come *)
  rng : list Z;                        (* random(): draws to come *)
  efuseMac : Z;                        (* ESP.getEfuseMac() *)
  freeHeap : Z;                        (* ESP.getFreeHeap() *)
  wifi_join : string -> string -> option N;  (* access points in range: time to associate *)
  wifi_link : option (string * Z);     (* station: SSID and the time the link is up *)
  wifi_rssi : Z;                       (* WiFi.RSSI() *)
  spiffs_config : option string;       (* contents of /config.json, if it exists *)
  spiffs_writable : bool               (* SPIFFS.open(path, "w") succeeds *)
}.

Definition with_clock v w := mkWorld v (net w) (camera w) (rng w) (efuseMac w) (freeHeap w) (wifi_join w) (wifi_link w) (wifi_rssi w) (spiffs_config w) (spiffs_writable w).
Definition with_net v w := mkWorld (clock w) v (camera w) (rng w) (efuseMac w) (freeHeap w) (wifi_join w) (wifi_link w) (wifi_rssi w) (spiffs_config w) (spiffs_writable w).
Definition with_camera v w := mkWorld (clock w) (net w) v (rng w) (efuseMac w) (freeHeap w) (wifi_join w) (wifi_link w) (wifi_rssi w) (spiffs_config w) (spiffs_writable w).
Definition with_rng v w := mkWorld (clock w) (net w) (camera w) v (efuseMac w) (freeHeap w) (wifi_join w) (wifi_link w) (wifi_rssi w) (spiffs_config w) (spiffs_writable w).
Definition with_wifi_link v w := mkWorld (clock w) (net w) (camera w) (rng w) (efuseMac w) (freeHeap w) (wifi_join w) v (wifi_rssi w) (spiffs_config w) (spiffs_writable w).
Definition with_spiffs_config v w := mkWorld (clock w) (net w) (camera w) (rng w) (efuseMac w) (freeHeap w) (wifi_join w) (wifi_link w) (wifi_rssi w) v (spiffs_writable w).

(** What the firmware does to the outside, in order. *)
Inductive Event :=
| EvDelay (ms : Z)                                         (* delay(ms) *)
| EvSendMessage (chat text : string) (ok : bool)           (* bot->sendMessage *)
| EvSendKeyboard (chat text keyboard : string) (ok : bool) (* bot->sendMessageWithInlineKeyboard *)
| EvSendPhoto (chat : string) (ok : bool)                  (* bot->sendPhoto *)
| EvBLEInit (name : string)                                (* BLEDevice::init and the GATT service *)
| EvBLEAdvertise (on : bool)                               (* startAdvertising / stop *)
| EvBLEDeinit                                              (* BLEDevice::deinit *)
| EvBLEStatus (status : string)                            (* status characteristic: setValue, notify *)
| EvBLEPin (pin : string)                                  (* PIN characteristic: setValue, notify *)
| EvSaveConfig (ok : bool)                                 (* /config.json written *)
| EvState (st : SystemState)                               (* currentState = st *)
| EvRestart.                                               (* ESP.restart() *)

(** ** The firmware's globals *)

Record State := mkState {
  config : SmartWitnessConfig;
  currentState : SystemState;
  telegramStats : TelegramStatistics;
  editing : EditingState;
  bot : option string;                 (* UniversalTelegramBot*, with its token *)
  ble : BLEObjects;
  bleConfigStartTime : Z;
  lastMessageTime : Z;
  world : World;
  trace : list (Z * Event)             (* oldest first, stamped with [clock] *)
}.

Definition set_config v s := mkState v (currentState s) (telegramStats s) (editing s) (bot s) (ble s) (bleConfigStartTime s) (lastMessageTime s) (world s) (trace s).
Definition set_currentState v s := mkState (config s) v (telegramStats s) (editing s) (bot s) (ble s) (bleConfigStartTime s) (lastMessageTime s) (world s) (trace s).
Definition set_telegramStats v s := mkState (config s) (currentState s) v (editing s) (bot s) (ble s) (bleConfigStartTime s) (lastMessageTime s) (world s) (trace s).
Definition set_editing v s := mkState (config s) (currentState s) (telegramStats s) v (bot s) (ble s) (bleConfigStartTime s) (lastMessageTime s) (world s) (trace s).
Definition set_bot v s := mkState (config s) (currentState s) (telegramStats s) (editing s) v (ble s) (bleConfigStartTime s) (lastMessageTime s) (world s) (trace s).
Definition set_ble v s := mkState (config s) (currentState s) (telegramStats s) (editing s) (bot s) v (bleConfigStartTime s) (lastMessageTime s) (world s) (trace s).
Definition set_bleConfigStartTime v s := mkState (config s) (currentState s) (telegramStats s) (editing s) (bot s) (ble s) v (lastMessageTime s) (world s) (trace s).
Definition set_lastMessageTime v s := mkState (config s) (currentState s) (telegramStats s) (editing s) (bot s) (ble s) (bleConfigStartTime s) v (world s) (trace s).
Definition set_world v s := mkState (config s) (currentState s) (telegramStats s) (editing s) (bot s) (ble s) (bleConfigStartTime s) (lastMessageTime s) v (trace s).
Definition set_trace v s := mkState (config s) (currentState s) (telegramStats s) (editing s) (bot s) (ble s) (bleConfigStartTime s) (lastMessageTime s) (world s) v.

(** ** The firmware monad *)

Inductive Outcome (A : Type) :=
| Running (a : A) (s : State)   (* the call returned [a] *)
| Restarted (s : State)         (* ESP.restart() was reached *)
| Crashed (s : State)           (* null pointer access: the chip panics *)
| OutOfFuel.                    (* a loop of the model ran out of fuel *)
Arguments Running {A} a s.
Arguments Restarted {A} s.
Arguments Crashed {A} s.
Arguments OutOfFuel {A}.

Definition M (A : Type) : Type := State -> Outcome A.

Definition ret {A} (a : A) : M A := fun s => Running a s.

Definition bind {A B} (m : M A) (k : A -> M B) : M B :=
  fun s =>
    match m s with
    | Running a s' => k a s'
    | Restarted s' => Restarted s'
    | Crashed s' => Crashed s'
    | OutOfFuel => OutOfFuel
    end.

Notation "'let*' x ':=' m 'in' k" := (bind m (fun x => k))
  (at level 10, x name, m at level 100, k at level 200).
Notation "m ';;;' k" := (bind m (fun _ => k))
  (at level 100, k at level 200, right associativity).

Definition get : M State := fun s => Running s s.
Definition gets {A} (f : State -> A) : M A := fun s => Running (f s) s.
Definition modify (f : State -> State) : M unit := fun s => Running tt (f s).
Definition when (b : bool) (m : M unit) : M unit := if b then m else ret tt.

Definition modify_editing (f : EditingState -> EditingState) : M unit :=
  modify (fun s => set_editing (f (editing s)) s).
Definition modify_stats (f : TelegramStatistics -> TelegramStatistics) : M unit :=
  modify (fun s => set_telegramStats (f (telegramStats s)) s).
Definition modify_config (f : SmartWitnessConfig -> SmartWitnessConfig) : M unit :=
  modify (fun s => set_config (f (config s)) s).
Definition modify_world (f : World -> World) : M unit :=
  modify (fun s => set_world (f (world s)) s).

Definition log (e : Event) : M unit :=
  modify (fun s => set_trace (trace s ++ [(clock (world s), e)])%list s).

(** [millis()] *)
Definition millis : M Z := gets (fun s => wrap32 (clock (world s))).

(** [delay(ms)] with [ms] an [uint32_t]. *)
Definition delay (ms : Z) : M unit :=
  log (EvDelay ms);;;
  modify (fun s => set_world (with_clock (clock (world s) + ms) (world s)) s).

(** [ESP.restart()] does not return. *)
Definition ESP_restart {A} : M A := fun s =>
  Restarted (set_trace (trace s ++ [(clock (world s), EvRestart)])%list s).

(** A null pointer is dereferenced. *)
Definition panic {A} : M A := fun s => Crashed s.

(** [currentState = st] *)
Definition assign_currentState (st : SystemState) : M unit :=
  modify (set_currentState st);;; log (EvState st).

(** ** Timing configuration *)

Definition BLE_SESSION_TIMEOUT : Z := 300000.
Definition EDITING_TIMEOUT : Z := 300000.
Definition MESSAGE_INTERVAL : Z := 1500.
Definition MAX_TELEGRAM_RETRIES : Z := 3.

(** ** Delivery: one call of the Telegram transport

    The next entry of [net] says whether the call succeeds and how long it
    takes; when the list is exhausted the network is down. *)
Definition net_next (w : World) : bool * N :=
  match net w with r :: _ => r | [] => (false, 0%N) end.

Definition transport (ev : bool -> Event) : M bool := fun s =>
  let w := world s in
  let r := net_next w in
  let s1 := set_trace (trace s ++ [(clock w, ev (fst r))])%list s in
  Running (fst r) (set_world (with_net (tail (net w)) (with_clock (clock w + Z.of_N (snd r)) w)) s1).

(** The retry loop of [safeSendMessage]:
    [while (retries < MAX_TELEGRAM_RETRIES && !success)]. *)
Fixpoint send_loop (fuel : nat) (chat_id message keyboard : string)
    (retries : Z) (success : bool) : M (Z * bool) :=
  if (retries <? MAX_TELEGRAM_RETRIES) && negb success then
    match fuel with
    | O => fun _ => OutOfFuel
    | S fuel' =>
        when (0 <? retries) (delay (wrap32 (500 * retries)));;;
        let* success :=
          if negb (String.eqb keyboard "")
          then transport (EvSendKeyboard chat_id message keyboard)
          else transport (EvSendMessage chat_id message) in
        let retries := retries + 1 in
        send_loop fuel' chat_id message keyboard retries success
    end
  else ret (retries, success).

Definition safeSendMessage (chat_id message keyboard : string) : M bool :=
  let* b := gets bot in
  match b with
  | None => ret false
  | Some _ =>
      (* Rate limiting *)
      let* now := millis in
      let* last := gets lastMessageTime in
      when (wrap32 (now - last) <? MESSAGE_INTERVAL)
        (let* now := millis in
         let* last := gets lastMessageTime in
         delay (wrap32 (MESSAGE_INTERVAL - wrap32 (now - last))));;;
      let* r := send_loop (Z.to_nat MAX_TELEGRAM_RETRIES) chat_id message keyboard 0 false in
      let success := snd r in
      (if success then
         let* now := millis in
         modify (set_lastMessageTime now);;;
         modify_stats (fun st => with_totalMessagesSent (wrap32 (totalMessagesSent st + 1)) st);;;
         let* now := millis in
         modify_stats (with_lastSuccessfulSend now)
       else
         modify_stats (fun st => with_totalFailedSends (wrap32 (totalFailedSends st + 1)) st);;;
         modify_stats (with_lastError ("Message send failure to " ++ chat_id));;;
         let* now := millis in
         modify_stats (with_lastErrorTime now));;;
      ret success
  end.

(** ** ArduinoJson accessors *)

(** [doc.containsKey(k)] *)
Definition containsKey (doc : JsonDocument) (k : string) : bool :=
  match doc !! k with Some _ => true | None => false end.

(** [doc[k]] converted to [const char*]: [None] is [nullptr]. *)
Definition as_cstr (doc : JsonDocument) (k : string) : option string :=
  match doc !! k with Some (JString v) => Some v | _ => None end.

(** [doc[k] | dflt] for a string, a [bool] and an [int] default. *)
Definition cstr_or (doc : JsonDocument) (k dflt : string) : string :=
  default dflt (as_cstr doc k).
Definition bool_or (doc : JsonDocument) (k : string) (dflt : bool) : bool :=
  match doc !! k with Some (JBool b) => b | _ => dflt end.
Definition int_or (doc : JsonDocument) (k : string) (dflt : Z) : Z :=
  match doc !! k with
  | Some (JInt z) => if in_int_range z then z else dflt
  | _ => dflt
  end.

(** [strncpy(dst, doc[k], n)]: a missing or non-string member converts to
    [nullptr], which [strncpy] reads. *)
Definition strncpy_member (doc : JsonDocument) (k : string) (n : nat) : M string :=
  match as_cstr doc k with
  | Some v => ret (strncpy v n)
  | None => panic
  end.

(** ** Functions 5 and 6: PIN and default name *)

Definition upper (c : ascii) : ascii :=
  let n := nat_of_ascii c in
  if ((97 <=? n) && (n <=? 122))%nat then ascii_of_nat (n - 32) else c.

Fixpoint toUpperCase (s : string) : string :=
  match s with
  | EmptyString => EmptyString
  | String c r => String (upper c) (toUpperCase r)
  end.

Definition String_hex (z : Z) : string :=
  HexadecimalString.NilZero.string_of_uint (N.to_hex_uint (Z.to_N z)).

(** [random(lo, hi)]: the next draw, reduced to [lo .. hi - 1]. *)
Definition random (lo hi : Z) : M Z := fun s =>
  let w := world s in
  let r := match rng w with r :: _ => r | [] => 0 end in
  Running (lo + r mod (hi - lo)) (set_world (with_rng (tail (rng w)) w) s).

Definition generateDevicePIN : M string :=
  let* r := random 100 999 in ret (String_of_Z r).

Definition generateDefaultFriendlyName : M string :=
  let* chipid := gets (fun s => efuseMac (world s)) in
  let chip := Z.shiftr chipid 32 mod 2 ^ 16 in
  ret ("CAM " ++ toUpperCase (substring_to 0 2 (String_hex chip))).

(** ** Function 1: load default configuration *)

Definition loadDefaultConfig : M unit :=
  modify (set_config zero_config);;;
  let* deviceName := generateDefaultFriendlyName in
  modify_config (with_deviceName (strncpy deviceName sz_deviceName));;;
  modify_config (with_friendlyName (strncpy deviceName sz_friendlyName));;;
  let* pin := generateDevicePIN in
  modify_config (with_devicePIN (strncpy pin sz_devicePIN));;;
  modify_config (with_alertMsg (strncpy "Smart Witness Alert" sz_alertMsg));;;
  modify_config (with_isConfigured false);;;
  modify_config (with_pinConfigured false);;;
  modify_config (with_configVersion 1).

Section Firmware.

(** The ArduinoJson codec: [deserializeJson] into a document of the given
    capacity ([None]: a [DeserializationError]) and [serializeJson]. *)
Variable deserializeJson : nat -> string -> option JsonDocument.
Variable serializeJson : JsonDocument -> string.

(** ** Function 2: load configuration from SPIFFS *)

Definition load_wifi (doc : JsonDocument) (i : nat) : M unit :=
  let ssidKey := "wifiSSID" ++ String_of_Z (Z.of_nat i) in
  let passKey := "wifiPassword" ++ String_of_Z (Z.of_nat i) in
  modify_config (fun c => with_wifiSSID (<[i := strncpy (cstr_or doc ssidKey "") sz_wifi]> (wifiSSID c)) c);;;
  modify_config (fun c => with_wifiPassword (<[i := strncpy (cstr_or doc passKey "") sz_wifi]> (wifiPassword c)) c).

Definition loadConfig : M unit :=
  let* file := gets (fun s => spiffs_config (world s)) in
  match file with
  | None => loadDefaultConfig
  | Some buf =>
      if (2048 <? String.length buf)%nat then loadDefaultConfig
      else
        match deserializeJson 2048 buf with
        | None => loadDefaultConfig
        | Some doc =>
            modify_config (with_deviceName (strncpy (cstr_or doc "deviceName" "") sz_deviceName));;;
            modify_config (with_friendlyName (strncpy (cstr_or doc "friendlyName" "") sz_friendlyName));;;
            modify_config (with_devicePIN (strncpy (cstr_or doc "devicePIN" "") sz_devicePIN));;;
            load_wifi doc 0;;;
            load_wifi doc 1;;;
            load_wifi doc 2;;;
            modify_config (with_telegramToken (strncpy (cstr_or doc "telegramToken" "") sz_telegramToken));;;
            modify_config (with_telegramUser (strncpy (cstr_or doc "telegramUser" "") sz_telegramUser));;;
            modify_config (with_personalChatId (strncpy (cstr_or doc "personalChatId" "") sz_chatId));;;
            modify_config (with_familiarChatId (strncpy (cstr_or doc "familiarChatId" "") sz_chatId));;;
            modify_config (with_vecinalChatId (strncpy (cstr_or doc "vecinalChatId" "") sz_chatId));;;
            modify_config (with_alertMsg (strncpy (cstr_or doc "alertMsg" "Smart Witness Alert") sz_alertMsg));;;
            modify_config (with_isConfigured (bool_or doc "isConfigured" false));;;
            modify_config (with_pinConfigured (bool_or doc "pinConfigured" false));;;
            modify_config (with_configVersion (wrap32 (int_or doc "configVersion" 1)))
        end
  end.

(** ** Function 3: save configuration to SPIFFS *)

Definition config_document (c : SmartWitnessConfig) : JsonDocument :=
  <["configVersion" := JInt (configVersion c)]>
  (<["pinConfigured" := JBool (pinConfigured c)]>
  (<["isConfigured" := JBool (isConfigured c)]>
  (<["alertMsg" := JString (alertMsg c)]>
  (<["vecinalChatId" := JString (vecinalChatId c)]>
  (<["familiarChatId" := JString (familiarChatId c)]>
  (<["personalChatId" := JString (personalChatId c)]>
  (<["telegramUser" := JString (telegramUser c)]>
  (<["telegramToken" := JString (telegramToken c)]>
  (<["wifiPassword2" := JString (wifiPassword_at c 2)]>
  (<["wifiSSID2" := JString (wifiSSID_at c 2)]>
  (<["wifiPassword1" := JString (wifiPassword_at c 1)]>
  (<["wifiSSID1" := JString (wifiSSID_at c 1)]>
  (<["wifiPassword0" := JString (wifiPassword_at c 0)]>
  (<["wifiSSID0" := JString (wifiSSID_at c 0)]>
  (<["devicePIN" := JString (devicePIN c)]>
  (<["friendlyName" := JString (friendlyName c)]>
  (<["deviceName" := JString (deviceName c)]> ∅))))))))))))))))).

Definition saveConfig : M unit :=
  let* c := gets config in
  let doc := config_document c in
  let* writable := gets (fun s => spiffs_writable (world s)) in
  if negb writable then ret tt
  else
    let out := serializeJson doc in
    modify_world (with_spiffs_config (Some out));;;
    log (EvSaveConfig (negb (String.eqb out ""))).

(** ** Functions 8 to 11: the BLE provisioning transport *)

(** Function 9 *)
Definition updateBLEStatus (status : string) : M unit :=
  let* b := gets ble in
  when (pStatusCharacteristic b) (log (EvBLEStatus status));;;
  let* pin := gets (fun s => devicePIN (config s)) in
  when (String.eqb status "connected_pin_ready" && pPinCharacteristic b) (log (EvBLEPin pin)).

(** Function 8 *)
Definition initBLE : M unit :=
  let* name := gets (fun s => deviceName (config s)) in
  log (EvBLEInit name);;;
  modify (fun s => set_ble (mkBLE true true true (advertising (ble s)) (deviceConnected (ble s))) s);;;
  modify (fun s => set_ble (mkBLE (pServer (ble s)) (pStatusCharacteristic (ble s))
                              (pPinCharacteristic (ble s)) true (deviceConnected (ble s))) s);;;
  log (EvBLEAdvertise true);;;
  updateBLEStatus "waiting_for_connection".

(** Function 11 *)
Definition triggerConfigurationRestart : M unit :=
  let* b := gets ble in
  when (pServer b)
    (log (EvBLEAdvertise false);;;
     log EvBLEDeinit;;;
     modify (fun s => set_ble (mkBLE (pServer (ble s)) (pStatusCharacteristic (ble s))
                                 (pPinCharacteristic (ble s)) false (deviceConnected (ble s))) s));;;
  delay 1000;;;
  ESP_restart.

(** Function 10 *)
Definition processBLEConfiguration (configData : string) : M unit :=
  match deserializeJson 1024 configData with
  | None => updateBLEStatus "config_error_invalid_json"
  | Some doc =>
      if negb (containsKey doc "telegramToken") || negb (containsKey doc "wifiSSID")
         || negb (containsKey doc "wifiPassword")
      then updateBLEStatus "config_error_missing_fields"
      else
        when (containsKey doc "friendlyName")
          (let* v := strncpy_member doc "friendlyName" sz_friendlyName in
           modify_config (with_friendlyName v));;;
        let* v := strncpy_member doc "telegramToken" sz_telegramToken in
        modify_config (with_telegramToken v);;;
        let* v := strncpy_member doc "wifiSSID" sz_wifi in
        modify_config (fun c => with_wifiSSID (<[0%nat := v]> (wifiSSID c)) c);;;
        let* v := strncpy_member doc "wifiPassword" sz_wifi in
        modify_config (fun c => with_wifiPassword (<[0%nat := v]> (wifiPassword c)) c);;;
        when (containsKey doc "wifiSSID2")
          (let* v := strncpy_member doc "wifiSSID2" sz_wifi in
           modify_config (fun c => with_wifiSSID (<[1%nat := v]> (wifiSSID c)) c);;;
           let* v := strncpy_member doc "wifiPassword2" sz_wifi in
           modify_config (fun c => with_wifiPassword (<[1%nat := v]> (wifiPassword c)) c));;;
        when (containsKey doc "wifiSSID3")
          (let* v := strncpy_member doc "wifiSSID3" sz_wifi in
           modify_config (fun c => with_wifiSSID (<[2%nat := v]> (wifiSSID c)) c);;;
           let* v := strncpy_member doc "wifiPassword3" sz_wifi in
           modify_config (fun c => with_wifiPassword (<[2%nat := v]> (wifiPassword c)) c));;;
        when (containsKey doc "alertMsg")
          (let* v := strncpy_member doc "alertMsg" sz_alertMsg in
           modify_config (with_alertMsg v));;;
        modify_config (with_isConfigured true);;;
        modify_config (fun c => with_configVersion (wrap32 (configVersion c + 1)) c);;;
        saveConfig;;;
        updateBLEStatus "config_received_restarting";;;
        delay 2000;;;
        triggerConfigurationRestart
  end.


(** ** Utility functions *)

Definition FIRMWARE_VERSION : string := "v2.1.0-Production-SingleFile".

Definition getCurrentChatId (c : SmartWitnessConfig) : string := personalChatId c.

Definition getCurrentConfigValue (c : SmartWitnessConfig) (field : string) : string :=
  if String.eqb field "edit_name" then friendlyName c
  else if String.eqb field "edit_ssid1" then wifiSSID_at c 0
  else if String.eqb field "edit_ssid2" then wifiSSID_at c 1
  else if String.eqb field "edit_ssid3" then wifiSSID_at c 2
  else if String.eqb field "edit_telegram" then substring_to 0 10 (telegramToken c) ++ "..."
  else if String.eqb field "edit_alert" then alertMsg c
  else if String.eqb field "edit_familiar" then familiarChatId c
  else if String.eqb field "edit_vecinal" then vecinalChatId c
  else "Unknown field".

Definition getFieldName (field : string) : string :=
  if String.eqb field "edit_name" then "Device Name"
  else if String.eqb field "edit_ssid1" then "WiFi Network 1"
  else if String.eqb field "edit_ssid2" then "WiFi Network 2"
  else if String.eqb field "edit_ssid3" then "WiFi Network 3"
  else if String.eqb field "edit_telegram" then "Telegram Token"
  else if String.eqb field "edit_alert" then "Alert Message"
  else if String.eqb field "edit_familiar" then "Family Chat ID"
  else if String.eqb field "edit_vecinal" then "Neighborhood Chat ID"
  else "Unknown Field".

Definition getEditPrompt (field currentValue : string) : string :=
  let prompt := "✏️ *Edit " ++ getFieldName field ++ "*" ++ nl ++ nl in
  let prompt := prompt ++ "📄 Current value: `" ++ currentValue ++ "`" ++ nl ++ nl in
  if String.eqb field "edit_name" then
    prompt ++ "📝 Enter new device name (e.g., Kitchen Cam, Front Door):" ++ nl
           ++ "💡 This is the friendly name shown in messages."
  else if startsWith field "edit_ssid" then
    prompt ++ "📡 Enter WiFi network name (SSID):" ++ nl
           ++ "💡 Make sure you have the correct password for this network."
  else if String.eqb field "edit_telegram" then
    prompt ++ "🤖 Enter new Telegram bot token:" ++ nl
           ++ "💡 Get this from @BotFather on Telegram."
  else if String.eqb field "edit_alert" then
    prompt ++ "🚨 Enter new alert message:" ++ nl
           ++ "💡 This message is sent when the device starts up."
  else if String.eqb field "edit_familiar" then
    prompt ++ "👨‍👩‍👧‍👦 Enter family group chat ID:" ++ nl
           ++ "💡 Add the bot to your family group and use /start to get the ID."
  else if String.eqb field "edit_vecinal" then
    prompt ++ "🏘️ Enter neighborhood group chat ID:" ++ nl
           ++ "💡 Add the bot to your neighborhood group and use /start to get the ID."
  else prompt.

Definition getFormattedDateTime : M string :=
  let* now := millis in
  let seconds := now / 1000 in
  let minutes := seconds / 60 in
  let hours := minutes / 60 in
  let days := hours / 24 in
  ret (String_of_Z days ++ "d " ++ String_of_Z (hours mod 24) ++ "h "
       ++ String_of_Z (minutes mod 60) ++ "m " ++ String_of_Z (seconds mod 60) ++ "s").

Definition resetEditingState : M unit :=
  modify (set_editing (mkEditing false "" "" "" 0)).

(** [WiFi.status() == WL_CONNECTED] and [WiFi.SSID()] *)
Definition WiFi_connected (w : World) : bool :=
  match wifi_link w with Some (_, up) => up <=? clock w | None => false end.
Definition WiFi_SSID (w : World) : string :=
  match wifi_link w with
  | Some (ssid, up) => if up <=? clock w then ssid else ""
  | None => ""
  end.

(** ** Functions 13 to 18: status, menus, keyboards *)

Definition button (text data : string) (c : SmartWitnessConfig) : string :=
  "{" ++ q "text" ++ ":" ++ q text ++ "," ++ q "callback_data" ++ ":" ++ q (data ++ "," ++ deviceName c) ++ "}".

(** Function 16 *)
Definition getCancelKeyboard (c : SmartWitnessConfig) : string :=
  "[[" ++ button "❌ Cancel" "/cancel" c ++ "]]".

(** Function 17 *)
Definition getMainMenuKeyboard (c : SmartWitnessConfig) : string :=
  let chatType := getChatType c (getCurrentChatId c) in
  let keyboard := "[[" in
  let keyboard := keyboard ++ button "📷 Photo" "/photo" c ++ "," in
  let keyboard := keyboard ++ button "📊 Status" "/status" c ++ "]," in
  if String.eqb chatType "personal" then
    keyboard ++ "[" ++ button "⚙️ Config" "/config" c ++ ","
             ++ button "🔄 Restart" "/restart" c ++ "],"
             ++ "[" ++ button "📋 Menu" "/menu" c ++ ","
             ++ button "ℹ️ Info" "/info" c ++ "]]"
  else
    keyboard ++ "[" ++ button "📋 Menu" "/menu" c ++ ","
             ++ button "ℹ️ Info" "/info" c ++ "]]".

(** Function 18 *)
Definition getConfigKeyboard (c : SmartWitnessConfig) : string :=
  "[[" ++ button "📝 Device Name" "/edit_name" c ++ ","
       ++ button "📡 WiFi 1" "/edit_ssid1" c ++ "],"
       ++ "[" ++ button "📡 WiFi 2" "/edit_ssid2" c ++ ","
       ++ button "📡 WiFi 3" "/edit_ssid3" c ++ "],"
       ++ "[" ++ button "🤖 Telegram" "/edit_telegram" c ++ ","
       ++ button "🚨 Alert Msg" "/edit_alert" c ++ "],"
       ++ "[" ++ button "👨‍👩‍👧‍👦 Family Chat" "/edit_familiar" c ++ ","
       ++ button "🏘️ Neighborhood" "/edit_vecinal" c ++ "],"
       ++ "[" ++ button "💾 Save & Restart" "/save_restart" c ++ ","
       ++ button "❌ Cancel" "/cancel" c ++ "]]".

(** Function 13 *)
Definition sendStatus (chat_id : string) : M unit :=
  let* s := get in
  let c := config s in
  let st := telegramStats s in
  let* now := millis in
  let status := "📊 *Smart Witness Status*" ++ nl ++ nl in
  let status := status ++ "🔧 Device: " ++ friendlyName c ++ nl in
  let status := status ++ "🆔 ID: " ++ deviceName c ++ nl in
  let status := status ++ "📡 WiFi: " ++ WiFi_SSID (world s) ++ nl in
  let status := status ++ "📶 Signal: " ++ String_of_Z (wifi_rssi (world s)) ++ " dBm" ++ nl in
  let status := status ++ "💾 Free Memory: " ++ String_of_Z (freeHeap (world s)) ++ " bytes" ++ nl in
  let status := status ++ "⏱️ Uptime: " ++ String_of_Z (now / 1000) ++ " seconds" ++ nl in
  let status := status ++ "📨 Messages Sent: " ++ String_of_Z (totalMessagesSent st) ++ nl in
  let status := status ++ "❌ Failed Sends: " ++ String_of_Z (totalFailedSends st) ++ nl in
  let status := status ++ "🔄 Poll Count: " ++ String_of_Z (pollCount st) ++ nl in
  let status := status ++ "⚙️ Commands Processed: " ++ String_of_Z (commandsProcessed st) ++ nl in
  let status :=
    if (0 <? String.length (lastError st))%nat
    then status ++ "⚠️ Last Error: " ++ lastError st ++ nl else status in
  safeSendMessage chat_id status "";;; ret tt.

(** Function 14 *)
Definition sendMainMenu (chat_id : string) : M unit :=
  let* c := gets config in
  let chatType := getChatType c chat_id in
  let message := "📋 *Main Menu - " ++ friendlyName c ++ "*" ++ nl ++ nl in
  let message :=
    if String.eqb chatType "personal" then
      message ++ "🔓 Full access available - All commands enabled"
    else if String.eqb chatType "familiar" then
      message ++ "👨‍👩‍👧‍👦 Family group access - Photos and status only"
    else if String.eqb chatType "vecinal" then
      message ++ "🏘️ Neighborhood alert access - Limited functionality"
    else
      message ++ "❓ Unknown chat type - Limited access" in
  let keyboard := getMainMenuKeyboard c in
  safeSendMessage chat_id message keyboard;;; ret tt.

Definition msg_config_personal_only : string :=
  "❌ Configuration only available in personal chat" ++ nl ++ nl
  ++ "Security policy restricts configuration access to the device owner only.".

(** Function 15 *)
Definition sendConfigMenu (chat_id : string) : M unit :=
  let* c := gets config in
  let chatType := getChatType c chat_id in
  if negb (String.eqb chatType "personal") then
    safeSendMessage chat_id msg_config_personal_only "";;; ret tt
  else
    let message := "⚙️ *Configuration Menu*" ++ nl ++ nl in
    let message := message ++ "Current settings for: " ++ friendlyName c ++ nl in
    let message := message ++ "Device ID: " ++ deviceName c ++ nl in
    let message := message ++ "Config Version: " ++ String_of_Z (configVersion c) ++ nl ++ nl in
    let message := message ++ "Select an option to configure:" in
    let keyboard := getConfigKeyboard c in
    safeSendMessage chat_id message keyboard;;; ret tt.

(** ** Functions 19 to 22: the conversational editing system *)

(** Function 19 *)
Definition startEditMode (field chat_id : string) : M unit :=
  let* c := gets config in
  let chatType := getChatType c chat_id in
  if negb (String.eqb chatType "personal") then
    safeSendMessage chat_id msg_config_personal_only "";;; ret tt
  else
    let* now := millis in
    modify (set_editing (mkEditing true field chat_id "" now));;;
    let currentValue := getCurrentConfigValue c field in
    let prompt := getEditPrompt field currentValue in
    let keyboard := getCancelKeyboard c in
    safeSendMessage chat_id prompt keyboard;;; ret tt.

(** Function 20 *)
Definition showEditConfirmation (newValue field chat_id : string) : M unit :=
  let* c := gets config in
  let currentValue := getCurrentConfigValue c field in
  let message := "✏️ *Confirm Configuration Change*" ++ nl ++ nl in
  let message := message ++ "🔧 Field: " ++ getFieldName field ++ nl in
  let message := message ++ "📄 Current: `" ++ currentValue ++ "`" ++ nl in
  let message := message ++ "🆕 New: `" ++ newValue ++ "`" ++ nl ++ nl in
  let message := message ++ "⚠️ This change will be applied immediately." ++ nl in
  let message := message ++ "Confirm this change?" in
  modify_editing (with_pendingEditValue newValue);;;
  let keyboard := "[[" ++ button "✅ Confirm" "/confirm_edit" c ++ ","
                       ++ button "❌ Cancel" "/cancel" c ++ "]]" in
  safeSendMessage chat_id message keyboard;;; ret tt.

Definition msg_no_session_confirm : string :=
  "❌ No active editing session" ++ nl ++ nl ++ "Please start a configuration edit first.".
Definition msg_no_session_cancel : string := "❌ No active editing session".

(** Function 21 *)
Definition confirmEdit (chat_id : string) : M unit :=
  let* e := gets editing in
  if negb (editingMode e) || negb (String.eqb (editingChatID e) chat_id) then
    safeSendMessage chat_id msg_no_session_confirm "";;; ret tt
  else if (String.length (pendingEditValue e) =? 0)%nat then
    safeSendMessage chat_id "❌ No pending changes to confirm" "";;; ret tt
  else
    let fieldName := getFieldName (editingField e) in
    let pending := pendingEditValue e in
    let* success :=
      if String.eqb (editingField e) "edit_name" then
        modify_config (with_friendlyName (strncpy pending sz_friendlyName));;; ret true
      else if String.eqb (editingField e) "edit_ssid1" then
        modify_config (fun c => with_wifiSSID (<[0%nat := strncpy pending sz_wifi]> (wifiSSID c)) c);;; ret true
      else if String.eqb (editingField e) "edit_ssid2" then
        modify_config (fun c => with_wifiSSID (<[1%nat := strncpy pending sz_wifi]> (wifiSSID c)) c);;; ret true
      else if String.eqb (editingField e) "edit_ssid3" then
        modify_config (fun c => with_wifiSSID (<[2%nat := strncpy pending sz_wifi]> (wifiSSID c)) c);;; ret true
      else if String.eqb (editingField e) "edit_telegram" then
        modify_config (with_telegramToken (strncpy pending sz_telegramToken));;; ret true
      else if String.eqb (editingField e) "edit_alert" then
        modify_config (with_alertMsg (strncpy pending sz_alertMsg));;; ret true
      else if String.eqb (editingField e) "edit_familiar" then
        modify_config (with_familiarChatId (strncpy pending sz_chatId));;; ret true
      else if String.eqb (editingField e) "edit_vecinal" then
        modify_config (with_vecinalChatId (strncpy pending sz_chatId));;; ret true
      else ret false in
    if success then
      modify_config (fun c => with_configVersion (wrap32 (configVersion c + 1)) c);;;
      saveConfig;;;
      safeSendMessage chat_id
        ("✅ Configuration updated successfully!" ++ nl ++ nl ++ "📝 " ++ fieldName
         ++ " has been changed to: `" ++ pending ++ "`" ++ nl ++ nl
         ++ "💾 Configuration saved.") "";;;
      resetEditingState;;;
      delay 1000;;;
      sendConfigMenu chat_id
    else
      safeSendMessage chat_id
        ("❌ Failed to update configuration" ++ nl ++ nl ++ "Unknown field: "
         ++ editingField e) "";;;
      resetEditingState.

(** Function 22 *)
Definition cancelEdit (chat_id : string) : M unit :=
  let* e := gets editing in
  if negb (editingMode e) || negb (String.eqb (editingChatID e) chat_id) then
    safeSendMessage chat_id msg_no_session_cancel "";;; ret tt
  else
    let fieldName := getFieldName (editingField e) in
    resetEditingState;;;
    safeSendMessage chat_id
      ("❌ Edit cancelled" ++ nl ++ nl ++ "🔄 No changes were made to " ++ fieldName ++ ".") "";;;
    delay 500;;;
    sendConfigMenu chat_id.

(** ** Function 23: take photo *)

(** [esp_camera_fb_get()]: [false] is a null frame buffer. *)
Definition esp_camera_fb_get : M bool := fun s =>
  let w := world s in
  Running (match camera w with f :: _ => f | [] => false end)
          (set_world (with_camera (tail (camera w)) w) s).

Definition takePhoto (chat_id : string) : M unit :=
  safeSendMessage chat_id
    ("📸 Taking photo..." ++ nl ++ nl ++ "⏳ Please wait while I capture the image.") "";;;
  delay 200;;;
  let* fb := esp_camera_fb_get in
  if negb fb then
    safeSendMessage chat_id
      ("❌ Failed to capture photo" ++ nl ++ nl
       ++ "🔧 Camera may be busy or hardware issue detected. Please try again.") "";;;
    modify_stats (fun st => with_totalFailedSends (wrap32 (totalFailedSends st + 1)) st)
  else
    let* b := gets bot in
    let* success := match b with
                    | None => panic
                    | Some _ => transport (EvSendPhoto chat_id)
                    end in
    if success then
      let* c := gets config in
      let* date := getFormattedDateTime in
      let caption := "📷 " ++ friendlyName c ++ " - " ++ date in
      let caption := caption ++ nl ++ "📍 Location: Camera position" in
      let caption := caption ++ nl ++ "⚙️ Device: " ++ deviceName c in
      safeSendMessage chat_id caption "";;;
      modify_stats (fun st => with_totalMessagesSent (wrap32 (totalMessagesSent st + 1)) st)
    else
      safeSendMessage chat_id
        ("❌ Failed to send photo" ++ nl ++ nl
         ++ "📡 Network issue or file too large. Please check connection and try again.") "";;;
      modify_stats (fun st => with_totalFailedSends (wrap32 (totalFailedSends st + 1)) st).

(** ** Function 24: startup alerts *)

Definition sendStartupAlertsToAllChats : M unit :=
  let* s := get in
  let c := config s in
  let* date := getFormattedDateTime in
  let alertMessage := "🚀 *Smart Witness Online*" ++ nl ++ nl in
  let alertMessage := alertMessage ++ "📱 Device: " ++ friendlyName c ++ nl in
  let alertMessage := alertMessage ++ "🆔 ID: " ++ deviceName c ++ nl in
  let alertMessage := alertMessage ++ "📡 Network: " ++ WiFi_SSID (world s) ++ nl in
  let alertMessage := alertMessage ++ "📶 Signal: " ++ String_of_Z (wifi_rssi (world s)) ++ " dBm" ++ nl in
  let alertMessage := alertMessage ++ "⏰ Started: " ++ date ++ nl in
  let alertMessage := alertMessage ++ "🔧 Version: " ++ FIRMWARE_VERSION ++ nl ++ nl in
  let alertMessage := alertMessage ++ "📢 " ++ alertMsg c ++ nl ++ nl in
  let alertMessage := alertMessage ++ "✅ System ready for operation!" in
  when (0 <? strlen (personalChatId c))
    (let keyboard := getMainMenuKeyboard c in
     safeSendMessage (personalChatId c) alertMessage keyboard;;;
     delay 1000);;;
  when (0 <? strlen (familiarChatId c))
    (safeSendMessage (familiarChatId c) alertMessage "";;;
     delay 1000);;;
  when (0 <? strlen (vecinalChatId c))
    (safeSendMessage (vecinalChatId c) alertMessage "";;;
     delay 1000).

(** ** WiFi connection with fallback *)

Definition WiFi_disconnect : M unit := modify_world (with_wifi_link None).

Definition WiFi_begin (ssid pass : string) : M unit :=
  modify_world (fun w =>
    with_wifi_link (match wifi_join w ssid pass with
                    | Some d => Some (ssid, clock w + Z.of_N d)
                    | None => None
                    end) w).

(** [while (millis() - startTime < 15000)]: poll the link every 100 ms. *)
Fixpoint wifi_wait (fuel : nat) (startTime : Z) : M bool :=
  let* now := millis in
  if wrap32 (now - startTime) <? 15000 then
    match fuel with
    | O => fun _ => OutOfFuel
    | S fuel' =>
        let* up := gets (fun s => WiFi_connected (world s)) in
        if up then ret true
        else delay 100;;; wifi_wait fuel' startTime
    end
  else ret false.

(** [for (int i = 0; i < 3; i++)] over the configured networks, from [i]
    with [n] iterations left. *)
Fixpoint wifi_networks (i n : nat) : M bool :=
  match n with
  | O => ret false
  | S n' =>
      let* c := gets config in
      if strlen (wifiSSID_at c i) =? 0 then wifi_networks (S i) n'
      else
        WiFi_disconnect;;;
        delay 100;;;
        WiFi_begin (wifiSSID_at c i) (wifiPassword_at c i);;;
        let* startTime := millis in
        let* up := wifi_wait 150 startTime in
        if up then ret true
        else WiFi_disconnect;;; wifi_networks (S i) n'
  end.

Definition connectWiFiWithFallback : M bool := wifi_networks 0 3.

(** ** Message handling *)

Definition extractCommand (message : string) : string :=
  match indexOf_comma message with
  | None => message
  | Some commaIndex => substring_to 0 commaIndex message
  end.

Definition extractDeviceName (message : string) : string :=
  match indexOf_comma message with
  | None => ""
  | Some commaIndex => substring_from (commaIndex + 1) message
  end.

Definition handleEditingInput (message chat_id : string) : M unit :=
  let* now := millis in
  let* e := gets editing in
  if EDITING_TIMEOUT <? wrap32 (now - editingStartTime e) then
    resetEditingState;;;
    safeSendMessage chat_id
      ("⏰ Edit session timed out" ++ nl ++ nl
       ++ "🔄 Please start the configuration edit again.") "";;; ret tt
  else if (String.length message =? 0)%nat then
    safeSendMessage chat_id
      ("❌ Empty input not allowed" ++ nl ++ nl
       ++ "📝 Please enter a valid value or cancel the edit.") "";;; ret tt
  else if (100 <? String.length message)%nat then
    safeSendMessage chat_id
      ("❌ Input too long (max 100 characters)" ++ nl ++ nl
       ++ "📝 Please enter a shorter value.") "";;; ret tt
  else
    showEditConfirmation message (editingField e) chat_id.

Definition handleExactCommands (message chat_id : string) : M unit :=
  let command := extractCommand message in
  let deviceName_ := extractDeviceName message in
  let* c := gets config in
  if negb (String.eqb deviceName_ (deviceName c)) && (0 <? String.length deviceName_)%nat then
    ret tt
  else if String.eqb command "/photo" then takePhoto chat_id
  else if String.eqb command "/status" then sendStatus chat_id
  else if String.eqb command "/menu" then sendMainMenu chat_id
  else if String.eqb command "/config" then sendConfigMenu chat_id
  else if startsWith command "/edit_" then startEditMode command chat_id
  else if String.eqb command "/confirm_edit" then confirmEdit chat_id
  else if String.eqb command "/cancel" then cancelEdit chat_id
  else if String.eqb command "/restart" then
    if String.eqb (getChatType c chat_id) "personal" then
      safeSendMessage chat_id
        ("🔄 Restarting device..." ++ nl ++ nl
         ++ "⏳ The device will be back online in about 30 seconds.") "";;;
      delay 1000;;;
      ESP_restart
    else
      safeSendMessage chat_id "❌ Restart command only available in personal chat" "";;; ret tt
  else if String.eqb command "/info" then
    let* w := gets world in
    let info := "ℹ️ *Smart Witness Information*" ++ nl ++ nl in
    let info := info ++ "🔧 Device: " ++ friendlyName c ++ nl in
    let info := info ++ "🆔 ID: " ++ deviceName c ++ nl in
    let info := info ++ "📡 Network: " ++ WiFi_SSID w ++ nl in
    let info := info ++ "🔧 Version: " ++ FIRMWARE_VERSION ++ nl in
    let info := info ++ "📱 Chat Type: " ++ getChatType c chat_id ++ nl ++ nl in
    let info := info ++ "🤖 Professional IoT Camera System" ++ nl in
    let info := info ++ "✅ BLE Configuration" ++ nl in
    let info := info ++ "✅ Multi-Chat Support" ++ nl in
    let info := info ++ "✅ Production Grade Reliability" in
    safeSendMessage chat_id info "";;; ret tt
  else if String.eqb command "/save_restart" then
    if String.eqb (getChatType c chat_id) "personal" then
      saveConfig;;;
      safeSendMessage chat_id
        ("💾 Configuration saved!" ++ nl ++ nl
         ++ "🔄 Restarting device to apply changes...") "";;;
      delay 2000;;;
      ESP_restart
    else ret tt
  else
    let help := "❓ Unknown command: " ++ command ++ nl ++ nl in
    let help := help ++ "📋 Available commands:" ++ nl in
    let help := help ++ "📷 /photo - Take a photo" ++ nl in
    let help := help ++ "📊 /status - System status" ++ nl in
    let help := help ++ "📋 /menu - Main menu" ++ nl in
    let help := help ++ "ℹ️ /info - Device information" ++ nl in
    let help :=
      if String.eqb (getChatType c chat_id) "personal" then
        help ++ "⚙️ /config - Configuration menu" ++ nl
             ++ "🔄 /restart - Restart device" ++ nl
      else help in
    safeSendMessage chat_id help "";;; ret tt.

Definition handleTelegramMessage (message chat_id userName : string) : M unit :=
  modify_stats (fun st => with_commandsProcessed (wrap32 (commandsProcessed st + 1)) st);;;
  let* e := gets editing in
  if editingMode e && String.eqb chat_id (editingChatID e) then
    handleEditingInput message chat_id
  else
    handleExactCommands message chat_id.

(** ** Main setup function *)

Definition initializeTelegramStats : M unit :=
  modify (set_telegramStats (mkStats 0 0 0 0 "" 0 0)).

Definition setup : M unit :=
  delay 2000;;;
  loadConfig;;;
  initializeTelegramStats;;;
  resetEditingState;;;
  let* c := gets config in
  if negb (hasValidConfig c) then
    assign_currentState NEED_CONFIG;;;
    initBLE;;;
    let* now := millis in
    modify (set_bleConfigStartTime now);;;
    assign_currentState BLE_CONFIG_PHASE
  else
    assign_currentState NORMAL_OPERATION;;;
    let* connected := connectWiFiWithFallback in
    when connected
      (modify (set_bot (Some (telegramToken c)));;;
       delay 5000;;;
       sendStartupAlertsToAllChats).

(** The globals as the C++ initialisers leave them at power-on. *)
Definition boot (w : World) : State :=
  mkState zero_config NEED_CONFIG (mkStats 0 0 0 0 "" 0 0) (mkEditing false "" "" "" 0)
          None (mkBLE false false false false false) 0 0 w [].

End Firmware.

(** * Vocabulary of the properties *)

(** ** Traces *)

(** A call of the Telegram transport for a text message. *)
Definition is_attempt (e : Event) : bool :=
  match e with
  | EvSendMessage _ _ _ | EvSendKeyboard _ _ _ _ => true
  | _ => false
  end.

(** The events of the delivery layer: waiting and transport calls. *)
Definition is_delivery (e : Event) : bool :=
  match e with
  | EvDelay _ | EvSendMessage _ _ _ | EvSendKeyboard _ _ _ _ | EvSendPhoto _ _ => true
  | _ => false
  end.

(** The events of the lifecycle: state changes and the BLE transport. *)
Definition is_lifecycle (e : Event) : bool :=
  match e with
  | EvState _ | EvBLEInit _ | EvBLEAdvertise _ | EvBLEDeinit | EvBLEStatus _ | EvBLEPin _ => true
  | _ => false
  end.

(** What was appended to the trace between [s] and [s']. *)
Definition since (s s' : State) : list (Z * Event) := drop (length (trace s)) (trace s').

Definition attempts (evs : list (Z * Event)) : list (Z * Event) :=
  List.filter (fun te => is_attempt (snd te)) evs.

Definition attempt_times (evs : list (Z * Event)) : list Z := map fst (attempts evs).

Definition lifecycle (evs : list (Z * Event)) : list Event :=
  map snd (List.filter (fun te => is_lifecycle (snd te)) evs).

(** The result of a transport call. *)
Definition attempt_ok (e : Event) : bool :=
  match e with
  | EvSendMessage _ _ ok | EvSendKeyboard _ _ _ ok => ok
  | _ => false
  end.

(** The delay requested between consecutive transport calls: [acc] is the
    delay seen since the last call, [seen] tells whether there was one. *)
Fixpoint backoffs (evs : list (Z * Event)) (seen : bool) (acc : Z) : list Z :=
  match evs with
  | [] => []
  | (_, EvDelay ms) :: rest => backoffs rest seen (acc + ms)
  | (_, e) :: rest =>
      if is_attempt e
      then (if seen then [acc] else []) ++ backoffs rest true 0
      else backoffs rest seen acc
  end%list.

(** Consecutive times are at least [gap] apart. *)
Fixpoint spaced (gap : Z) (ts : list Z) : bool :=
  match ts with
  | t1 :: ((t2 :: _) as rest) => (t1 + gap <=? t2) && spaced gap rest
  | _ => true
  end.

(** ** The delivery layer step by step *)

(** The transport event [safeSendMessage] produces for its arguments. *)
Definition send_event (chat_id message keyboard : string) (ok : bool) : Event :=
  if negb (String.eqb keyboard "") then EvSendKeyboard chat_id message keyboard ok
  else EvSendMessage chat_id message ok.

Definition after_delay (ms : Z) (s : State) : State :=
  let s1 := set_trace (trace s ++ [(clock (world s), EvDelay ms)])%list s in
  set_world (with_clock (clock (world s1) + ms) (world s1)) s1.

Definition after_transport (ev : bool -> Event) (s : State) : State :=
  let w := world s in
  let r := net_next w in
  set_world (with_net (tail (net w)) (with_clock (clock w + Z.of_N (snd r)) w))
            (set_trace (trace s ++ [(clock w, ev (fst r))])%list s).

Definition after_success (s : State) : State :=
  let s1 := set_lastMessageTime (wrap32 (clock (world s))) s in
  let s2 := set_telegramStats
              (with_totalMessagesSent (wrap32 (totalMessagesSent (telegramStats s1) + 1))
                 (telegramStats s1)) s1 in
  set_telegramStats (with_lastSuccessfulSend (wrap32 (clock (world s2))) (telegramStats s2)) s2.

Definition after_failure (chat_id : string) (s : State) : State :=
  let s1 := set_telegramStats
              (with_totalFailedSends (wrap32 (totalFailedSends (telegramStats s) + 1))
                 (telegramStats s)) s in
  let s2 := set_telegramStats
              (with_lastError ("Message send failure to " ++ chat_id) (telegramStats s1)) s1 in
  set_telegramStats (with_lastErrorTime (wrap32 (clock (world s2))) (telegramStats s2)) s2.

(** The rate limit: the state in which the first transport call is made. *)
Definition after_rate_limit (s : State) : State :=
  if wrap32 (wrap32 (clock (world s)) - lastMessageTime s) <? MESSAGE_INTERVAL
  then after_delay (wrap32 (MESSAGE_INTERVAL - wrap32 (wrap32 (clock (world s)) - lastMessageTime s))) s
  else s.

(** The three transport calls a send can make, and the states around them. *)
Definition try1 (ev : bool -> Event) (s : State) : State := after_transport ev (after_rate_limit s).
Definition try2 (ev : bool -> Event) (s : State) : State :=
  after_transport ev (after_delay 500 (try1 ev s)).
Definition try3 (ev : bool -> Event) (s : State) : State :=
  after_transport ev (after_delay 1000 (try2 ev s)).
Definition ok1 (s : State) : bool := fst (net_next (world (after_rate_limit s))).
Definition ok2 (ev : bool -> Event) (s : State) : bool :=
  fst (net_next (world (after_delay 500 (try1 ev s)))).
Definition ok3 (ev : bool -> Event) (s : State) : bool :=
  fst (net_next (world (after_delay 1000 (try2 ev s)))).

(** The outcome of [safeSendMessage] when the bot exists. *)
Definition send_outcome (chat_id message keyboard : string) (s : State) : bool * State :=
  let ev := send_event chat_id message keyboard in
  if ok1 s then (true, after_success (try1 ev s))
  else if ok2 ev s then (true, after_success (try2 ev s))
  else if ok3 ev s then (true, after_success (try3 ev s))
  else (false, after_failure chat_id (try3 ev s)).

(** The events of one [safeSendMessage] call when the bot exists. *)
Definition rate_events (s : State) : list (Z * Event) :=
  if wrap32 (wrap32 (clock (world s)) - lastMessageTime s) <? MESSAGE_INTERVAL
  then [(clock (world s),
         EvDelay (wrap32 (MESSAGE_INTERVAL - wrap32 (wrap32 (clock (world s)) - lastMessageTime s))))]
  else [].

Definition retry_events (chat_id message keyboard : string) (s : State) : list (Z * Event) :=
  let ev := send_event chat_id message keyboard in
  (clock (world (after_rate_limit s)), ev (ok1 s)) ::
  if ok1 s then []
  else
    (clock (world (try1 ev s)), EvDelay 500) ::
    (clock (world (try1 ev s)) + 500, ev (ok2 ev s)) ::
    if ok2 ev s then []
    else
      [(clock (world (try2 ev s)), EvDelay 1000);
       (clock (world (try2 ev s)) + 1000, ev (ok3 ev s))].

Definition send_events (chat_id message keyboard : string) (s : State) : list (Z * Event) :=
  (rate_events s ++ retry_events chat_id message keyboard s)%list.

(** ** Hoare-style reasoning on the firmware monad *)

(** [m] run from [s] returns, and its result and final state satisfy [Q]. *)
Definition returns {A} (m : M A) (s : State) (Q : A -> State -> Prop) : Prop :=
  match m s with Running a s' => Q a s' | _ => False end.

(** Everything in the world but the clock and the pending transport results. *)
Definition world_rest (w : World) : World := with_clock 0 (with_net [] w).

(** What the delivery layer leaves alone: it only waits, talks to the
    transport and updates the statistics and the rate-limit baseline. *)
Record delivery_step (s s' : State) : Prop := mkDeliveryStep {
  ds_config : config s' = config s;
  ds_state : currentState s' = currentState s;
  ds_editing : editing s' = editing s;
  ds_bot : bot s' = bot s;
  ds_ble : ble s' = ble s;
  ds_bleStart : bleConfigStartTime s' = bleConfigStartTime s;
  ds_world : world_rest (world s') = world_rest (world s);
  ds_clock : clock (world s) <= clock (world s');
  ds_trace : exists evs, trace s' = (trace s ++ evs)%list
                         /\ Forall (fun te => is_delivery (snd te) = true) evs
}.

(** [m] run from [s] ends in one of the three ways a firmware call can
    end, and satisfies the matching postcondition. *)
Definition ends {A} (m : M A) (s : State)
    (Q : A -> State -> Prop) (R : State -> Prop) (C : State -> Prop) : Prop :=
  match m s with
  | Running a s' => Q a s'
  | Restarted s' => R s'
  | Crashed s' => C s'
  | OutOfFuel => False
  end.

(** ** A provisioned device, for the examples *)

Definition demo_token : string := "0123456789:ABCDEFGHIJKLMNOPQRSTUVWXYZabcdefghi".

Definition demo_config : SmartWitnessConfig :=
  mkConfig "CAM AB" "CAM AB" "123" ["HomeNet"; ""; ""] ["secret12"; ""; ""]
           demo_token "" "1001" "2002" "3003" "Smart Witness Alert" true false 1.

(** A world at time [t] whose transport will answer [results]. *)
Definition demo_world (t : Z) (results : list (bool * N)) : World :=
  mkWorld t results [] [] 0 200000 (fun _ _ => None) None (-60) None true.

(** The device in normal operation, bot initialised, no editing session. *)
Definition demo_state (t : Z) (results : list (bool * N)) : State :=
  mkState demo_config NORMAL_OPERATION (mkStats 0 0 0 0 "" 0 0) (mkEditing false "" "" "" 0)
          (Some demo_token) (mkBLE false false false false false) 0 0
          (demo_world t results) [].

(** [evs] holds at least one transport call, and every call in it sends
    the text [text] to [chat] without keyboard. *)
Definition replies_with (chat text : string) (evs : list (Z * Event)) : Prop :=
  attempts evs <> []
  /\ Forall (fun te => exists ok, snd te = EvSendMessage chat text ok) (attempts evs).

(** [m] keeps the relation [R] to an earlier state, and returns. *)
Definition preserves {A} (R : State -> State -> Prop) (m : M A) : Prop :=
  forall s0 s, R s0 s -> returns m s (fun _ s' => R s0 s').

(** A JSON codec for the examples.  It writes a fixed text, and reads two
    texts: a complete provisioning payload, and one without WiFi keys. *)
Definition demo_serializeJson (doc : JsonDocument) : string := "{}".

Definition demo_payload : JsonDocument :=
  <["telegramToken" := JString demo_token]>
  (<["wifiSSID" := JString "Home"]>
  (<["wifiPassword" := JString "pw123456"]> ∅)).

Definition demo_deserializeJson (capacity : nat) (text : string) : option JsonDocument :=
  if String.eqb text "complete" then Some demo_payload
  else if String.eqb text "no wifi" then Some (<["telegramToken" := JString demo_token]> ∅)
  else None.

(** A Hoare triple with one postcondition for each way a call can end. *)
Definition triple {A} (P : State -> Prop) (m : M A)
    (Q : A -> State -> Prop) (R C : State -> Prop) : Prop :=
  forall s, P s -> ends m s Q R C.

(** ** Configuration changes *)

(** The field an editing session writes, as [confirmEdit] selects it. *)
Definition apply_edit (field pending : string) (c : SmartWitnessConfig)
    : option SmartWitnessConfig :=
  if String.eqb field "edit_name" then Some (with_friendlyName (strncpy pending sz_friendlyName) c)
  else if String.eqb field "edit_ssid1" then
    Some (with_wifiSSID (<[0%nat := strncpy pending sz_wifi]> (wifiSSID c)) c)
  else if String.eqb field "edit_ssid2" then
    Some (with_wifiSSID (<[1%nat := strncpy pending sz_wifi]> (wifiSSID c)) c)
  else if String.eqb field "edit_ssid3" then
    Some (with_wifiSSID (<[2%nat := strncpy pending sz_wifi]> (wifiSSID c)) c)
  else if String.eqb field "edit_telegram" then
    Some (with_telegramToken (strncpy pending sz_telegramToken) c)
  else if String.eqb field "edit_alert" then Some (with_alertMsg (strncpy pending sz_alertMsg) c)
  else if String.eqb field "edit_familiar" then
    Some (with_familiarChatId (strncpy pending sz_chatId) c)
  else if String.eqb field "edit_vecinal" then
    Some (with_vecinalChatId (strncpy pending sz_chatId) c)
  else None.

(** [confirmEdit] gets past its two guards: the session is open, it is the
    caller's, and a value is pending. *)
Definition confirm_ready (e : EditingState) (chat_id : string) : bool :=
  editingMode e && String.eqb (editingChatID e) chat_id
  && negb (String.length (pendingEditValue e) =? 0)%nat.

(** [confirmEdit] applies the pending value. *)
Definition confirm_applies (e : EditingState) (chat_id : string) (c : SmartWitnessConfig) : bool :=
  confirm_ready e chat_id
  && match apply_edit (editingField e) (pendingEditValue e) c with Some _ => true | None => false end.

(** The operations that can touch the configuration. *)
Inductive ConfigOp :=
| OpProvision (configData : string)        (* processBLEConfiguration *)
| OpOpen (field chat_id : string)          (* startEditMode *)
| OpSubmit (message chat_id : string)      (* handleEditingInput *)
| OpConfirm (chat_id : string)             (* confirmEdit *)
| OpCancel (chat_id : string).             (* cancelEdit *)

Section Operations.

Variable deserializeJson : nat -> string -> option JsonDocument.
Variable serializeJson : JsonDocument -> string.

Definition run_op (op : ConfigOp) : M unit :=
  match op with
  | OpProvision configData => processBLEConfiguration deserializeJson serializeJson configData
  | OpOpen field chat_id => startEditMode field chat_id
  | OpSubmit message chat_id => handleEditingInput message chat_id
  | OpConfirm chat_id => confirmEdit serializeJson chat_id
  | OpCancel chat_id => cancelEdit chat_id
  end.

(** The globals an operation leaves behind, however it ends. *)
Definition state_after (op : ConfigOp) (s : State) : State :=
  match run_op op s with
  | Running _ s' | Restarted s' | Crashed s' => s'
  | OutOfFuel => s
  end.

(** A provisioning intake succeeds when it reaches its restart, an
    edit-confirm when it applies the pending value. *)
Definition op_succeeds (op : ConfigOp) (s : State) : bool :=
  match op with
  | OpProvision _ => match run_op op s with Restarted _ => true | _ => false end
  | OpConfirm chat_id => confirm_applies (editing s) chat_id (config s)
  | _ => false
  end.

End Operations.

(** A state predicate that only looks at the configuration. *)
Definition cfg_inv (p : SmartWitnessConfig -> Prop) : State -> Prop := fun s => p (config s).

(** ** Boot *)

(** What normal operation leaves alone while it connects and reports:
    the configuration, the lifecycle state and the BLE objects; it only
    adds delivery events to the trace. *)
Record quiet_step (s s' : State) : Prop := mkQuietStep {
  qs_config : config s' = config s;
  qs_state : currentState s' = currentState s;
  qs_ble : ble s' = ble s;
  qs_bleStart : bleConfigStartTime s' = bleConfigStartTime s;
  qs_trace : exists evs, trace s' = (trace s ++ evs)%list
                         /\ Forall (fun te => is_delivery (snd te) = true) evs
}.

(** What loading the configuration leaves alone. *)
Definition load_inv (s0 : State) : State -> Prop := fun s =>
  currentState s = currentState s0 /\ ble s = ble s0
  /\ bleConfigStartTime s = bleConfigStartTime s0 /\ trace s = trace s0
  /\ clock (world s) = clock (world s0).

(** [currentState = st], step by step. *)
Definition after_assign (st : SystemState) (s : State) : State :=
  let s1 := set_currentState st s in
  set_trace (trace s1 ++ [(clock (world s1), EvState st)])%list s1.

(** The state [initBLE] leaves. *)
Definition after_initBLE (s : State) : State :=
  let t := clock (world s) in
  set_trace (trace s ++ [(t, EvBLEInit (deviceName (config s))); (t, EvBLEAdvertise true);
                         (t, EvBLEStatus "waiting_for_connection")])%list
    (set_ble (mkBLE true true true true (deviceConnected (ble s))) s).

(** The state in which [setup] takes its decision: statistics and editing
    session reset. *)
Definition after_resets (s : State) : State :=
  set_editing (mkEditing false "" "" "" 0) (set_telegramStats (mkStats 0 0 0 0 "" 0 0) s).

(** The state [setup] leaves when the configuration is not valid. *)
Definition after_need_config (s : State) : State :=
  let s1 := after_initBLE (after_assign NEED_CONFIG s) in
  after_assign BLE_CONFIG_PHASE (set_bleConfigStartTime (wrap32 (clock (world s1))) s1).

(** ** The pairing PIN *)

(** The decimal text of [100 + k] has three digits and fits the PIN buffer. *)
Definition pin_digits_ok (k : nat) : bool :=
  (String.length (String_of_Z (100 + Z.of_nat k)) =? 3)%nat
  && String.eqb (strncpy (String_of_Z (100 + Z.of_nat k)) sz_devicePIN)
                (String_of_Z (100 + Z.of_nat k)).

(** ** Buffers *)

(** A string is the contents of a [char buf[n + 1]]: [strncpy] with
    [n = sizeof(buf) - 1] copies all of it. *)
Definition fits (n : nat) (v : string) : Prop := strncpy v n = v.

(** Every field of the configuration is the contents of its buffer, the
    two WiFi arrays have their three entries, and [configVersion] is a
    [uint32_t]. *)
Record buffers_ok (c : SmartWitnessConfig) : Prop := mkBuffersOk {
  bo_deviceName : fits sz_deviceName (deviceName c);
  bo_friendlyName : fits sz_friendlyName (friendlyName c);
  bo_devicePIN : fits sz_devicePIN (devicePIN c);
  bo_wifiSSID : length (wifiSSID c) = 3%nat /\ Forall (fits sz_wifi) (wifiSSID c);
  bo_wifiPassword : length (wifiPassword c) = 3%nat /\ Forall (fits sz_wifi) (wifiPassword c);
  bo_telegramToken : fits sz_telegramToken (telegramToken c);
  bo_telegramUser : fits sz_telegramUser (telegramUser c);
  bo_personalChatId : fits sz_chatId (personalChatId c);
  bo_familiarChatId : fits sz_chatId (familiarChatId c);
  bo_vecinalChatId : fits sz_chatId (vecinalChatId c);
  bo_alertMsg : fits sz_alertMsg (alertMsg c);
  bo_configVersion : 0 <= configVersion c < 2 ^ 32
}.

(** ** What the configuration operations write *)

(** The fields that neither the provisioning intake nor an editing
    session assigns. *)
Definition identity_kept (c x : SmartWitnessConfig) : Prop :=
  deviceName x = deviceName c /\ devicePIN x = devicePIN c
  /\ telegramUser x = telegramUser c /\ personalChatId x = personalChatId c
  /\ pinConfigured x = pinConfigured c.

(** A property of the configuration that every assignment of
    [processBLEConfiguration] and [confirmEdit] keeps. *)
Record write_closed (p : SmartWitnessConfig -> Prop) : Prop := mkWriteClosed {
  wc_friendlyName : forall src c, p c -> p (with_friendlyName (strncpy src sz_friendlyName) c);
  wc_telegramToken : forall src c, p c -> p (with_telegramToken (strncpy src sz_telegramToken) c);
  wc_wifiSSID : forall i src c,
    p c -> p (with_wifiSSID (<[i := strncpy src sz_wifi]> (wifiSSID c)) c);
  wc_wifiPassword : forall i src c,
    p c -> p (with_wifiPassword (<[i := strncpy src sz_wifi]> (wifiPassword c)) c);
  wc_alertMsg : forall src c, p c -> p (with_alertMsg (strncpy src sz_alertMsg) c);
  wc_familiarChatId : forall src c, p c -> p (with_familiarChatId (strncpy src sz_chatId) c);
  wc_vecinalChatId : forall src c, p c -> p (with_vecinalChatId (strncpy src sz_chatId) c);
  wc_isConfigured : forall c, p c -> p (with_isConfigured true c);
  wc_configVersion : forall c, p c -> p (with_configVersion (wrap32 (configVersion c + 1)) c)
}.

Section Runs.

Variable deserializeJson : nat -> string -> option JsonDocument.
Variable serializeJson : JsonDocument -> string.

(** The globals after a run of operations within one boot.  As in
    [state_after], the run is followed past an operation that ends in a
    restart or a panic: what holds of these runs holds of the shorter ones
    the device can make. *)
Fixpoint run_ops (ops : list ConfigOp) (s : State) : State :=
  match ops with
  | [] => s
  | op :: rest => run_ops rest (state_after deserializeJson serializeJson op s)
  end.

End Runs.

(** ** Loading *)

(** The configuration [loadDefaultConfig] leaves, from the chip id and the
    next random draw. *)
Definition default_config (w : World) : SmartWitnessConfig :=
  let chip := Z.shiftr (efuseMac w) 32 mod 2 ^ 16 in
  let name := "CAM " ++ toUpperCase (substring_to 0 2 (String_hex chip)) in
  let r := match rng w with r :: _ => r | [] => 0 end in
  let pin := String_of_Z (100 + r mod (999 - 100)) in
  with_configVersion 1
  (with_pinConfigured false
  (with_isConfigured false
  (with_alertMsg (strncpy "Smart Witness Alert" sz_alertMsg)
  (with_devicePIN (strncpy pin sz_devicePIN)
  (with_friendlyName (strncpy name sz_friendlyName)
  (with_deviceName (strncpy name sz_deviceName) zero_config)))))).

(** The globals [loadDefaultConfig] leaves: one random draw is consumed. *)
Definition after_default (s : State) : State :=
  set_world (with_rng (tail (rng (world s))) (world s)) (set_config (default_config (world s)) s).

(** The assignments of [loadConfig] from a parsed document, in order. *)
Definition loaded_wifi (doc : JsonDocument) (i : nat) (c : SmartWitnessConfig)
    : SmartWitnessConfig :=
  let ssidKey := "wifiSSID" ++ String_of_Z (Z.of_nat i) in
  let passKey := "wifiPassword" ++ String_of_Z (Z.of_nat i) in
  let c := with_wifiSSID (<[i := strncpy (cstr_or doc ssidKey "") sz_wifi]> (wifiSSID c)) c in
  with_wifiPassword (<[i := strncpy (cstr_or doc passKey "") sz_wifi]> (wifiPassword c)) c.

Definition loaded_config (doc : JsonDocument) (c : SmartWitnessConfig) : SmartWitnessConfig :=
  let c := with_deviceName (strncpy (cstr_or doc "deviceName" "") sz_deviceName) c in
  let c := with_friendlyName (strncpy (cstr_or doc "friendlyName" "") sz_friendlyName) c in
  let c := with_devicePIN (strncpy (cstr_or doc "devicePIN" "") sz_devicePIN) c in
  let c := loaded_wifi doc 0 c in
  let c := loaded_wifi doc 1 c in
  let c := loaded_wifi doc 2 c in
  let c := with_telegramToken (strncpy (cstr_or doc "telegramToken" "") sz_telegramToken) c in
  let c := with_telegramUser (strncpy (cstr_or doc "telegramUser" "") sz_telegramUser) c in
  let c := with_personalChatId (strncpy (cstr_or doc "personalChatId" "") sz_chatId) c in
  let c := with_familiarChatId (strncpy (cstr_or doc "familiarChatId" "") sz_chatId) c in
  let c := with_vecinalChatId (strncpy (cstr_or doc "vecinalChatId" "") sz_chatId) c in
  let c := with_alertMsg (strncpy (cstr_or doc "alertMsg" "Smart Witness Alert") sz_alertMsg) c in
  let c := with_isConfigured (bool_or doc "isConfigured" false) c in
  let c := with_pinConfigured (bool_or doc "pinConfigured" false) c in
  with_configVersion (wrap32 (int_or doc "configVersion" 1)) c.

(** What [loadConfig] reads: the parsed document, or nothing when the file
    is missing, longer than 2048 bytes or not JSON. *)
Definition stored_document (deserializeJson : nat -> string -> option JsonDocument)
    (w : World) : option JsonDocument :=
  match spiffs_config w with
  | None => None
  | Some buf => if (2048 <? String.length buf)%nat then None else deserializeJson 2048%nat buf
  end.

(** A world whose file system holds the given text as [/config.json]. *)
Definition set_spiffs (text : string) (w : World) : World := with_spiffs_config (Some text) w.

(** The demo device before it has an owner, and what the complete
    provisioning payload of the examples makes of its configuration. *)
Definition unowned_config : SmartWitnessConfig := with_personalChatId "" demo_config.

Definition provisioned_config : SmartWitnessConfig :=
  with_configVersion 2
  (with_isConfigured true
  (with_wifiPassword ["pw123456"; ""; ""]
  (with_wifiSSID ["Home"; ""; ""]
  (with_telegramToken demo_token unowned_config)))).

(** A JSON codec for the examples that writes the name of the document:
    the configuration of the demo device, or the provisioned one.  It
    reads these back, and the provisioning payloads of
    [demo_deserializeJson]. *)
Definition store_serializeJson (doc : JsonDocument) : string :=
  match doc !! "personalChatId" with
  | Some (JString "") => "provisioned"
  | _ => "stored"
  end.

Definition store_deserializeJson (capacity : nat) (text : string) : option JsonDocument :=
  if String.eqb text "stored" then Some (config_document demo_config)
  else if String.eqb text "provisioned" then Some (config_document provisioned_config)
  else demo_deserializeJson capacity text.

(** ** Provisioning and the next boot *)

(** The file holds the configuration in memory, and that configuration
    has no personal chat id. *)
Definition saved_unowned (serializeJson : JsonDocument -> string) (s : State) : Prop :=
  personalChatId (config s) = ""
  /\ spiffs_config (world s) = Some (serializeJson (config_document (config s))).

(** No personal chat id, and the file system accepts a write. *)
Definition unowned_writable (s : State) : Prop :=
  personalChatId (config s) = "" /\ spiffs_writable (world s) = true.

(** ** The BLE callbacks *)

Definition set_deviceConnected (v : bool) (s : State) : State :=
  set_ble (mkBLE (pServer (ble s)) (pStatusCharacteristic (ble s)) (pPinCharacteristic (ble s))
             (advertising (ble s)) v) s.

Definition set_advertising (v : bool) (s : State) : State :=
  set_ble (mkBLE (pServer (ble s)) (pStatusCharacteristic (ble s)) (pPinCharacteristic (ble s))
             v (deviceConnected (ble s))) s.

(** [String(value.c_str())]: the bytes before the first NUL. *)
Definition of_c_str (raw : string) : string := strncpy raw (String.length raw).

(** [MyServerCallbacks::onConnect] *)
Definition onConnect : M unit :=
  modify (set_deviceConnected true);;;
  let* devicePIN_ := generateDevicePIN in
  modify_config (with_devicePIN (strncpy devicePIN_ sz_devicePIN));;;
  updateBLEStatus "connected_pin_ready".

(** [MyServerCallbacks::onDisconnect] *)
Definition onDisconnect : M unit :=
  modify (set_deviceConnected false);;;
  let* st := gets currentState in
  when (SystemState_eqb st BLE_CONFIG_PHASE)
    (modify (set_advertising true);;; log (EvBLEAdvertise true)).

Section Callbacks.

Variable deserializeJson : nat -> string -> option JsonDocument.
Variable serializeJson : JsonDocument -> string.

(** [ConfigCharacteristicCallbacks::onWrite], with the bytes written. *)
Definition ConfigCharacteristic_onWrite (raw : string) : M unit :=
  let value := of_c_str raw in
  when (0 <? String.length value)%nat
    (processBLEConfiguration deserializeJson serializeJson value).

(** [CommandCharacteristicCallbacks::onWrite], with the bytes written. *)
Definition CommandCharacteristic_onWrite (raw : string) : M unit :=
  let command := of_c_str raw in
  when (String.eqb command "telegram_opened")
    (updateBLEStatus "telegram_opened_restarting";;;
     delay 2000;;;
     triggerConfigurationRestart).

End Callbacks.

(** ** The main loop *)

Definition PIN_CONFIG_TIMEOUT : Z := 120000.
Definition POLL_INTERVAL : Z := 2000.
Definition EDITING_POLL_INTERVAL : Z := 1000.
Definition HEALTH_CHECK_INTERVAL : Z := 30000.

(** The globals and function statics that only the main loop and its
    callees use. *)
Record LoopGlobals := mkLoop {
  isFirstUpdateAfterBoot : bool;
  lastTelegramPoll : Z;           (* unsigned long *)
  lastHealthCheck : Z;            (* unsigned long *)
  pinPhaseStartTime : Z;          (* unsigned long *)
  oldDeviceConnected : bool;
  lastHealthLog : Z;              (* static in checkSystemHealth *)
  lastReconnectAttempt : Z        (* static in loop *)
}.

Definition with_isFirstUpdateAfterBoot v g := mkLoop v (lastTelegramPoll g) (lastHealthCheck g) (pinPhaseStartTime g) (oldDeviceConnected g) (lastHealthLog g) (lastReconnectAttempt g).
Definition with_lastTelegramPoll v g := mkLoop (isFirstUpdateAfterBoot g) v (lastHealthCheck g) (pinPhaseStartTime g) (oldDeviceConnected g) (lastHealthLog g) (lastReconnectAttempt g).
Definition with_lastHealthCheck v g := mkLoop (isFirstUpdateAfterBoot g) (lastTelegramPoll g) v (pinPhaseStartTime g) (oldDeviceConnected g) (lastHealthLog g) (lastReconnectAttempt g).
Definition with_oldDeviceConnected v g := mkLoop (isFirstUpdateAfterBoot g) (lastTelegramPoll g) (lastHealthCheck g) (pinPhaseStartTime g) v (lastHealthLog g) (lastReconnectAttempt g).
Definition with_lastHealthLog v g := mkLoop (isFirstUpdateAfterBoot g) (lastTelegramPoll g) (lastHealthCheck g) (pinPhaseStartTime g) (oldDeviceConnected g) v (lastReconnectAttempt g).
Definition with_lastReconnectAttempt v g := mkLoop (isFirstUpdateAfterBoot g) (lastTelegramPoll g) (lastHealthCheck g) (pinPhaseStartTime g) (oldDeviceConnected g) (lastHealthLog g) v.

(** The loop globals as the C++ initialisers leave them at power-on. *)
Definition boot_loop : LoopGlobals := mkLoop true 0 0 0 false 0 0.

(** An entry of [bot->messages]. *)
Record TelegramMessage := mkMessage {
  msg_chat_id : string;
  msg_text : string;
  msg_from_name : string
}.

(** What one pass of the loop reads from outside: the line on the serial
    port, if any, and the messages [getUpdates] returns if it is called. *)
Record LoopInput := mkInput {
  serial_line : option string;
  updates : list TelegramMessage
}.

(** [String::trim] *)
Definition isspace (c : ascii) : bool :=
  let n := nat_of_ascii c in ((n =? 32) || ((9 <=? n) && (n <=? 13)))%nat.

Fixpoint trim_left (s : string) : string :=
  match s with
  | String c r => if isspace c then trim_left r else s
  | EmptyString => EmptyString
  end.

Fixpoint trim_right (s : string) : string :=
  match s with
  | String c r =>
      let r' := trim_right r in
      if isspace c && (String.length r' =? 0)%nat then EmptyString else String c r'
  | EmptyString => EmptyString
  end.

Definition trim (s : string) : string := trim_right (trim_left s).

(** [SPIFFS.remove("/config.json")]; a file system that refuses writes
    keeps the file. *)
Definition SPIFFS_remove : M unit :=
  let* writable := gets (fun s => spiffs_writable (world s)) in
  when writable (modify_world (with_spiffs_config None)).

Definition modify_lastError (v : string) : M unit := modify_stats (with_lastError v).

(** [checkSystemHealth] *)
Definition checkSystemHealth (g : LoopGlobals) : M LoopGlobals :=
  let* now := millis in
  let g := if 60000 <? wrap32 (now - lastHealthLog g) then with_lastHealthLog now g else g in
  let* w := gets world in
  when (freeHeap w <? 50000) (modify_lastError ("Low memory: " ++ String_of_Z (freeHeap w)));;;
  let* w := gets world in
  let* st := gets currentState in
  (if negb (WiFi_connected w) && SystemState_eqb st NORMAL_OPERATION then
     let* connected := connectWiFiWithFallback in
     when (negb connected) (modify_lastError "WiFi connection failed")
   else ret tt);;;
  ret g.

Section Loop.

Variable serializeJson : JsonDocument -> string.

(** Function 25: [handleSerialCommands], with the line read if the port
    has input. *)
Definition handleSerialCommands (line : option string) : M unit :=
  match line with
  | None => ret tt
  | Some raw =>
      let command := trim raw in
      if String.eqb command "status" then ret tt
      else if String.eqb command "restart" then delay 1000;;; ESP_restart
      else if String.eqb command "reset" then SPIFFS_remove;;; delay 1000;;; ESP_restart
      else if String.eqb command "test_photo" then
        let* c := gets config in
        when (0 <? strlen (personalChatId c)) (takePhoto (personalChatId c))
      else if String.eqb command "wifi_scan" then ret tt
      else if String.eqb command "memory" then ret tt
      else if String.eqb command "stats" then ret tt
      else if startsWith command "send " then
        let message := substring_from 5 command in
        let* c := gets config in
        when (0 <? strlen (personalChatId c))
          (safeSendMessage (personalChatId c) ("🔧 Test message: " ++ message) "";;; ret tt)
      else if String.eqb command "ble_start" then
        let* st := gets currentState in
        when (negb (SystemState_eqb st BLE_CONFIG_PHASE))
          (assign_currentState BLE_CONFIG_PHASE;;; initBLE)
      else if String.eqb command "ble_stop" then
        let* st := gets currentState in
        when (SystemState_eqb st BLE_CONFIG_PHASE)
          (let* b := gets ble in
           when (pServer b)
             (log (EvBLEAdvertise false);;;
              log EvBLEDeinit;;;
              modify (set_advertising false));;;
           assign_currentState NORMAL_OPERATION)
      else ret tt
  end.

(** [for (int i = 0; i < numNewMessages; i++)] over [bot->messages]. *)
Fixpoint handle_messages (msgs : list TelegramMessage) : M unit :=
  match msgs with
  | [] => ret tt
  | m :: rest =>
      handleTelegramMessage serializeJson (msg_text m) (msg_chat_id m) (msg_from_name m);;;
      handle_messages rest
  end.

(** [handleProductionTelegramPolling], with the messages [getUpdates]
    returns if it is reached. *)
Definition handleProductionTelegramPolling (new_messages : list TelegramMessage)
    (g : LoopGlobals) : M LoopGlobals :=
  let* b := gets bot in
  match b with
  | None => ret g
  | Some _ =>
      let* currentTime := millis in
      if isFirstUpdateAfterBoot g && (currentTime <? 10000) then ret g
      else
        let g := if isFirstUpdateAfterBoot g then with_isFirstUpdateAfterBoot false g else g in
        let* e := gets editing in
        let pollInterval := if editingMode e then EDITING_POLL_INTERVAL else POLL_INTERVAL in
        if wrap32 (currentTime - lastTelegramPoll g) <? pollInterval then ret g
        else
          let g := with_lastTelegramPoll currentTime g in
          modify_stats (fun st => with_pollCount (wrap32 (pollCount st + 1)) st);;;
          handle_messages new_messages;;;
          ret g
  end.

(** The [switch (currentState)] of [loop]. *)
Definition loop_state (input : LoopInput) (g : LoopGlobals) : M LoopGlobals :=
  let* st := gets currentState in
  match st with
  | BLE_CONFIG_PHASE =>
      let* now := millis in
      let* start := gets bleConfigStartTime in
      if BLE_SESSION_TIMEOUT <? wrap32 (now - start) then ESP_restart else ret g
  | PIN_CONFIG_PHASE =>
      let* now := millis in
      if PIN_CONFIG_TIMEOUT <? wrap32 (now - pinPhaseStartTime g) then ESP_restart else ret g
  | NORMAL_OPERATION =>
      let* w := gets world in
      let* b := gets bot in
      let* g :=
        if WiFi_connected w && match b with Some _ => true | None => false end then
          handleProductionTelegramPolling (updates input) g
        else if negb (WiFi_connected w) then
          let* now := millis in
          if 30000 <? wrap32 (now - lastReconnectAttempt g) then
            connectWiFiWithFallback;;;
            let* now := millis in
            ret (with_lastReconnectAttempt now g)
          else ret g
        else ret g in
      let* now := millis in
      if HEALTH_CHECK_INTERVAL <? wrap32 (now - lastHealthCheck g) then
        let* g := checkSystemHealth g in
        let* now := millis in
        ret (with_lastHealthCheck now g)
      else ret g
  | _ => ESP_restart
  end.

(** [loop] *)
Definition loop (input : LoopInput) (g : LoopGlobals) : M LoopGlobals :=
  let* g := loop_state input g in
  handleSerialCommands (serial_line input);;;
  let* b := gets ble in
  let* g :=
    if negb (deviceConnected b) && oldDeviceConnected g then
      delay 500;;;
      let* st := gets currentState in
      (if SystemState_eqb st BLE_CONFIG_PHASE then
         if pServer b then modify (set_advertising true);;; log (EvBLEAdvertise true)
         else panic
       else ret tt);;;
      ret (with_oldDeviceConnected (deviceConnected b) g)
    else ret g in
  let* b := gets ble in
  let g := if deviceConnected b && negb (oldDeviceConnected g)
           then with_oldDeviceConnected (deviceConnected b) g else g in
  delay 100;;;
  ret g.

End Loop.

(** ** The bot *)

(** The bot pointer is [b]. *)
Definition bot_is (b : option string) : State -> Prop := fun s => bot s = b.

(** The events that are calls to the Telegram API. *)
Definition is_telegram (e : Event) : bool :=
  match e with
  | EvSendMessage _ _ _ | EvSendKeyboard _ _ _ _ | EvSendPhoto _ _ => true
  | _ => false
  end.

Section Passes.

Variable serializeJson : JsonDocument -> string.

(** Consecutive passes of [loop], one for each input. *)
Fixpoint loop_passes (inputs : list LoopInput) (g : LoopGlobals) : M LoopGlobals :=
  match inputs with
  | [] => ret g
  | input :: rest => let* g' := loop serializeJson input g in loop_passes rest g'
  end.

End Passes.

(** ** WiFi out of reach *)

(** No access point accepts the station. *)
Definition unreachable (w : World) : Prop := forall ssid pass, wifi_join w ssid pass = None.

(** What a connection attempt that only waits leaves alone; it makes no
    call to the Telegram API. *)
Record waited (s s' : State) : Prop := mkWaited {
  wt_config : config s' = config s;
  wt_state : currentState s' = currentState s;
  wt_bot : bot s' = bot s;
  wt_join : wifi_join (world s') = wifi_join (world s);
  wt_trace : exists evs, trace s' = (trace s ++ evs)%list
                         /\ Forall (fun te => is_telegram (snd te) = false) evs
}.

(** ** The device across restarts *)



Section Device.

Variable deserializeJson : nat -> string -> option JsonDocument.
Variable serializeJson : JsonDocument -> string.



(** The [configVersion] a boot loads from the file system [w]: the
    [configVersion] member of [/config.json] through [| 1], or the 1 of
    [loadDefaultConfig] when the file is missing, too long or not JSON. *)
Definition reloaded_version (w : World) : Z :=
  match stored_document deserializeJson w with
  | Some doc => wrap32 (int_or doc "configVersion" 1)
  | None => 1
  end.



End Device.


(** * Properties *)

(** ** Strings and machine integers *)

Lemma strlen_eq0 (s : string) : (strlen s =? 0) = true <-> s = "".
Proof.
  unfold strlen. rewrite Z.eqb_eq. destruct s; simpl; split; intros H; try done; lia.
Qed.

Lemma strlen_pos (s : string) : (0 <? strlen s) = true <-> s <> "".
Proof.
  unfold strlen. rewrite Z.ltb_lt. destruct s; simpl; split; intros H; try done; lia.
Qed.

Lemma wrap32_range (z : Z) : 0 <= wrap32 z < 2 ^ 32.
Proof. unfold wrap32. apply Z.mod_pos_bound. lia. Qed.

Lemma wrap32_small (z : Z) : 0 <= z < 2 ^ 32 -> wrap32 z = z.
Proof. intros H. unfold wrap32. apply Z.mod_small. lia. Qed.

Lemma wrap32_succ_max : wrap32 (UINT32_MAX + 1) = 0.
Proof. reflexivity. Qed.

(** ** Operation validity *)

Lemma hasWiFi_loop_spec (c : SmartWitnessConfig) (n i : nat) :
  hasWiFi_loop c i n = true <-> exists j, (i <= j < i + n)%nat /\ wifiSSID_at c j <> "".
Proof.
  revert i. induction n as [|n IH]; intros i; simpl.
  - split; [done | intros (j & Hj & _); lia].
  - destruct (0 <? strlen (wifiSSID_at c i)) eqn:E.
    + apply strlen_pos in E. split; [intros _ | done]. exists i. split; [lia | done].
    + rewrite IH. split.
      * intros (j & Hj & Hne). exists j. split; [lia | done].
      * intros (j & Hj & Hne). exists j. split; [| done].
        destruct (decide (j = i)) as [-> | Hji]; [| lia].
        apply strlen_pos in Hne. congruence.
Qed.

Lemma hasValidConfig_andb (c : SmartWitnessConfig) :
  hasValidConfig c =
    negb (strlen (deviceName c) =? 0) && (strlen (devicePIN c) =? 3)
    && hasWiFi_loop c 0 3 && negb (strlen (telegramToken c) <? 40)
    && negb (strlen (personalChatId c) =? 0).
Proof.
  unfold hasValidConfig.
  destruct (strlen (deviceName c) =? 0), (strlen (devicePIN c) =? 3),
    (hasWiFi_loop c 0 3), (strlen (telegramToken c) <? 40),
    (strlen (personalChatId c) =? 0); reflexivity.
Qed.

(** C5. [hasValidConfig] returns true exactly when the device name is
    non-empty, the PIN is 3 characters long, one of the three WiFi SSID
    entries is non-empty, the Telegram token has at least 40 characters and
    the personal chat id is non-empty; so it returns false as soon as one of
    these five predicates fails. *)
Theorem hasValidConfig_iff (c : SmartWitnessConfig) :
  hasValidConfig c = true <->
    deviceName c <> ""
    /\ String.length (devicePIN c) = 3%nat
    /\ (exists i, (i < 3)%nat /\ wifiSSID_at c i <> "")
    /\ (40 <= String.length (telegramToken c))%nat
    /\ personalChatId c <> "".
Proof.
  rewrite hasValidConfig_andb, !andb_true_iff, !negb_true_iff.
  rewrite hasWiFi_loop_spec, Z.eqb_eq, Z.ltb_ge.
  rewrite <- !not_true_iff_false, !strlen_eq0. unfold strlen.
  split.
  - intros ((((H1 & H2) & (j & Hj & Hne)) & H4) & H5).
    repeat split; [done | lia | exists j; split; [lia | done] | lia | done].
  - intros (H1 & H2 & (j & Hj & Hne) & H4 & H5).
    repeat split; [done | lia | exists j; split; [lia | done] | lia | done].
Qed.

(** ** Role derivation *)

(** C10. [getChatType] compares the chat id with the personal, the familiar
    and the vecinal endpoint in that order and returns the first match: a
    chat id equal to several endpoints gets the most privileged matching
    role. *)
Theorem getChatType_first_match (c : SmartWitnessConfig) (chat_id : string) :
  (chat_id = personalChatId c -> getChatType c chat_id = "personal")
  /\ (chat_id <> personalChatId c -> chat_id = familiarChatId c ->
      getChatType c chat_id = "familiar")
  /\ (chat_id <> personalChatId c -> chat_id <> familiarChatId c ->
      chat_id = vecinalChatId c -> getChatType c chat_id = "vecinal")
  /\ (chat_id <> personalChatId c -> chat_id <> familiarChatId c ->
      chat_id <> vecinalChatId c -> getChatType c chat_id = "unknown").
Proof.
  unfold getChatType.
  destruct (String.eqb_spec chat_id (personalChatId c));
  destruct (String.eqb_spec chat_id (familiarChatId c));
  destruct (String.eqb_spec chat_id (vecinalChatId c));
  repeat split; intros; congruence.
Qed.

(** ** The firmware monad *)

Lemma returns_ret {A} (a : A) s (Q : A -> State -> Prop) : Q a s -> returns (ret a) s Q.
Proof. intros H. exact H. Qed.

Lemma returns_bind {A B} (m : M A) (k : A -> M B) s (Q : B -> State -> Prop) :
  returns m s (fun a s' => returns (k a) s' Q) -> returns (bind m k) s Q.
Proof. unfold returns, bind. destruct (m s); auto. Qed.

Lemma returns_mono {A} (m : M A) s (P Q : A -> State -> Prop) :
  returns m s P -> (forall a s', P a s' -> Q a s') -> returns m s Q.
Proof. unfold returns. destruct (m s); auto. Qed.

Lemma returns_gets {A} (f : State -> A) s (Q : A -> State -> Prop) :
  Q (f s) s -> returns (gets f) s Q.
Proof. intros H. exact H. Qed.

Lemma returns_modify (f : State -> State) s (Q : unit -> State -> Prop) :
  Q tt (f s) -> returns (modify f) s Q.
Proof. intros H. exact H. Qed.

Lemma returns_eq {A} (m : M A) s a s' (Q : A -> State -> Prop) :
  m s = Running a s' -> Q a s' -> returns m s Q.
Proof. unfold returns. intros ->. auto. Qed.

Lemma returns_inv {A} (m : M A) s (Q : A -> State -> Prop) :
  returns m s Q -> exists a s', m s = Running a s' /\ Q a s'.
Proof. unfold returns. destruct (m s); try done. eauto. Qed.

Lemma bind_run {A B} (m : M A) (k : A -> M B) s a s' :
  m s = Running a s' -> bind m k s = k a s'.
Proof. unfold bind. intros ->. reflexivity. Qed.

Lemma delay_eq ms s : delay ms s = Running tt (after_delay ms s).
Proof. reflexivity. Qed.

Lemma transport_eq ev s :
  transport ev s = Running (fst (net_next (world s))) (after_transport ev s).
Proof. reflexivity. Qed.

Lemma since_app s s' evs : trace s' = (trace s ++ evs)%list -> since s s' = evs.
Proof. intros H. unfold since. rewrite H. apply drop_app_length. Qed.

Lemma since_refl s : since s s = [].
Proof. apply since_app. symmetry. apply app_nil_r. Qed.

(** ** The delivery layer *)

Lemma send_loop_done fuel chat_id message keyboard retries success s :
  (retries <? MAX_TELEGRAM_RETRIES) && negb success = false ->
  send_loop fuel chat_id message keyboard retries success s = Running (retries, success) s.
Proof. intros H. destruct fuel; simpl; rewrite H; reflexivity. Qed.

Lemma send_loop_step fuel chat_id message keyboard retries s :
  (retries <? MAX_TELEGRAM_RETRIES) = true ->
  let s0 := if 0 <? retries then after_delay (wrap32 (500 * retries)) s else s in
  send_loop (S fuel) chat_id message keyboard retries false s =
    send_loop fuel chat_id message keyboard (retries + 1)
      (fst (net_next (world s0))) (after_transport (send_event chat_id message keyboard) s0).
Proof.
  intros H. simpl. rewrite H. unfold send_event.
  destruct (0 <? retries); destruct (String.eqb keyboard ""); reflexivity.
Qed.

Lemma send_loop_eq chat_id message keyboard s :
  let ev := send_event chat_id message keyboard in
  let s1 := after_transport ev s in
  let s2 := after_transport ev (after_delay 500 s1) in
  let s3 := after_transport ev (after_delay 1000 s2) in
  send_loop (Z.to_nat MAX_TELEGRAM_RETRIES) chat_id message keyboard 0 false s =
    if fst (net_next (world s)) then Running (1, true) s1
    else if fst (net_next (world (after_delay 500 s1))) then Running (2, true) s2
    else Running (3, fst (net_next (world (after_delay 1000 s2)))) s3.
Proof.
  intros ev s1 s2 s3.
  change (Z.to_nat MAX_TELEGRAM_RETRIES) with 3%nat.
  rewrite send_loop_step by reflexivity.
  change (if 0 <? 0 then _ else s) with s. change (0 + 1) with 1. fold ev. fold s1.
  destruct (fst (net_next (world s))); [apply send_loop_done; reflexivity |].
  rewrite send_loop_step by reflexivity.
  change (if 0 <? 1 then ?a else _) with a. change (wrap32 (500 * 1)) with 500.
  change (1 + 1) with 2. fold ev. fold s2.
  destruct (fst (net_next (world (after_delay 500 s1)))); [apply send_loop_done; reflexivity |].
  rewrite send_loop_step by reflexivity.
  change (if 0 <? 2 then ?a else _) with a. change (wrap32 (500 * 2)) with 1000.
  change (2 + 1) with 3. fold ev. fold s3.
  apply send_loop_done. reflexivity.
Qed.

Lemma safeSendMessage_eq chat_id message keyboard s tok :
  bot s = Some tok ->
  safeSendMessage chat_id message keyboard s =
    Running (fst (send_outcome chat_id message keyboard s))
            (snd (send_outcome chat_id message keyboard s)).
Proof.
  intros Hbot.
  unfold safeSendMessage.
  cbv beta iota delta [bind gets millis when ret]. rewrite Hbot.
  unfold send_outcome, ok1, ok2, ok3, try3, try2, try1, after_rate_limit.
  set (ev := send_event chat_id message keyboard).
  destruct (wrap32 (wrap32 (clock (world s)) - lastMessageTime s) <? MESSAGE_INTERVAL);
    [rewrite delay_eq |];
    cbv beta iota; rewrite send_loop_eq; fold ev.
  all: match goal with |- context [if fst (net_next (world ?s0)) then Running (1, true) _ else _] =>
         destruct (fst (net_next (world s0))); [reflexivity |];
         destruct (fst (net_next (world (after_delay 500 (after_transport ev s0)))));
           [reflexivity |];
         destruct (fst (net_next (world (after_delay 1000
                     (after_transport ev (after_delay 500 (after_transport ev s0)))))));
           reflexivity
       end.
Qed.

Lemma safeSendMessage_no_bot chat_id message keyboard s :
  bot s = None -> safeSendMessage chat_id message keyboard s = Running false s.
Proof. intros Hbot. unfold safeSendMessage, bind, gets. rewrite Hbot. reflexivity. Qed.

(** What the delivery layer leaves alone. *)

Lemma delivery_step_refl s : delivery_step s s.
Proof.
  split; try reflexivity. exists []. split; [symmetry; apply app_nil_r | constructor].
Qed.

Lemma delivery_step_trans s1 s2 s3 :
  delivery_step s1 s2 -> delivery_step s2 s3 -> delivery_step s1 s3.
Proof.
  intros [] []. split; try congruence; try lia.
  destruct ds_trace0 as (e1 & T1 & F1), ds_trace1 as (e2 & T2 & F2).
  exists (e1 ++ e2)%list. split.
  - rewrite T2, T1. symmetry. apply app_assoc.
  - apply Forall_app. auto.
Qed.

Lemma after_delay_step ms s : 0 <= ms -> delivery_step s (after_delay ms s).
Proof.
  intros H. split; try reflexivity.
  - simpl. lia.
  - eexists. split; [reflexivity |]. repeat constructor.
Qed.

Lemma after_transport_step ev s :
  (forall ok, is_delivery (ev ok) = true) -> delivery_step s (after_transport ev s).
Proof.
  intros H. split; try reflexivity.
  - simpl. lia.
  - eexists. split; [reflexivity |]. repeat constructor. apply H.
Qed.

Lemma after_success_step s : delivery_step s (after_success s).
Proof.
  split; try reflexivity. exists []. split; [symmetry; apply app_nil_r | constructor].
Qed.

Lemma after_failure_step chat_id s : delivery_step s (after_failure chat_id s).
Proof.
  split; try reflexivity. exists []. split; [symmetry; apply app_nil_r | constructor].
Qed.

Lemma wrap32_nonneg z : 0 <= wrap32 z.
Proof. apply wrap32_range. Qed.

Lemma after_rate_limit_step s : delivery_step s (after_rate_limit s).
Proof.
  unfold after_rate_limit. destruct (_ <? _).
  - apply after_delay_step, wrap32_nonneg.
  - apply delivery_step_refl.
Qed.

Lemma send_event_delivery chat_id message keyboard ok :
  is_delivery (send_event chat_id message keyboard ok) = true.
Proof. unfold send_event. destruct (negb _); reflexivity. Qed.

Lemma send_event_attempt chat_id message keyboard ok :
  is_attempt (send_event chat_id message keyboard ok) = true.
Proof. unfold send_event. destruct (negb _); reflexivity. Qed.

Lemma try1_step ev s : (forall ok, is_delivery (ev ok) = true) -> delivery_step s (try1 ev s).
Proof.
  intros H. eapply delivery_step_trans; [apply after_rate_limit_step |].
  apply after_transport_step, H.
Qed.

Lemma try2_step ev s : (forall ok, is_delivery (ev ok) = true) -> delivery_step s (try2 ev s).
Proof.
  intros H. eapply delivery_step_trans; [apply try1_step, H |].
  eapply delivery_step_trans; [apply (after_delay_step 500); lia |].
  apply after_transport_step, H.
Qed.

Lemma try3_step ev s : (forall ok, is_delivery (ev ok) = true) -> delivery_step s (try3 ev s).
Proof.
  intros H. eapply delivery_step_trans; [apply try2_step, H |].
  eapply delivery_step_trans; [apply (after_delay_step 1000); lia |].
  apply after_transport_step, H.
Qed.

Lemma send_outcome_step chat_id message keyboard s :
  delivery_step s (snd (send_outcome chat_id message keyboard s)).
Proof.
  pose proof (send_event_delivery chat_id message keyboard) as H.
  unfold send_outcome.
  destruct (ok1 s); [| destruct (ok2 _ s); [| destruct (ok3 _ s)]]; simpl.
  - eapply delivery_step_trans; [apply try1_step, H | apply after_success_step].
  - eapply delivery_step_trans; [apply try2_step, H | apply after_success_step].
  - eapply delivery_step_trans; [apply try3_step, H | apply after_success_step].
  - eapply delivery_step_trans; [apply try3_step, H | apply after_failure_step].
Qed.

Lemma safeSendMessage_step chat_id message keyboard s :
  returns (safeSendMessage chat_id message keyboard) s (fun _ s' => delivery_step s s').
Proof.
  destruct (bot s) as [tok |] eqn:Hbot.
  - eapply returns_eq; [apply (safeSendMessage_eq _ _ _ _ _ Hbot) |].
    apply send_outcome_step.
  - eapply returns_eq; [apply (safeSendMessage_no_bot _ _ _ _ Hbot) |].
    apply delivery_step_refl.
Qed.

(** The trace of one send. *)

Lemma after_rate_limit_trace s :
  trace (after_rate_limit s) = (trace s ++ rate_events s)%list.
Proof.
  unfold after_rate_limit, rate_events. destruct (_ <? _); [reflexivity |].
  symmetry. apply app_nil_r.
Qed.

Lemma trace_after_transport ev s :
  trace (after_transport ev s) = (trace s ++ [(clock (world s), ev (fst (net_next (world s))))])%list.
Proof. reflexivity. Qed.

Lemma trace_after_delay ms s :
  trace (after_delay ms s) = (trace s ++ [(clock (world s), EvDelay ms)])%list.
Proof. reflexivity. Qed.

Lemma clock_after_delay ms s : clock (world (after_delay ms s)) = clock (world s) + ms.
Proof. reflexivity. Qed.

Lemma trace_after_success s : trace (after_success s) = trace s.
Proof. reflexivity. Qed.

Lemma trace_after_failure chat_id s : trace (after_failure chat_id s) = trace s.
Proof. reflexivity. Qed.

Lemma send_outcome_trace chat_id message keyboard s :
  trace (snd (send_outcome chat_id message keyboard s))
  = (trace s ++ send_events chat_id message keyboard s)%list.
Proof.
  unfold send_outcome, send_events, retry_events.
  set (ev := send_event chat_id message keyboard).
  assert (T1 : trace (try1 ev s)
               = (trace s ++ rate_events s ++ [(clock (world (after_rate_limit s)), ev (ok1 s))])%list).
  { unfold try1, ok1. rewrite trace_after_transport, after_rate_limit_trace, <- app_assoc. reflexivity. }
  assert (T2 : trace (try2 ev s)
               = (trace (try1 ev s) ++ [(clock (world (try1 ev s)), EvDelay 500);
                                         (clock (world (try1 ev s)) + 500, ev (ok2 ev s))])%list).
  { unfold try2, ok2. rewrite trace_after_transport, trace_after_delay, clock_after_delay, <- app_assoc. reflexivity. }
  assert (T3 : trace (try3 ev s)
               = (trace (try2 ev s) ++ [(clock (world (try2 ev s)), EvDelay 1000);
                                         (clock (world (try2 ev s)) + 1000, ev (ok3 ev s))])%list).
  { unfold try3, ok3. rewrite trace_after_transport, trace_after_delay, clock_after_delay, <- app_assoc. reflexivity. }
  destruct (ok1 s); [| destruct (ok2 ev s); [| destruct (ok3 ev s)]]; cbn [snd].
  - rewrite trace_after_success, T1. reflexivity.
  - rewrite trace_after_success, T2, T1, <- !app_assoc. reflexivity.
  - rewrite trace_after_success, T3, T2, T1, <- !app_assoc. reflexivity.
  - rewrite trace_after_failure, T3, T2, T1, <- !app_assoc. reflexivity.
Qed.

Lemma send_outcome_since chat_id message keyboard s :
  since s (snd (send_outcome chat_id message keyboard s)) = send_events chat_id message keyboard s.
Proof. apply since_app, send_outcome_trace. Qed.

Lemma attempts_app e1 e2 : attempts (e1 ++ e2) = (attempts e1 ++ attempts e2)%list.
Proof. apply List.filter_app. Qed.

Lemma rate_events_attempts s : attempts (rate_events s) = [].
Proof. unfold rate_events. destruct (_ <? _); reflexivity. Qed.

Lemma backoffs_rate_events s rest acc :
  exists acc', backoffs (rate_events s ++ rest) false acc = backoffs rest false acc'.
Proof. unfold rate_events. destruct (_ <? _); simpl; eauto. Qed.

(** The tries leave the statistics and the rate-limit baseline alone. *)
Lemma after_rate_limit_stats s :
  telegramStats (after_rate_limit s) = telegramStats s
  /\ lastMessageTime (after_rate_limit s) = lastMessageTime s
  /\ net (world (after_rate_limit s)) = net (world s).
Proof. unfold after_rate_limit. destruct (_ <? _); repeat split. Qed.

Lemma tries_stats ev s :
  (telegramStats (try1 ev s) = telegramStats s /\ lastMessageTime (try1 ev s) = lastMessageTime s)
  /\ (telegramStats (try2 ev s) = telegramStats s /\ lastMessageTime (try2 ev s) = lastMessageTime s)
  /\ (telegramStats (try3 ev s) = telegramStats s /\ lastMessageTime (try3 ev s) = lastMessageTime s).
Proof.
  destruct (after_rate_limit_stats s) as (H1 & H2 & _).
  unfold try3, try2, try1, after_transport, after_delay.
  cbn [telegramStats lastMessageTime set_world set_trace]. auto.
Qed.

Lemma tries_net ev s :
  net (world (after_rate_limit s)) = net (world s)
  /\ net (world (after_delay 500 (try1 ev s))) = tail (net (world s))
  /\ net (world (after_delay 1000 (try2 ev s))) = tail (tail (net (world s))).
Proof.
  destruct (after_rate_limit_stats s) as (_ & _ & H).
  unfold try2, try1, after_transport, after_delay.
  cbn [world net set_world set_trace with_net with_clock]. rewrite H. auto.
Qed.

(** Reading a trace. *)

Lemma attempts_send t chat_id message keyboard b rest :
  attempts ((t, send_event chat_id message keyboard b) :: rest)
  = (t, send_event chat_id message keyboard b) :: attempts rest.
Proof. unfold attempts. simpl. rewrite send_event_attempt. reflexivity. Qed.

Lemma attempts_delay t ms rest : attempts ((t, EvDelay ms) :: rest) = attempts rest.
Proof. reflexivity. Qed.

Lemma attempts_nil : attempts [] = [].
Proof. reflexivity. Qed.

Lemma backoffs_send t chat_id message keyboard b rest seen acc :
  backoffs ((t, send_event chat_id message keyboard b) :: rest) seen acc
  = ((if seen then [acc] else []) ++ backoffs rest true 0)%list.
Proof. unfold send_event. destruct (negb _); reflexivity. Qed.

Lemma backoffs_delay t ms rest seen acc :
  backoffs ((t, EvDelay ms) :: rest) seen acc = backoffs rest seen (acc + ms).
Proof. reflexivity. Qed.

Lemma backoffs_nil seen acc : backoffs [] seen acc = [].
Proof. reflexivity. Qed.

Create Rewrite HintDb evs.
#[export] Hint Rewrite attempts_send attempts_delay attempts_nil
  backoffs_send backoffs_delay backoffs_nil : evs.

Lemma after_success_stats s :
  totalMessagesSent (telegramStats (after_success s))
    = wrap32 (totalMessagesSent (telegramStats s) + 1)
  /\ totalFailedSends (telegramStats (after_success s)) = totalFailedSends (telegramStats s)
  /\ lastSuccessfulSend (telegramStats (after_success s)) = wrap32 (clock (world s))
  /\ lastMessageTime (after_success s) = wrap32 (clock (world s))
  /\ world (after_success s) = world s.
Proof. repeat split. Qed.

Lemma after_failure_stats chat_id s :
  totalMessagesSent (telegramStats (after_failure chat_id s)) = totalMessagesSent (telegramStats s)
  /\ totalFailedSends (telegramStats (after_failure chat_id s))
     = wrap32 (totalFailedSends (telegramStats s) + 1)
  /\ lastError (telegramStats (after_failure chat_id s)) = "Message send failure to " ++ chat_id
  /\ lastErrorTime (telegramStats (after_failure chat_id s)) = wrap32 (clock (world s))
  /\ lastMessageTime (after_failure chat_id s) = lastMessageTime s
  /\ world (after_failure chat_id s) = world s.
Proof. repeat split. Qed.

Lemma attempt_ok_send chat_id message keyboard b :
  attempt_ok (send_event chat_id message keyboard b) = b.
Proof. unfold send_event. destruct (negb _); reflexivity. Qed.

Lemma send_events_attempts chat_id message keyboard s :
  attempts (send_events chat_id message keyboard s)
  = attempts (retry_events chat_id message keyboard s).
Proof. unfold send_events. rewrite attempts_app, rate_events_attempts. reflexivity. Qed.

(** The transport results the three tries see are the next three entries
    of [net]. *)
Lemma tries_ok ev s :
  ok1 s = fst (match net (world s) with r :: _ => r | [] => (false, 0%N) end)
  /\ ok2 ev s = fst (match tail (net (world s)) with r :: _ => r | [] => (false, 0%N) end)
  /\ ok3 ev s = fst (match tail (tail (net (world s))) with r :: _ => r | [] => (false, 0%N) end).
Proof.
  destruct (tries_net ev s) as (N1 & N2 & N3).
  unfold ok1, ok2, ok3, net_next. rewrite N1, N2, N3. auto.
Qed.

(** C6. With the bot initialised, [safeSendMessage] returns after at least
    one and at most three transport calls, all for the given chat, message
    and keyboard, and waits 500 ms times the number of calls made so far
    between two calls (500 ms, then 1000 ms).  If the transport fails twice
    and then succeeds, the result is [true], three calls were made, the
    failed-sends counter is unchanged and the sent counter is incremented
    by one (in [unsigned long] arithmetic). *)
Theorem safeSendMessage_bounded_retry (chat_id message keyboard : string) (s : State) :
  bot s <> None ->
  exists ok s',
    safeSendMessage chat_id message keyboard s = Running ok s'
    /\ (1 <= length (attempts (since s s')) <= 3)%nat
    /\ Forall (fun te => exists b, snd te = send_event chat_id message keyboard b)
              (attempts (since s s'))
    /\ backoffs (since s s') false 0
       = take (length (attempts (since s s')) - 1) [500; 1000]
    /\ (forall d1 d2 d3 rest,
          net (world s) = (false, d1) :: (false, d2) :: (true, d3) :: rest ->
          ok = true
          /\ map (fun te => attempt_ok (snd te)) (attempts (since s s')) = [false; false; true]
          /\ totalFailedSends (telegramStats s') = totalFailedSends (telegramStats s)
          /\ totalMessagesSent (telegramStats s')
             = wrap32 (totalMessagesSent (telegramStats s) + 1)
          /\ (0 <= totalMessagesSent (telegramStats s) < UINT32_MAX ->
              totalMessagesSent (telegramStats s')
              = totalMessagesSent (telegramStats s) + 1)).
Proof.
  intros Hbot. destruct (bot s) as [tok |] eqn:Eb; [clear Hbot | done].
  exists (fst (send_outcome chat_id message keyboard s)),
         (snd (send_outcome chat_id message keyboard s)).
  split; [apply (safeSendMessage_eq _ _ _ _ _ Eb) |].
  rewrite send_outcome_since, send_events_attempts.
  unfold send_events.
  destruct (backoffs_rate_events s (retry_events chat_id message keyboard s) 0) as (acc & ->).
  destruct (tries_ok (send_event chat_id message keyboard) s) as (Hok1 & Hok2 & Hok3).
  destruct (tries_stats (send_event chat_id message keyboard) s) as (_ & _ & (S3 & _)).
  unfold send_outcome, retry_events.
  assert (Hwrap : 0 <= totalMessagesSent (telegramStats s) < UINT32_MAX ->
                  wrap32 (totalMessagesSent (telegramStats s) + 1)
                  = totalMessagesSent (telegramStats s) + 1).
  { intros H. apply wrap32_small. unfold UINT32_MAX in H. lia. }
  destruct (ok1 s) eqn:E1;
    [| destruct (ok2 _ s) eqn:E2; [| destruct (ok3 _ s) eqn:E3]];
    cbn [fst snd].
  all: autorewrite with evs.
  all: split; [cbn [length]; lia |].
  all: split; [repeat constructor; eexists; reflexivity |].
  all: split; [reflexivity |].
  all: intros d1 d2 d3 rest Hnet.
  all: rewrite Hnet in Hok1, Hok2, Hok3; cbn [tail fst] in Hok1, Hok2, Hok3.
  all: try discriminate.
  destruct (after_success_stats (try3 (send_event chat_id message keyboard) s))
    as (A1 & A2 & _).
  rewrite A1, A2, S3.
  repeat split; [| exact Hwrap].
  cbn [map snd]. rewrite !attempt_ok_send. reflexivity.
Qed.

(** ** Rate limiting *)

Lemma wrap32_sub a b : wrap32 (wrap32 a - wrap32 b) = wrap32 (a - b).
Proof. unfold wrap32. rewrite <- Zminus_mod. reflexivity. Qed.

Lemma wrap32_le z : 0 <= z -> wrap32 z <= z.
Proof. intros H. unfold wrap32. apply Z.mod_le; lia. Qed.

(** The first transport call is made at least [MESSAGE_INTERVAL] after the
    time [b] recorded as [lastMessageTime]. *)
Lemma rate_limit_clock s b :
  b <= clock (world s) -> lastMessageTime s = wrap32 b ->
  b + MESSAGE_INTERVAL <= clock (world (after_rate_limit s)).
Proof.
  intros Hb Hlast. unfold after_rate_limit. rewrite Hlast, wrap32_sub.
  pose proof (wrap32_le (clock (world s) - b) ltac:(lia)) as Hle.
  pose proof (wrap32_range (clock (world s) - b)) as Hr.
  destruct (wrap32 (clock (world s) - b) <? MESSAGE_INTERVAL) eqn:E.
  - apply Z.ltb_lt in E. rewrite clock_after_delay.
    rewrite wrap32_small; unfold MESSAGE_INTERVAL in *; lia.
  - apply Z.ltb_ge in E. lia.
Qed.

Lemma tries_clock ev s :
  clock (world (after_rate_limit s)) <= clock (world (try1 ev s))
  /\ clock (world (try1 ev s)) <= clock (world (try2 ev s)).
Proof.
  unfold try2, try1, after_transport, after_delay.
  cbn [world clock set_world set_trace with_net with_clock]. lia.
Qed.

Lemma attempt_times_send_events chat_id message keyboard s :
  attempt_times (send_events chat_id message keyboard s)
  = let ev := send_event chat_id message keyboard in
    clock (world (after_rate_limit s)) ::
    if ok1 s then []
    else clock (world (try1 ev s)) + 500 ::
      if ok2 ev s then [] else [clock (world (try2 ev s)) + 1000].
Proof.
  unfold attempt_times. rewrite send_events_attempts. unfold retry_events.
  destruct (ok1 s); [| destruct (ok2 _ s)]; autorewrite with evs; reflexivity.
Qed.

(** Every transport call of a send comes at least [MESSAGE_INTERVAL] after
    the recorded baseline. *)
Lemma send_waits_for_baseline chat_id message keyboard s b :
  b <= clock (world s) -> lastMessageTime s = wrap32 b ->
  Forall (fun t => b + MESSAGE_INTERVAL <= t)
         (attempt_times (send_events chat_id message keyboard s)).
Proof.
  intros Hb Hlast. rewrite attempt_times_send_events.
  pose proof (rate_limit_clock s b Hb Hlast) as H0.
  destruct (tries_clock (send_event chat_id message keyboard) s) as (H1 & H2).
  cbv zeta. destruct (ok1 s); [| destruct (ok2 _ s)]; repeat constructor; lia.
Qed.

(** C7 (as amended). On a successful send the sent counter is incremented
    and the last-success timestamp and the rate-limit baseline are set to
    the time the send completed; a failed send leaves the baseline where it
    was.  Every transport call of a later send, whichever chat it is for, is
    made at least 1500 ms after the completion of that successful send: the
    caller is delayed until then. *)
Theorem safeSendMessage_spacing_after_success
    (chat_id message keyboard : string) (s : State) :
  bot s <> None ->
  exists ok s',
    safeSendMessage chat_id message keyboard s = Running ok s'
    /\ (ok = true ->
        totalMessagesSent (telegramStats s') = wrap32 (totalMessagesSent (telegramStats s) + 1)
        /\ lastSuccessfulSend (telegramStats s') = wrap32 (clock (world s'))
        /\ lastMessageTime s' = wrap32 (clock (world s'))
        /\ forall chat2 message2 keyboard2 s2,
             bot s2 <> None ->
             lastMessageTime s2 = lastMessageTime s' ->
             clock (world s') <= clock (world s2) ->
             exists ok2 s2',
               safeSendMessage chat2 message2 keyboard2 s2 = Running ok2 s2'
               /\ Forall (fun t => clock (world s') + MESSAGE_INTERVAL <= t)
                         (attempt_times (since s2 s2')))
    /\ (ok = false -> lastMessageTime s' = lastMessageTime s).
Proof.
  intros Hbot. destruct (bot s) as [tok |] eqn:Eb; [clear Hbot | done].
  exists (fst (send_outcome chat_id message keyboard s)),
         (snd (send_outcome chat_id message keyboard s)).
  split; [apply (safeSendMessage_eq _ _ _ _ _ Eb) |].
  destruct (tries_stats (send_event chat_id message keyboard) s)
    as ((S1 & L1) & (S2 & L2) & (S3 & L3)).
  assert (Hnext : forall x, lastMessageTime (after_success x) = wrap32 (clock (world (after_success x))) ->
            forall chat2 message2 keyboard2 s2,
             bot s2 <> None ->
             lastMessageTime s2 = lastMessageTime (after_success x) ->
             clock (world (after_success x)) <= clock (world s2) ->
             exists ok2 s2',
               safeSendMessage chat2 message2 keyboard2 s2 = Running ok2 s2'
               /\ Forall (fun t => clock (world (after_success x)) + MESSAGE_INTERVAL <= t)
                         (attempt_times (since s2 s2'))).
  { intros x Hx chat2 message2 keyboard2 s2 Hbot2 Hlast Hclock.
    destruct (bot s2) as [tok2 |] eqn:Eb2; [| done].
    exists (fst (send_outcome chat2 message2 keyboard2 s2)),
           (snd (send_outcome chat2 message2 keyboard2 s2)).
    split; [apply (safeSendMessage_eq _ _ _ _ _ Eb2) |].
    rewrite send_outcome_since. apply send_waits_for_baseline; [exact Hclock |].
    rewrite Hlast. exact Hx. }
  unfold send_outcome.
  destruct (ok1 s); [| destruct (ok2 _ s); [| destruct (ok3 _ s)]]; cbn [fst snd].
  1-3: match goal with |- context [after_success ?x] =>
         destruct (after_success_stats x) as (A1 & _ & A3 & A4 & A5);
         (split; [intros _ | discriminate]);
         (split; [rewrite A1, ?S1, ?S2, ?S3; reflexivity |]);
         (split; [rewrite A5; exact A3 |]);
         (split; [rewrite A5; exact A4 |]);
         apply Hnext; rewrite A5; exact A4
       end.
  split; [discriminate | intros _].
  destruct (after_failure_stats chat_id (try3 (send_event chat_id message keyboard) s))
    as (_ & _ & _ & _ & F & _).
  rewrite F. exact L3.
Qed.

(** C7, counterexample.  The network is down for three calls: the first
    send makes its calls at 5000, 5600 and 6700 ms and fails at 6800 ms;
    the next send is not delayed at all and calls the transport at
    6800 ms.  Transport calls 100, 600 and 1100 ms apart are closer than the
    1500 ms spacing. *)
Lemma sends_closer_than_interval :
  let s := demo_state 5000 [(false, 100%N); (false, 100%N); (false, 100%N); (true, 100%N)] in
  exists s1 s2,
    safeSendMessage "1001" "first" "" s = Running false s1
    /\ safeSendMessage "1001" "second" "" s1 = Running true s2
    /\ attempt_times (since s s1) = [5000; 5600; 6700]
    /\ clock (world s1) = 6800
    /\ since s1 s2 = [(6800, EvSendMessage "1001" "second" true)]
    /\ spaced MESSAGE_INTERVAL (attempt_times (since s s2)) = false.
Proof.
  eexists _, _. split; [vm_compute; reflexivity |].
  split; [vm_compute; reflexivity |].
  repeat split; vm_compute; reflexivity.
Qed.

(** ** Composing frames *)

Lemma preserves_ret {A} R (a : A) : preserves R (ret a).
Proof. intros s0 s H. exact H. Qed.

Lemma preserves_gets {A} R (f : State -> A) : preserves R (gets f).
Proof. intros s0 s H. exact H. Qed.

Lemma preserves_bind {A B} R (m : M A) (k : A -> M B) :
  preserves R m -> (forall a, preserves R (k a)) -> preserves R (bind m k).
Proof.
  intros Hm Hk s0 s H. apply returns_bind.
  eapply returns_mono; [apply (Hm s0 s H) |].
  intros a s' H'. apply (Hk a s0 s' H').
Qed.

Lemma preserves_when R (b : bool) m : preserves R m -> preserves R (when b m).
Proof. intros H. destruct b; [exact H | apply preserves_ret]. Qed.

Lemma preserves_step {A} (R : State -> State -> Prop) (m : M A) :
  (forall s1 s2 s3, R s1 s2 -> R s2 s3 -> R s1 s3) ->
  (forall s, returns m s (fun _ s' => R s s')) -> preserves R m.
Proof.
  intros Htrans Hm s0 s H. eapply returns_mono; [apply Hm |].
  intros a s' H'. eapply Htrans; eassumption.
Qed.

Lemma preserves_returns {A} (R : State -> State -> Prop) (m : M A) s :
  R s s -> preserves R m -> returns m s (fun _ s' => R s s').
Proof. intros Hrefl Hm. apply Hm, Hrefl. Qed.

Lemma safeSendMessage_delivery chat_id message keyboard :
  preserves delivery_step (safeSendMessage chat_id message keyboard).
Proof.
  apply preserves_step; [apply delivery_step_trans |]. apply safeSendMessage_step.
Qed.

Lemma delay_delivery ms : 0 <= ms -> preserves delivery_step (delay ms).
Proof.
  intros H. apply preserves_step; [apply delivery_step_trans |].
  intros s. eapply returns_eq; [apply delay_eq |].
  apply after_delay_step, H.
Qed.

(** A send that has a bot makes at least one transport call, and all its
    calls carry its chat, message and keyboard. *)
Lemma safeSendMessage_replies chat_id message s :
  bot s <> None ->
  exists ok s',
    safeSendMessage chat_id message "" s = Running ok s'
    /\ delivery_step s s'
    /\ replies_with chat_id message (since s s').
Proof.
  intros Hbot. destruct (bot s) as [tok |] eqn:Eb; [clear Hbot | done].
  exists (fst (send_outcome chat_id message "" s)), (snd (send_outcome chat_id message "" s)).
  split; [apply (safeSendMessage_eq _ _ _ _ _ Eb) |].
  split; [apply send_outcome_step |].
  rewrite send_outcome_since. unfold replies_with. rewrite send_events_attempts.
  unfold retry_events.
  destruct (ok1 s); [| destruct (ok2 _ s)]; autorewrite with evs.
  all: split; [discriminate |].
  all: repeat constructor; eexists; reflexivity.
Qed.

Lemma delivery_step_spiffs s s' :
  delivery_step s s' -> spiffs_config (world s') = spiffs_config (world s).
Proof.
  intros H. pose proof (ds_world _ _ H) as Hw.
  change (spiffs_config (world s')) with (spiffs_config (world_rest (world s'))).
  rewrite Hw. reflexivity.
Qed.

(** ** The editing session guard *)

Lemma confirmEdit_rejected serializeJson chat_id s :
  editingMode (editing s) = false \/ editingChatID (editing s) <> chat_id ->
  confirmEdit serializeJson chat_id s
  = bind (safeSendMessage chat_id msg_no_session_confirm "") (fun _ => ret tt) s.
Proof.
  intros H. unfold confirmEdit. unfold bind at 1. unfold gets at 1.
  replace (negb (editingMode (editing s)) || negb (String.eqb (editingChatID (editing s)) chat_id))
    with true; [reflexivity |].
  symmetry. destruct H as [-> | H]; [reflexivity |].
  apply String.eqb_neq in H. rewrite H. apply orb_true_r.
Qed.

Lemma cancelEdit_rejected chat_id s :
  editingMode (editing s) = false \/ editingChatID (editing s) <> chat_id ->
  cancelEdit chat_id s
  = bind (safeSendMessage chat_id msg_no_session_cancel "") (fun _ => ret tt) s.
Proof.
  intros H. unfold cancelEdit. unfold bind at 1. unfold gets at 1.
  replace (negb (editingMode (editing s)) || negb (String.eqb (editingChatID (editing s)) chat_id))
    with true; [reflexivity |].
  symmetry. destruct H as [-> | H]; [reflexivity |].
  apply String.eqb_neq in H. rewrite H. apply orb_true_r.
Qed.

(** C4. When no editing session is open, or the session was opened from
    another chat, [confirmEdit] and [cancelEdit] return after sending the
    "No active editing session" reply to the caller (when the bot exists),
    and change neither the editing session, nor the configuration, nor the
    stored configuration file. *)
Theorem edit_session_guard (serializeJson : JsonDocument -> string)
    (chat_id : string) (s : State) :
  editingMode (editing s) = false \/ editingChatID (editing s) <> chat_id ->
  exists s1 s2,
    confirmEdit serializeJson chat_id s = Running tt s1
    /\ cancelEdit chat_id s = Running tt s2
    /\ editing s1 = editing s /\ config s1 = config s
    /\ spiffs_config (world s1) = spiffs_config (world s)
    /\ editing s2 = editing s /\ config s2 = config s
    /\ spiffs_config (world s2) = spiffs_config (world s)
    /\ (bot s <> None ->
        replies_with chat_id msg_no_session_confirm (since s s1)
        /\ replies_with chat_id msg_no_session_cancel (since s s2)).
Proof.
  intros H.
  rewrite (confirmEdit_rejected serializeJson chat_id s H), (cancelEdit_rejected chat_id s H).
  destruct (returns_inv _ _ _ (safeSendMessage_step chat_id msg_no_session_confirm "" s))
    as (b1 & s1 & E1 & D1).
  destruct (returns_inv _ _ _ (safeSendMessage_step chat_id msg_no_session_cancel "" s))
    as (b2 & s2 & E2 & D2).
  exists s1, s2.
  rewrite (bind_run _ _ _ _ _ E1), (bind_run _ _ _ _ _ E2).
  split; [reflexivity |]. split; [reflexivity |].
  split; [apply D1 |]. split; [apply D1 |]. split; [apply delivery_step_spiffs, D1 |].
  split; [apply D2 |]. split; [apply D2 |]. split; [apply delivery_step_spiffs, D2 |].
  intros Hbot.
  destruct (safeSendMessage_replies chat_id msg_no_session_confirm s Hbot) as (? & ? & E1' & _ & R1).
  destruct (safeSendMessage_replies chat_id msg_no_session_cancel s Hbot) as (? & ? & E2' & _ & R2).
  rewrite E1 in E1'. rewrite E2 in E2'. injection E1' as <- <-. injection E2' as <- <-.
  split; assumption.
Qed.

(** ** Provisioning intake *)

Lemma containsKey_false (doc : JsonDocument) k : containsKey doc k = false <-> doc !! k = None.
Proof. unfold containsKey. destruct (doc !! k); split; intros H; congruence. Qed.

Lemma updateBLEStatus_error status s :
  String.eqb status "connected_pin_ready" = false ->
  updateBLEStatus status s
  = Running tt (if pStatusCharacteristic (ble s)
                then set_trace (trace s ++ [(clock (world s), EvBLEStatus status)])%list s
                else s).
Proof.
  intros H. unfold updateBLEStatus. unfold bind at 1. unfold gets at 1.
  destruct (pStatusCharacteristic (ble s)); unfold when, bind, gets, log, modify, ret;
    rewrite H; reflexivity.
Qed.

(** C8. A payload that parses but lacks one of the keys [telegramToken],
    [wifiSSID], [wifiPassword] makes [processBLEConfiguration] return
    after notifying [config_error_missing_fields] on the status
    characteristic; the configuration, the lifecycle state, the world (and
    with it the stored configuration file) and every other global are
    unchanged, and nothing else is traced: no save, no restart. *)
Theorem provisioning_missing_fields
    (deserializeJson : nat -> string -> option JsonDocument)
    (serializeJson : JsonDocument -> string)
    (configData : string) (doc : JsonDocument) (s : State) :
  deserializeJson 1024%nat configData = Some doc ->
  doc !! "telegramToken" = None \/ doc !! "wifiSSID" = None \/ doc !! "wifiPassword" = None ->
  pStatusCharacteristic (ble s) = true ->
  exists s',
    processBLEConfiguration deserializeJson serializeJson configData s = Running tt s'
    /\ since s s' = [(clock (world s), EvBLEStatus "config_error_missing_fields")]
    /\ config s' = config s
    /\ currentState s' = currentState s
    /\ world s' = world s
    /\ set_trace (trace s) s' = s.
Proof.
  intros Hparse Hmiss Hstatus.
  unfold processBLEConfiguration. rewrite Hparse.
  replace (negb (containsKey doc "telegramToken") || negb (containsKey doc "wifiSSID")
           || negb (containsKey doc "wifiPassword")) with true.
  - rewrite updateBLEStatus_error by reflexivity. rewrite Hstatus.
    eexists. split; [reflexivity |].
    split; [apply since_app; reflexivity |].
    repeat split. destruct s; reflexivity.
  - symmetry. destruct Hmiss as [H | [H | H]]; apply containsKey_false in H; rewrite H;
      cbn [negb orb]; rewrite ?orb_true_r; reflexivity.
Qed.

(** ** Commands for another device *)

Lemma handleExactCommands_foreign serializeJson message chat_id s :
  extractDeviceName message <> "" ->
  extractDeviceName message <> deviceName (config s) ->
  handleExactCommands serializeJson message chat_id s = Running tt s.
Proof.
  intros Hne Hother. unfold handleExactCommands. unfold bind at 1. unfold gets at 1.
  replace (negb (String.eqb (extractDeviceName message) (deviceName (config s)))
           && (0 <? String.length (extractDeviceName message))%nat) with true; [reflexivity |].
  symmetry. apply andb_true_iff. split.
  - apply negb_true_iff, String.eqb_neq, Hother.
  - apply Nat.ltb_lt. destruct (extractDeviceName message); [done | simpl; lia].
Qed.

(** C2 (as amended). A command whose device-name suffix is non-empty and
    differs from this device's name makes [handleExactCommands] return with
    the state untouched: no reply, no trace, no change.  Through
    [handleTelegramMessage], when no editing session is open for the
    caller's chat, the only change is the commands-processed counter,
    incremented by one. *)
Theorem foreign_command_ignored (serializeJson : JsonDocument -> string)
    (message chat_id userName : string) (s : State) :
  extractDeviceName message <> "" ->
  extractDeviceName message <> deviceName (config s) ->
  handleExactCommands serializeJson message chat_id s = Running tt s
  /\ (editingMode (editing s) && String.eqb chat_id (editingChatID (editing s)) = false ->
      handleTelegramMessage serializeJson message chat_id userName s
      = Running tt
          (set_telegramStats
             (with_commandsProcessed (wrap32 (commandsProcessed (telegramStats s) + 1))
                (telegramStats s)) s)).
Proof.
  intros Hne Hother. split; [apply handleExactCommands_foreign; assumption |].
  intros Hsession. unfold handleTelegramMessage. unfold bind at 1.
  unfold modify_stats, modify. unfold bind at 1. unfold gets at 1.
  cbn [editing set_telegramStats]. rewrite Hsession.
  apply handleExactCommands_foreign; assumption.
Qed.

(** C2, counterexample.  [/status,CAM ZZ] reaches the device [CAM AB]:
    the commands-processed counter goes from 0 to 1.  And while an editing
    session is open for the chat, [/cancel,CAM ZZ] from that chat is taken
    as the value to edit: it becomes the pending value and a confirmation
    request is sent. *)
Lemma foreign_command_changes_state :
  let s := demo_state 20000 [(true, 100%N)] in
  let se := set_editing (mkEditing true "edit_alert" "1001" "" 20000) s in
  extractDeviceName "/status,CAM ZZ" = "CAM ZZ"
  /\ deviceName (config s) = "CAM AB"
  /\ commandsProcessed (telegramStats s) = 0
  /\ (exists s',
        handleTelegramMessage demo_serializeJson "/status,CAM ZZ" "1001" "Ann" s = Running tt s'
        /\ commandsProcessed (telegramStats s') = 1)
  /\ (exists s',
        handleTelegramMessage demo_serializeJson "/cancel,CAM ZZ" "1001" "Ann" se = Running tt s'
        /\ pendingEditValue (editing s') = "/cancel,CAM ZZ"
        /\ length (attempts (since se s')) = 1%nat).
Proof.
  repeat split; try reflexivity.
  - eexists. split; vm_compute; reflexivity.
  - eexists. split; [vm_compute; reflexivity |]. split; vm_compute; reflexivity.
Qed.

(** ** The edit scenario *)

(** C1, evaluated.  The owner (chat 1001) sends [/edit_alert], then
    [Intruder!], then [/confirm_edit].  The session is opened for the field
    name [/edit_alert], with the slash; the third message comes from the
    chat of the open session and is taken as a new value, so [confirmEdit]
    is not reached: the alert template and [configVersion] are unchanged
    and the session is still open.  Calling [confirmEdit] directly after
    the second message does not apply the value either: no field is named
    [/edit_alert], the session is closed with "Unknown field". *)
Theorem edit_alert_scenario_not_applied :
  let s0 := demo_state 20000 (replicate 8 (true, 100%N)) in
  exists s1 s2 s3 s3',
    handleTelegramMessage demo_serializeJson "/edit_alert" "1001" "Ann" s0 = Running tt s1
    /\ handleTelegramMessage demo_serializeJson "Intruder!" "1001" "Ann" s1 = Running tt s2
    /\ handleTelegramMessage demo_serializeJson "/confirm_edit" "1001" "Ann" s2 = Running tt s3
    /\ confirmEdit demo_serializeJson "1001" s2 = Running tt s3'
    /\ editing s1 = mkEditing true "/edit_alert" "1001" "" 20000
    /\ editing s2 = mkEditing true "/edit_alert" "1001" "Intruder!" 20000
    /\ editing s3 = mkEditing true "/edit_alert" "1001" "/confirm_edit" 20000
    /\ config s3 = config s0
    /\ alertMsg (config s3) = "Smart Witness Alert"
    /\ configVersion (config s3) = 1
    /\ editing s3' = mkEditing false "" "" "" 0
    /\ config s3' = config s0.
Proof.
  eexists _, _, _, _.
  split; [vm_compute; reflexivity |].
  split; [vm_compute; reflexivity |].
  split; [vm_compute; reflexivity |].
  split; [vm_compute; reflexivity |].
  repeat split; vm_compute; reflexivity.
Qed.

(** ** Hoare rules *)

Lemma returns_inv_unit (m : M unit) s (Q : State -> Prop) :
  returns m s (fun _ s' => Q s') -> exists s', m s = Running tt s' /\ Q s'.
Proof. unfold returns. destruct (m s) as [[] s' | | |]; try done. eauto. Qed.


Lemma triple_bind {A B} P (m : M A) (k : A -> M B) Q1 Q R C :
  triple P m Q1 R C -> (forall a, triple (Q1 a) (k a) Q R C) -> triple P (bind m k) Q R C.
Proof.
  intros Hm Hk s Hs. specialize (Hm s Hs). unfold ends, bind in *.
  destruct (m s); try done. apply (Hk a s0 Hm).
Qed.

Lemma triple_ret {A} (P : State -> Prop) (a : A) R C : triple P (ret a) (fun _ => P) R C.
Proof. intros s Hs. exact Hs. Qed.

Lemma triple_gets {A} (P : State -> Prop) (f : State -> A) R C :
  triple P (gets f) (fun _ => P) R C.
Proof. intros s Hs. exact Hs. Qed.

Lemma triple_modify (P P' : State -> Prop) f R C :
  (forall s, P s -> P' (f s)) -> triple P (modify f) (fun _ => P') R C.
Proof. intros H s Hs. apply H, Hs. Qed.

Lemma triple_when (P : State -> Prop) (b : bool) m R C :
  triple P m (fun _ => P) R C -> triple P (when b m) (fun _ => P) R C.
Proof. intros H. destruct b; [exact H | apply triple_ret]. Qed.

Lemma triple_weaken {A} (P P' : State -> Prop) (m : M A) (Q Q' : A -> State -> Prop)
    (R R' C C' : State -> Prop) :
  triple P' m Q' R' C' ->
  (forall s, P s -> P' s) -> (forall a s, Q' a s -> Q a s) ->
  (forall s, R' s -> R s) -> (forall s, C' s -> C s) ->
  triple P m Q R C.
Proof.
  intros H HP HQ HR HC s Hs. specialize (H s (HP s Hs)). unfold ends in *.
  destruct (m s); auto.
Qed.

Lemma triple_returns {A} (P : State -> Prop) (m : M A) (Q : A -> State -> Prop) R C :
  (forall s, P s -> returns m s Q) -> triple P m Q R C.
Proof.
  intros H s Hs. specialize (H s Hs). revert H. unfold returns, ends.
  destruct (m s); intros H; first [exact H | destruct H].
Qed.

(** A state predicate that does not look at what the delivery layer
    changes is kept by it. *)
Definition delivery_invariant (P : State -> Prop) : Prop :=
  forall s s', delivery_step s s' -> P s -> P s'.

Lemma triple_send (P : State -> Prop) chat_id message keyboard R C :
  delivery_invariant P -> triple P (safeSendMessage chat_id message keyboard) (fun _ => P) R C.
Proof.
  intros HP. apply triple_returns. intros s Hs.
  eapply returns_mono; [apply safeSendMessage_step |]. intros ? s' H. cbv beta. eapply HP; [exact H | exact Hs].
Qed.

Lemma triple_delay (P : State -> Prop) ms R C :
  0 <= ms -> delivery_invariant P -> triple P (delay ms) (fun _ => P) R C.
Proof.
  intros Hms HP. apply triple_returns. intros s Hs.
  eapply returns_eq; [apply delay_eq |]. eapply HP; [apply after_delay_step, Hms | exact Hs].
Qed.

Lemma triple_log (P : State -> Prop) e R C :
  (forall s tr, P s -> P (set_trace tr s)) -> triple P (log e) (fun _ => P) R C.
Proof. intros H. unfold log. apply triple_modify. intros s Hs. apply H, Hs. Qed.

(** The configuration as a delivery invariant. *)
Lemma config_is_invariant (c : SmartWitnessConfig) : delivery_invariant (fun s => config s = c).
Proof. intros s s' H Hs. rewrite (ds_config _ _ H). exact Hs. Qed.

Lemma config_editing_invariant (c : SmartWitnessConfig) (e : EditingState) :
  delivery_invariant (fun s => config s = c /\ editing s = e).
Proof.
  intros s s' H [Hc He]. rewrite (ds_config _ _ H), (ds_editing _ _ H). auto.
Qed.

(** ** The menus and the editing session keep the configuration *)

Lemma sendConfigMenu_keeps (P : State -> Prop) chat_id R C :
  delivery_invariant P -> triple P (sendConfigMenu chat_id) (fun _ => P) R C.
Proof.
  intros HP. unfold sendConfigMenu.
  eapply triple_bind; [apply triple_gets | intros c]. cbv zeta.
  destruct (negb _);
    (eapply triple_bind; [apply triple_send, HP | intros ?; apply triple_ret]).
Qed.

Lemma saveConfig_config serializeJson c e R C :
  triple (fun s => config s = c /\ editing s = e) (saveConfig serializeJson)
         (fun _ s => config s = c /\ editing s = e) R C.
Proof.
  unfold saveConfig.
  eapply triple_bind; [apply triple_gets | intros c0]. cbv zeta.
  eapply triple_bind; [apply triple_gets | intros w].
  destruct (negb w); [apply triple_ret |].
  eapply triple_bind; [| intros ?; apply triple_log; auto].
  unfold modify_world. apply triple_modify. auto.
Qed.

Lemma resetEditingState_config c e R C :
  triple (fun s => config s = c /\ editing s = e) resetEditingState
         (fun _ s => config s = c /\ editing s = mkEditing false "" "" "" 0) R C.
Proof. unfold resetEditingState. apply triple_modify. intros s [H _]. auto. Qed.

Lemma triple_run {A} (P : State -> Prop) (m : M A) (Q : A -> State -> Prop) s :
  triple P m Q (fun _ => False) (fun _ => False) -> P s -> returns m s Q.
Proof.
  intros H Hs. specialize (H s Hs). revert H. unfold returns, ends.
  destruct (m s); intros H; exact H.
Qed.

(** What [confirmEdit] does to the configuration and to the session. *)
Lemma confirmEdit_spec serializeJson chat_id s :
  exists s',
    confirmEdit serializeJson chat_id s = Running tt s'
    /\ config s'
       = (if confirm_ready (editing s) chat_id then
            match apply_edit (editingField (editing s)) (pendingEditValue (editing s)) (config s) with
            | Some c' => with_configVersion (wrap32 (configVersion c' + 1)) c'
            | None => config s
            end
          else config s)
    /\ editing s'
       = (if confirm_ready (editing s) chat_id then mkEditing false "" "" "" 0 else editing s).
Proof.
  apply returns_inv_unit.
  unfold confirmEdit. apply returns_bind, returns_gets. cbv beta.
  unfold confirm_ready.
  destruct (editingMode (editing s)) eqn:Emode; cbn [negb orb andb];
    [destruct (String.eqb (editingChatID (editing s)) chat_id) eqn:Echat; cbn [negb orb andb] |].
  2, 3: eapply (triple_run (fun x => config x = config s /\ editing x = editing s)); [| auto];
        (eapply triple_bind; [apply triple_send, config_editing_invariant | intros ?; apply triple_ret]).
  destruct (String.length (pendingEditValue (editing s)) =? 0)%nat eqn:Epend; cbn [negb].
  { eapply (triple_run (fun x => config x = config s /\ editing x = editing s)); [| auto].
    eapply triple_bind; [apply triple_send, config_editing_invariant | intros ?; apply triple_ret]. }
  cbv zeta. unfold apply_edit.
  repeat match goal with
         | |- context [if String.eqb (editingField (editing s)) ?f then _ else _] =>
             destruct (String.eqb (editingField (editing s)) f) eqn:?
         end.
  1-8: apply returns_bind, returns_bind; unfold modify_config; apply returns_modify, returns_ret;
       cbv beta iota; apply returns_bind, returns_modify;
       match goal with |- returns _ ?s2 _ =>
         eapply (triple_run (fun x => config x = config s2 /\ editing x = editing s2)); [| auto];
         (eapply triple_bind; [apply saveConfig_config | intros ?]);
         (eapply triple_bind; [apply triple_send, config_editing_invariant | intros ?]);
         (eapply triple_bind; [apply resetEditingState_config | intros ?]);
         (eapply triple_bind; [apply triple_delay; [lia | apply config_editing_invariant] | intros ?]);
         (eapply triple_weaken;
          [apply (sendConfigMenu_keeps
                    (fun x => config x = config s2 /\ editing x = mkEditing false "" "" "" 0)),
             config_editing_invariant
          | intros ? H; exact H | cbv beta; intros ? ? [-> ->]; split; reflexivity
          | intros ? H; exact H | intros ? H; exact H])
       end.
  apply returns_bind, returns_ret. cbv beta iota.
  eapply (triple_run (fun x => config x = config s /\ editing x = editing s)); [| auto].
  eapply triple_bind; [apply triple_send, config_editing_invariant | intros ?].
  eapply triple_weaken;
    [apply (resetEditingState_config (config s) (editing s))
    | intros ? H; exact H | cbv beta; intros ? ? [-> ->]; split; reflexivity
          | intros ? H; exact H | intros ? H; exact H].
Qed.

(** ** Predicates on the configuration *)

Lemma cfg_inv_delivery p : delivery_invariant (cfg_inv p).
Proof. intros s s' H Hs. unfold cfg_inv. rewrite (ds_config _ _ H). exact Hs. Qed.

Lemma triple_cfg_modify p f R C :
  (forall s, config (f s) = config s) ->
  triple (cfg_inv p) (modify f) (fun _ => cfg_inv p) R C.
Proof. intros H. apply triple_modify. intros s Hs. unfold cfg_inv. rewrite H. exact Hs. Qed.

Lemma triple_cfg_update (p p' : SmartWitnessConfig -> Prop) f R C :
  (forall c, p c -> p' (f c)) ->
  triple (cfg_inv p) (modify_config f) (fun _ => cfg_inv p') R C.
Proof. intros H. unfold modify_config. apply triple_modify. intros s Hs. apply H, Hs. Qed.

Lemma triple_cfg_log p e R C : triple (cfg_inv p) (log e) (fun _ => cfg_inv p) R C.
Proof. apply triple_log. auto. Qed.

Lemma saveConfig_cfg serializeJson p R C :
  triple (cfg_inv p) (saveConfig serializeJson) (fun _ => cfg_inv p) R C.
Proof.
  unfold saveConfig.
  eapply triple_bind; [apply triple_gets | intros c0]. cbv zeta.
  eapply triple_bind; [apply triple_gets | intros w].
  destruct (negb w); [apply triple_ret |].
  eapply triple_bind; [| intros ?; apply triple_cfg_log].
  unfold modify_world. apply triple_cfg_modify. reflexivity.
Qed.

Lemma updateBLEStatus_cfg status p R C :
  triple (cfg_inv p) (updateBLEStatus status) (fun _ => cfg_inv p) R C.
Proof.
  unfold updateBLEStatus.
  eapply triple_bind; [apply triple_gets | intros b].
  eapply triple_bind; [apply triple_when, triple_cfg_log | intros ?].
  eapply triple_bind; [apply triple_gets | intros pin].
  apply triple_when, triple_cfg_log.
Qed.

Lemma triggerConfigurationRestart_cfg p (Q : unit -> State -> Prop) C :
  triple (cfg_inv p) triggerConfigurationRestart Q (cfg_inv p) C.
Proof.
  unfold triggerConfigurationRestart.
  eapply triple_bind; [apply triple_gets | intros b].
  eapply triple_bind with (Q1 := fun _ => cfg_inv p).
  - apply triple_when.
    eapply triple_bind; [apply triple_cfg_log | intros ?].
    eapply triple_bind; [apply triple_cfg_log | intros ?].
    apply triple_cfg_modify. reflexivity.
  - intros ?. eapply triple_bind with (Q1 := fun _ => cfg_inv p).
    + apply triple_delay; [lia | apply cfg_inv_delivery].
    + intros ? s Hs. exact Hs.
Qed.


Lemma sendConfigMenu_cfg chat_id p R C :
  triple (cfg_inv p) (sendConfigMenu chat_id) (fun _ => cfg_inv p) R C.
Proof. apply sendConfigMenu_keeps, cfg_inv_delivery. Qed.

Lemma startEditMode_cfg field chat_id p R C :
  triple (cfg_inv p) (startEditMode field chat_id) (fun _ => cfg_inv p) R C.
Proof.
  unfold startEditMode.
  eapply triple_bind; [apply triple_gets | intros c]. cbv zeta.
  destruct (negb _).
  - eapply triple_bind; [apply triple_send, cfg_inv_delivery | intros ?; apply triple_ret].
  - eapply triple_bind; [apply triple_gets | intros now].
    eapply triple_bind; [apply triple_cfg_modify; reflexivity | intros ?].
    eapply triple_bind; [apply triple_send, cfg_inv_delivery | intros ?; apply triple_ret].
Qed.

Lemma showEditConfirmation_cfg newValue field chat_id p R C :
  triple (cfg_inv p) (showEditConfirmation newValue field chat_id) (fun _ => cfg_inv p) R C.
Proof.
  unfold showEditConfirmation.
  eapply triple_bind; [apply triple_gets | intros c]. cbv zeta.
  eapply triple_bind; [unfold modify_editing; apply triple_cfg_modify; reflexivity | intros ?].
  eapply triple_bind; [apply triple_send, cfg_inv_delivery | intros ?; apply triple_ret].
Qed.

Lemma resetEditingState_cfg p R C :
  triple (cfg_inv p) resetEditingState (fun _ => cfg_inv p) R C.
Proof. unfold resetEditingState. apply triple_cfg_modify. reflexivity. Qed.

Lemma handleEditingInput_cfg message chat_id p R C :
  triple (cfg_inv p) (handleEditingInput message chat_id) (fun _ => cfg_inv p) R C.
Proof.
  unfold handleEditingInput.
  eapply triple_bind; [apply triple_gets | intros now].
  eapply triple_bind; [apply triple_gets | intros e].
  destruct (_ <? _).
  { eapply triple_bind; [apply resetEditingState_cfg | intros ?].
    eapply triple_bind; [apply triple_send, cfg_inv_delivery | intros ?; apply triple_ret]. }
  destruct (_ =? _)%nat.
  { eapply triple_bind; [apply triple_send, cfg_inv_delivery | intros ?; apply triple_ret]. }
  destruct (_ <? _)%nat.
  { eapply triple_bind; [apply triple_send, cfg_inv_delivery | intros ?; apply triple_ret]. }
  apply showEditConfirmation_cfg.
Qed.

Lemma cancelEdit_cfg chat_id p R C :
  triple (cfg_inv p) (cancelEdit chat_id) (fun _ => cfg_inv p) R C.
Proof.
  unfold cancelEdit.
  eapply triple_bind; [apply triple_gets | intros e].
  destruct (_ || _).
  { eapply triple_bind; [apply triple_send, cfg_inv_delivery | intros ?; apply triple_ret]. }
  cbv zeta.
  eapply triple_bind; [apply resetEditingState_cfg | intros ?].
  eapply triple_bind; [apply triple_send, cfg_inv_delivery | intros ?].
  eapply triple_bind; [apply triple_delay; [lia | apply cfg_inv_delivery] | intros ?].
  apply sendConfigMenu_cfg.
Qed.


(** ** The configuration version *)


Section Versions.

Variable deserializeJson : nat -> string -> option JsonDocument.
Variable serializeJson : JsonDocument -> string.

Abbreviation state_after' := (state_after deserializeJson serializeJson).
Abbreviation op_succeeds' := (op_succeeds deserializeJson serializeJson).


End Versions.

(** The wrap: with [configVersion] at 4294967295, the largest [uint32_t],
    a successful edit-confirm of the alert template takes it to 0. *)
Lemma configVersion_wraps_to_zero :
  let s := set_editing (mkEditing true "edit_alert" "1001" "Intruder!" 20000)
             (set_config (with_configVersion UINT32_MAX demo_config)
                (demo_state 20000 (replicate 8 (true, 100%N)))) in
  let s' := state_after demo_deserializeJson demo_serializeJson (OpConfirm "1001") s in
  op_succeeds demo_deserializeJson demo_serializeJson (OpConfirm "1001") s = true
  /\ confirmEdit demo_serializeJson "1001" s = Running tt s'
  /\ alertMsg (config s') = "Intruder!"
  /\ configVersion (config s) = 4294967295
  /\ configVersion (config s') = 0.
Proof.
  cbv zeta.
  split; [vm_compute; reflexivity |].
  split; [vm_compute; reflexivity |].
  split; [vm_compute; reflexivity |].
  split; vm_compute; reflexivity.
Qed.


(** ** Boot *)

Lemma quiet_step_refl s : quiet_step s s.
Proof.
  split; try reflexivity. exists []. split; [symmetry; apply app_nil_r | constructor].
Qed.

Lemma quiet_step_trans s1 s2 s3 : quiet_step s1 s2 -> quiet_step s2 s3 -> quiet_step s1 s3.
Proof.
  intros [C1 S1 B1 L1 (e1 & T1 & F1)] [C2 S2 B2 L2 (e2 & T2 & F2)].
  split; try congruence.
  exists (e1 ++ e2)%list. split.
  - rewrite T2, T1. symmetry. apply app_assoc.
  - apply Forall_app. auto.
Qed.

Lemma delivery_quiet s s' : delivery_step s s' -> quiet_step s s'.
Proof. intros []. split; assumption. Qed.

Lemma quiet_send chat_id message keyboard :
  preserves quiet_step (safeSendMessage chat_id message keyboard).
Proof.
  apply preserves_step; [apply quiet_step_trans |]. intros s.
  eapply returns_mono; [apply safeSendMessage_step |]. intros ? ? H. apply delivery_quiet, H.
Qed.

Lemma quiet_delay ms : 0 <= ms -> preserves quiet_step (delay ms).
Proof.
  intros H. apply preserves_step; [apply quiet_step_trans |]. intros s.
  eapply returns_eq; [apply delay_eq |]. apply delivery_quiet, after_delay_step, H.
Qed.

Lemma quiet_modify f :
  (forall s, config (f s) = config s /\ currentState (f s) = currentState s
             /\ ble (f s) = ble s /\ bleConfigStartTime (f s) = bleConfigStartTime s
             /\ trace (f s) = trace s) ->
  preserves quiet_step (modify f).
Proof.
  intros H. apply preserves_step; [apply quiet_step_trans |]. intros s.
  destruct (H s) as (H1 & H2 & H3 & H4 & H5).
  apply returns_modify. split; try assumption.
  exists []. split; [rewrite H5; symmetry; apply app_nil_r | constructor].
Qed.

Lemma quiet_modify_world f : preserves quiet_step (modify_world f).
Proof. unfold modify_world. apply quiet_modify. intros s. repeat split. Qed.

(** The connection wait polls 150 times at most: it always returns. *)
Lemma wifi_wait_quiet fuel : forall k T0 s0 s,
  quiet_step s0 s ->
  clock (world s) = T0 + 100 * Z.of_nat k ->
  (k <= 150)%nat -> (150 <= fuel + k)%nat ->
  returns (wifi_wait fuel (wrap32 T0)) s (fun _ s' => quiet_step s0 s').
Proof.
  induction fuel as [| fuel IH]; intros k T0 s0 s Hq Hclock Hk Hfuel.
  - assert (k = 150)%nat as -> by lia.
    unfold wifi_wait. apply returns_bind. unfold millis. apply returns_gets.
    rewrite Hclock, wrap32_sub.
    replace (T0 + 100 * Z.of_nat 150 - T0) with 15000 by lia.
    change (wrap32 15000 <? 15000) with false. exact Hq.
  - cbn [wifi_wait]. apply returns_bind. unfold millis at 1. apply returns_gets.
    rewrite Hclock, wrap32_sub.
    replace (T0 + 100 * Z.of_nat k - T0) with (100 * Z.of_nat k) by lia.
    rewrite wrap32_small by (change (2 ^ 32) with 4294967296; lia).
    destruct (100 * Z.of_nat k <? 15000) eqn:E; [| exact Hq].
    apply Z.ltb_lt in E.
    apply returns_bind, returns_gets.
    destruct (WiFi_connected (world s)); [exact Hq |].
    apply returns_bind. eapply returns_eq; [apply delay_eq |].
    apply (IH (S k) T0 s0 (after_delay 100 s)).
    + eapply quiet_step_trans; [exact Hq |]. apply delivery_quiet, after_delay_step. lia.
    + rewrite clock_after_delay, Hclock. lia.
    + lia.
    + lia.
Qed.

Lemma wifi_networks_quiet n : forall i, preserves quiet_step (wifi_networks i n).
Proof.
  induction n as [| n IH]; intros i; cbn [wifi_networks]; [apply preserves_ret |].
  apply preserves_bind; [apply preserves_gets | intros c].
  destruct (_ =? _); [apply IH |].
  apply preserves_bind; [apply quiet_modify_world | intros ?].
  apply preserves_bind; [apply quiet_delay; lia | intros ?].
  apply preserves_bind; [apply quiet_modify_world | intros ?].
  intros s0 s Hq. apply returns_bind. unfold millis. apply returns_gets.
  apply returns_bind.
  eapply returns_mono;
    [apply (wifi_wait_quiet 150 0 (clock (world s)) s0 s Hq); [lia | lia | lia] |].
  intros up s1 Hq1. cbv beta.
  destruct up; [exact Hq1 |].
  apply (preserves_bind quiet_step WiFi_disconnect (fun _ => wifi_networks (S i) n)
           (quiet_modify_world _) (fun _ => IH (S i)) s0 s1 Hq1).
Qed.

Lemma connectWiFiWithFallback_quiet : preserves quiet_step connectWiFiWithFallback.
Proof. apply wifi_networks_quiet. Qed.

Lemma sendStartupAlertsToAllChats_quiet : preserves quiet_step sendStartupAlertsToAllChats.
Proof.
  unfold sendStartupAlertsToAllChats.
  apply preserves_bind; [apply preserves_gets | intros s1]. cbv zeta.
  apply preserves_bind.
  { unfold getFormattedDateTime, millis.
    apply preserves_bind; [apply preserves_gets | intros ?; apply preserves_ret]. }
  intros date.
  apply preserves_bind.
  { apply preserves_when, preserves_bind; [apply quiet_send | intros ?; apply quiet_delay; lia]. }
  intros ?. apply preserves_bind.
  { apply preserves_when, preserves_bind; [apply quiet_send | intros ?; apply quiet_delay; lia]. }
  intros ?.
  apply preserves_when, preserves_bind; [apply quiet_send | intros ?; apply quiet_delay; lia].
Qed.

(** Loading the configuration. *)

Lemma load_modify_config s0 f R C :
  triple (load_inv s0) (modify_config f) (fun _ => load_inv s0) R C.
Proof. unfold modify_config. apply triple_modify. intros s H. exact H. Qed.

Lemma loadDefaultConfig_load s0 R C :
  triple (load_inv s0) loadDefaultConfig (fun _ => load_inv s0) R C.
Proof.
  unfold loadDefaultConfig.
  eapply triple_bind with (Q1 := fun _ => load_inv s0);
    [apply triple_modify; intros s H; exact H | intros ?].
  eapply triple_bind with (Q1 := fun _ => load_inv s0).
  { unfold generateDefaultFriendlyName.
    eapply triple_bind; [apply triple_gets | intros ?; apply triple_ret]. }
  intros name.
  eapply triple_bind; [apply load_modify_config | intros ?].
  eapply triple_bind; [apply load_modify_config | intros ?].
  eapply triple_bind with (Q1 := fun _ => load_inv s0).
  { unfold generateDevicePIN.
    eapply triple_bind with (Q1 := fun _ => load_inv s0); [| intros ?; apply triple_ret].
    intros s H. exact H. }
  intros pin.
  repeat (eapply triple_bind; [apply load_modify_config | intros ?]).
  apply load_modify_config.
Qed.

Lemma loadConfig_load deserializeJson s0 R C :
  triple (load_inv s0) (loadConfig deserializeJson) (fun _ => load_inv s0) R C.
Proof.
  unfold loadConfig.
  eapply triple_bind; [apply triple_gets | intros file].
  destruct file as [buf |]; [| apply loadDefaultConfig_load].
  destruct (_ <? _)%nat; [apply loadDefaultConfig_load |].
  destruct (deserializeJson 2048%nat buf) as [doc |]; [| apply loadDefaultConfig_load].
  unfold load_wifi.
  repeat first
    [ apply load_modify_config
    | eapply triple_bind with (Q1 := fun _ => load_inv s0); [| intros ?] ].
Qed.

Lemma assign_currentState_eq st s :
  assign_currentState st s = Running tt (after_assign st s).
Proof. reflexivity. Qed.

Lemma initBLE_eq s : initBLE s = Running tt (after_initBLE s).
Proof.
  unfold initBLE, updateBLEStatus, bind, gets, log, modify, when, ret. cbn.
  unfold after_initBLE. rewrite <- !app_assoc. reflexivity.
Qed.

Lemma need_config_eq s :
  (assign_currentState NEED_CONFIG;;;
   initBLE;;;
   let* now := millis in
   modify (set_bleConfigStartTime now);;;
   assign_currentState BLE_CONFIG_PHASE) s
  = Running tt (after_need_config s).
Proof.
  rewrite (bind_run _ _ _ _ _ (assign_currentState_eq NEED_CONFIG s)).
  rewrite (bind_run _ _ _ _ _ (initBLE_eq _)).
  reflexivity.
Qed.

Lemma lifecycle_delivery evs :
  Forall (fun te => is_delivery (snd te) = true) evs -> lifecycle evs = [].
Proof.
  unfold lifecycle. induction 1 as [| [t e] evs He _ IH]; [reflexivity |].
  cbn [List.filter snd]. destruct e; try discriminate He; exact IH.
Qed.

Lemma lifecycle_app e1 e2 : lifecycle (e1 ++ e2) = (lifecycle e1 ++ lifecycle e2)%list.
Proof. unfold lifecycle. rewrite List.filter_app. apply map_app. Qed.

Lemma normal_operation_quiet (c : SmartWitnessConfig) :
  preserves quiet_step
    (let* connected := connectWiFiWithFallback in
     when connected
       (modify (set_bot (Some (telegramToken c)));;;
        delay 5000;;;
        sendStartupAlertsToAllChats)).
Proof.
  apply preserves_bind; [apply connectWiFiWithFallback_quiet | intros connected].
  apply preserves_when.
  apply preserves_bind; [apply quiet_modify; intros s; repeat split | intros ?].
  apply preserves_bind; [apply quiet_delay; lia | intros ?].
  apply sendStartupAlertsToAllChats_quiet.
Qed.

(** C9. [setup] returns.  If the configuration it loaded is not valid, it
    sets the state to [NEED_CONFIG], starts the BLE server (init,
    advertising, status [waiting_for_connection]), records the start time
    and sets the state to [BLE_CONFIG_PHASE], in that order and with no
    other lifecycle event; if it is valid, the only lifecycle event is the
    change to [NORMAL_OPERATION], which is the final state, and the BLE
    objects are untouched. *)
Theorem setup_initial_state (deserializeJson : nat -> string -> option JsonDocument)
    (s : State) :
  exists s0 s',
    loadConfig deserializeJson (after_delay 2000 s) = Running tt s0
    /\ setup deserializeJson s = Running tt s'
    /\ config s' = config s0
    /\ if hasValidConfig (config s0)
       then currentState s' = NORMAL_OPERATION
            /\ lifecycle (since s s') = [EvState NORMAL_OPERATION]
            /\ ble s' = ble s
       else currentState s' = BLE_CONFIG_PHASE
            /\ lifecycle (since s s')
               = [EvState NEED_CONFIG; EvBLEInit (deviceName (config s0));
                  EvBLEAdvertise true; EvBLEStatus "waiting_for_connection";
                  EvState BLE_CONFIG_PHASE]
            /\ pServer (ble s') = true
            /\ advertising (ble s') = true
            /\ bleConfigStartTime s' = wrap32 (clock (world s')).
Proof.
  pose proof (loadConfig_load deserializeJson (after_delay 2000 s)
                (fun _ => False) (fun _ => False) (after_delay 2000 s)) as Hload.
  unfold ends in Hload.
  destruct (loadConfig deserializeJson (after_delay 2000 s)) as [[] s0 | | |] eqn:Eload;
    try (exfalso; apply Hload; repeat split; fail).
  destruct Hload as (Hst & Hble & Hstart & Htrace & Hclock); [repeat split |].
  exists s0.
  assert (Hsetup : setup deserializeJson s
                   = (let* c := gets config in
                      if negb (hasValidConfig c) then
                        assign_currentState NEED_CONFIG;;;
                        initBLE;;;
                        let* now := millis in
                        modify (set_bleConfigStartTime now);;;
                        assign_currentState BLE_CONFIG_PHASE
                      else
                        assign_currentState NORMAL_OPERATION;;;
                        let* connected := connectWiFiWithFallback in
                        when connected
                          (modify (set_bot (Some (telegramToken c)));;;
                           delay 5000;;;
                           sendStartupAlertsToAllChats)) (after_resets s0)).
  { unfold setup. rewrite (bind_run _ _ _ _ _ (delay_eq 2000 s)).
    rewrite (bind_run _ _ _ _ _ Eload). reflexivity. }
  rewrite Hsetup. unfold bind at 1. unfold gets at 1.
  change (config (after_resets s0)) with (config s0).
  assert (Htr : trace (after_resets s0) = (trace s ++ [(clock (world s), EvDelay 2000)])%list).
  { change (trace (after_resets s0)) with (trace s0). rewrite Htrace. reflexivity. }
  destruct (hasValidConfig (config s0)); cbn [negb].
  - rewrite (bind_run _ _ _ _ _ (assign_currentState_eq NORMAL_OPERATION _)).
    set (s3 := after_assign NORMAL_OPERATION (after_resets s0)).
    destruct (returns_inv _ _ _ (normal_operation_quiet (config s0) s3 s3 (quiet_step_refl s3)))
      as ([] & s' & E & [Qc Qs Qb _ (evs & Qt & Qd)]).
    exists s'. split; [reflexivity |]. split; [exact E |].
    split; [rewrite Qc; reflexivity |].
    split; [rewrite Qs; reflexivity |].
    split; [| rewrite Qb; exact Hble].
    assert (Hs' : trace s' = (trace s ++ [(clock (world s), EvDelay 2000);
                                          (clock (world (after_resets s0)), EvState NORMAL_OPERATION)]
                              ++ evs)%list).
    { rewrite Qt. subst s3. unfold after_assign. cbn [trace set_trace set_currentState world].
      rewrite Htr, <- !app_assoc. reflexivity. }
    rewrite (since_app _ _ _ Hs'), lifecycle_app, (lifecycle_delivery _ Qd). reflexivity.
  - rewrite need_config_eq.
    exists (after_need_config (after_resets s0)).
    split; [reflexivity |]. split; [reflexivity |]. split; [reflexivity |].
    split; [reflexivity |].
    split; [| repeat split].
    assert (Hs' : trace (after_need_config (after_resets s0))
                  = (trace s ++ [(clock (world s), EvDelay 2000);
                       (clock (world s0), EvState NEED_CONFIG);
                       (clock (world s0), EvBLEInit (deviceName (config s0)));
                       (clock (world s0), EvBLEAdvertise true);
                       (clock (world s0), EvBLEStatus "waiting_for_connection");
                       (clock (world s0), EvState BLE_CONFIG_PHASE)])%list).
    { unfold after_need_config, after_initBLE, after_assign.
      cbn [trace set_trace set_currentState set_ble set_bleConfigStartTime world config].
      rewrite Htr, <- !app_assoc. reflexivity. }
    rewrite (since_app _ _ _ Hs'). reflexivity.
Qed.

(** * Instances *)

Lemma hasValidConfig_iff_witness : hasValidConfig demo_config = true.
Proof.
  apply (proj2 (hasValidConfig_iff demo_config)).
  split; [discriminate |]. split; [reflexivity |].
  split; [exists 0%nat; split; [lia | discriminate] |].
  split; [vm_compute; lia | discriminate].
Defined.

(** Before provisioning every endpoint is empty, and the empty chat id is
    the owner. *)
Lemma getChatType_first_match_witness :
  "" = personalChatId zero_config /\ getChatType zero_config "" = "personal".
Proof.
  split; [reflexivity |].
  exact (proj1 (getChatType_first_match zero_config "") eq_refl).
Defined.

Lemma safeSendMessage_bounded_retry_witness :
  let s := demo_state 20000 [(false, 100%N); (false, 100%N); (true, 100%N)] in
  bot s <> None
  /\ exists ok s',
       safeSendMessage "1001" "hello" "" s = Running ok s'
       /\ (1 <= length (attempts (since s s')) <= 3)%nat
       /\ Forall (fun te => exists b, snd te = send_event "1001" "hello" "" b)
                 (attempts (since s s'))
       /\ backoffs (since s s') false 0
          = take (length (attempts (since s s')) - 1) [500; 1000]
       /\ (forall d1 d2 d3 rest,
             net (world s) = (false, d1) :: (false, d2) :: (true, d3) :: rest ->
             ok = true
             /\ map (fun te => attempt_ok (snd te)) (attempts (since s s')) = [false; false; true]
             /\ totalFailedSends (telegramStats s') = totalFailedSends (telegramStats s)
             /\ totalMessagesSent (telegramStats s')
                = wrap32 (totalMessagesSent (telegramStats s) + 1)
             /\ (0 <= totalMessagesSent (telegramStats s) < UINT32_MAX ->
                 totalMessagesSent (telegramStats s')
                 = totalMessagesSent (telegramStats s) + 1)).
Proof.
  intros s.
  assert (H : bot s <> None) by discriminate.
  split; [exact H |].
  exact (safeSendMessage_bounded_retry "1001" "hello" "" s H).
Defined.

Lemma safeSendMessage_spacing_after_success_witness :
  let s := demo_state 20000 [(true, 100%N)] in
  bot s <> None
  /\ exists ok s',
       safeSendMessage "1001" "hello" "" s = Running ok s'
       /\ (ok = true ->
           totalMessagesSent (telegramStats s') = wrap32 (totalMessagesSent (telegramStats s) + 1)
           /\ lastSuccessfulSend (telegramStats s') = wrap32 (clock (world s'))
           /\ lastMessageTime s' = wrap32 (clock (world s'))
           /\ forall chat2 message2 keyboard2 s2,
                bot s2 <> None ->
                lastMessageTime s2 = lastMessageTime s' ->
                clock (world s') <= clock (world s2) ->
                exists ok2 s2',
                  safeSendMessage chat2 message2 keyboard2 s2 = Running ok2 s2'
                  /\ Forall (fun t => clock (world s') + MESSAGE_INTERVAL <= t)
                            (attempt_times (since s2 s2')))
       /\ (ok = false -> lastMessageTime s' = lastMessageTime s).
Proof.
  intros s.
  assert (H : bot s <> None) by discriminate.
  split; [exact H |].
  exact (safeSendMessage_spacing_after_success "1001" "hello" "" s H).
Defined.

Lemma edit_session_guard_witness :
  let s := set_editing (mkEditing true "edit_alert" "1001" "Intruder!" 20000)
             (demo_state 20000 [(true, 100%N)]) in
  (editingMode (editing s) = false \/ editingChatID (editing s) <> "2002")
  /\ exists s1 s2,
       confirmEdit demo_serializeJson "2002" s = Running tt s1
       /\ cancelEdit "2002" s = Running tt s2
       /\ editing s1 = editing s /\ config s1 = config s
       /\ spiffs_config (world s1) = spiffs_config (world s)
       /\ editing s2 = editing s /\ config s2 = config s
       /\ spiffs_config (world s2) = spiffs_config (world s)
       /\ (bot s <> None ->
           replies_with "2002" msg_no_session_confirm (since s s1)
           /\ replies_with "2002" msg_no_session_cancel (since s s2)).
Proof.
  intros s.
  assert (H : editingMode (editing s) = false \/ editingChatID (editing s) <> "2002")
    by (right; discriminate).
  split; [exact H |].
  exact (edit_session_guard demo_serializeJson "2002" s H).
Defined.

Lemma provisioning_missing_fields_witness :
  let s := set_ble (mkBLE true true true true true)
             (set_currentState BLE_CONFIG_PHASE (demo_state 20000 [])) in
  let doc : JsonDocument := <["telegramToken" := JString demo_token]> ∅ in
  demo_deserializeJson 1024%nat "no wifi" = Some doc
  /\ (doc !! "telegramToken" = None \/ doc !! "wifiSSID" = None \/ doc !! "wifiPassword" = None)
  /\ pStatusCharacteristic (ble s) = true
  /\ exists s',
       processBLEConfiguration demo_deserializeJson demo_serializeJson "no wifi" s = Running tt s'
       /\ since s s' = [(clock (world s), EvBLEStatus "config_error_missing_fields")]
       /\ config s' = config s
       /\ currentState s' = currentState s
       /\ world s' = world s
       /\ set_trace (trace s) s' = s.
Proof.
  intros s doc.
  assert (H1 : demo_deserializeJson 1024%nat "no wifi" = Some doc) by reflexivity.
  assert (H2 : doc !! "telegramToken" = None \/ doc !! "wifiSSID" = None
               \/ doc !! "wifiPassword" = None) by (right; left; vm_compute; reflexivity).
  assert (H3 : pStatusCharacteristic (ble s) = true) by reflexivity.
  split; [exact H1 |]. split; [exact H2 |]. split; [exact H3 |].
  exact (provisioning_missing_fields demo_deserializeJson demo_serializeJson
           "no wifi" doc s H1 H2 H3).
Defined.

Lemma foreign_command_ignored_witness :
  let s := demo_state 20000 [(true, 100%N)] in
  extractDeviceName "/status,CAM ZZ" <> ""
  /\ extractDeviceName "/status,CAM ZZ" <> deviceName (config s)
  /\ handleExactCommands demo_serializeJson "/status,CAM ZZ" "1001" s = Running tt s
  /\ (editingMode (editing s) && String.eqb "1001" (editingChatID (editing s)) = false ->
      handleTelegramMessage demo_serializeJson "/status,CAM ZZ" "1001" "Ann" s
      = Running tt
          (set_telegramStats
             (with_commandsProcessed (wrap32 (commandsProcessed (telegramStats s) + 1))
                (telegramStats s)) s)).
Proof.
  intros s.
  assert (H1 : extractDeviceName "/status,CAM ZZ" <> "") by (vm_compute; discriminate).
  assert (H2 : extractDeviceName "/status,CAM ZZ" <> deviceName (config s))
    by (vm_compute; discriminate).
  split; [exact H1 |]. split; [exact H2 |].
  exact (foreign_command_ignored demo_serializeJson "/status,CAM ZZ" "1001" "Ann" s H1 H2).
Defined.


(** * Further properties of the firmware *)

(** ** The command router *)

Lemma getChatType_personal c chat_id :
  String.eqb (getChatType c chat_id) "personal" = true <-> chat_id = personalChatId c.
Proof.
  unfold getChatType.
  destruct (String.eqb_spec chat_id (personalChatId c)) as [-> | Hne].
  - split; reflexivity.
  - destruct (String.eqb chat_id (familiarChatId c)), (String.eqb chat_id (vecinalChatId c));
      split; intros H; try discriminate H; contradiction.
Qed.

Lemma triple_transport (P : State -> Prop) ev R C :
  (forall ok, is_delivery (ev ok) = true) ->
  delivery_invariant P -> triple P (transport ev) (fun _ => P) R C.
Proof.
  intros Hev HP. apply triple_returns. intros s Hs.
  eapply returns_eq; [apply transport_eq |].
  eapply HP; [apply after_transport_step, Hev | exact Hs].
Qed.

Lemma getFormattedDateTime_keeps (P : State -> Prop) R C :
  triple P getFormattedDateTime (fun _ => P) R C.
Proof.
  unfold getFormattedDateTime, millis.
  eapply triple_bind; [apply triple_gets | intros ?; apply triple_ret].
Qed.

Lemma modify_stats_cfg f p R C : triple (cfg_inv p) (modify_stats f) (fun _ => cfg_inv p) R C.
Proof. unfold modify_stats. apply triple_cfg_modify. reflexivity. Qed.

Lemma takePhoto_cfg chat_id p R :
  triple (cfg_inv p) (takePhoto chat_id) (fun _ => cfg_inv p) R (cfg_inv p).
Proof.
  unfold takePhoto.
  eapply triple_bind; [apply triple_send, cfg_inv_delivery | intros ?].
  eapply triple_bind; [apply triple_delay; [lia | apply cfg_inv_delivery] | intros ?].
  eapply triple_bind with (Q1 := fun _ => cfg_inv p); [intros s Hs; exact Hs | intros fb].
  destruct (negb fb).
  { eapply triple_bind; [apply triple_send, cfg_inv_delivery | intros ?].
    apply modify_stats_cfg. }
  eapply triple_bind; [apply triple_gets | intros b].
  eapply triple_bind with (Q1 := fun _ => cfg_inv p).
  { destruct b; [| intros s Hs; exact Hs].
    apply triple_transport; [reflexivity | apply cfg_inv_delivery]. }
  intros success. destruct success.
  - eapply triple_bind; [apply triple_gets | intros ?].
    eapply triple_bind; [apply getFormattedDateTime_keeps | intros ?]. cbv zeta.
    eapply triple_bind; [apply triple_send, cfg_inv_delivery | intros ?].
    apply modify_stats_cfg.
  - eapply triple_bind; [apply triple_send, cfg_inv_delivery | intros ?].
    apply modify_stats_cfg.
Qed.

Lemma sendStatus_keeps (P : State -> Prop) chat_id R C :
  delivery_invariant P -> triple P (sendStatus chat_id) (fun _ => P) R C.
Proof.
  intros HP. unfold sendStatus.
  eapply triple_bind; [apply triple_gets | intros s0]. cbv zeta.
  eapply triple_bind; [unfold millis; apply triple_gets | intros now].
  eapply triple_bind; [apply triple_send, HP | intros ?; apply triple_ret].
Qed.

Lemma sendMainMenu_keeps (P : State -> Prop) chat_id R C :
  delivery_invariant P -> triple P (sendMainMenu chat_id) (fun _ => P) R C.
Proof.
  intros HP. unfold sendMainMenu.
  eapply triple_bind; [apply triple_gets | intros c]. cbv zeta.
  eapply triple_bind; [apply triple_send, HP | intros ?; apply triple_ret].
Qed.

Lemma ESP_restart_cfg {A} p (Q : A -> State -> Prop) C :
  triple (cfg_inv p) ESP_restart Q (cfg_inv p) C.
Proof. intros s Hs. exact Hs. Qed.

Lemma ends_bind_gets {A B} (f : State -> A) (k : A -> M B) s Q R C :
  ends (k (f s)) s Q R C -> ends (bind (gets f) k) s Q R C.
Proof. intros H. exact H. Qed.

(** Outside an editing session of the caller, a command keeps the
    configuration however it ends, and it ends in a restart only for
    [/restart] and [/save_restart] from the personal chat. *)
Lemma handleExactCommands_outcome serializeJson message chat_id s :
  editingMode (editing s) && String.eqb chat_id (editingChatID (editing s)) = false ->
  ends (handleExactCommands serializeJson message chat_id) s
    (fun _ s' => config s' = config s)
    (fun s' => config s' = config s
               /\ chat_id = personalChatId (config s)
               /\ (extractCommand message = "/restart"
                   \/ extractCommand message = "/save_restart"))
    (fun s' => config s' = config s).
Proof.
  intros Hguard.
  set (p := fun x : SmartWitnessConfig => x = config s).
  set (Rst := fun s' : State => config s' = config s
               /\ chat_id = personalChatId (config s)
               /\ (extractCommand message = "/restart"
                   \/ extractCommand message = "/save_restart")).
  assert (Hnever : forall (m : M unit),
            triple (cfg_inv p) m (fun _ => cfg_inv p) (fun _ => False) (cfg_inv p) ->
            ends m s (fun _ s' => config s' = config s) Rst (fun s' => config s' = config s)).
  { intros m Hm. specialize (Hm s eq_refl). revert Hm. unfold ends, cfg_inv, p.
    destruct (m s); intros H; first [exact H | destruct H]. }
  unfold handleExactCommands. cbv zeta. apply ends_bind_gets.
  destruct (negb (String.eqb (extractDeviceName message) (deviceName (config s))) && _);
    [exact eq_refl |].
  destruct (String.eqb (extractCommand message) "/photo"); [apply Hnever, takePhoto_cfg |].
  destruct (String.eqb (extractCommand message) "/status");
    [apply Hnever, sendStatus_keeps, cfg_inv_delivery |].
  destruct (String.eqb (extractCommand message) "/menu");
    [apply Hnever, sendMainMenu_keeps, cfg_inv_delivery |].
  destruct (String.eqb (extractCommand message) "/config");
    [apply Hnever, sendConfigMenu_cfg |].
  destruct (startsWith (extractCommand message) "/edit_");
    [apply Hnever, startEditMode_cfg |].
  destruct (String.eqb (extractCommand message) "/confirm_edit").
  { assert (Hrej : editingMode (editing s) = false \/ editingChatID (editing s) <> chat_id).
    { apply andb_false_iff in Hguard. destruct Hguard as [H | H]; [left; exact H | right].
      apply String.eqb_neq in H. congruence. }
    unfold ends. rewrite (confirmEdit_rejected serializeJson chat_id s Hrej).
    apply Hnever.
    eapply triple_bind; [apply triple_send, cfg_inv_delivery | intros ?; apply triple_ret]. }
  destruct (String.eqb (extractCommand message) "/cancel"); [apply Hnever, cancelEdit_cfg |].
  destruct (String.eqb_spec (extractCommand message) "/restart") as [Hcmd | _].
  { destruct (String.eqb (getChatType (config s) chat_id) "personal") eqn:Etype.
    - apply getChatType_personal in Etype.
      assert (Hm : triple (cfg_inv p)
                (safeSendMessage chat_id
                   ("🔄 Restarting device..." ++ nl ++ nl
                    ++ "⏳ The device will be back online in about 30 seconds.") "";;;
                 delay 1000;;; ESP_restart)
                (fun (_ : unit) _ => False) (cfg_inv p) (cfg_inv p)).
      { eapply triple_bind; [apply triple_send, cfg_inv_delivery | intros ?].
        eapply triple_bind; [apply triple_delay; [lia | apply cfg_inv_delivery] | intros ?].
        apply ESP_restart_cfg. }
      specialize (Hm s eq_refl). revert Hm. unfold ends, cfg_inv, p, Rst.
      match goal with |- match ?m with _ => _ end -> _ => destruct m end; intros H; auto.
      destruct H.
    - apply Hnever.
      eapply triple_bind; [apply triple_send, cfg_inv_delivery | intros ?; apply triple_ret]. }
  destruct (String.eqb (extractCommand message) "/info").
  { apply Hnever. eapply triple_bind; [apply triple_gets | intros w]. cbv zeta.
    eapply triple_bind; [apply triple_send, cfg_inv_delivery | intros ?; apply triple_ret]. }
  destruct (String.eqb_spec (extractCommand message) "/save_restart") as [Hcmd | _].
  { destruct (String.eqb (getChatType (config s) chat_id) "personal") eqn:Etype;
      [| reflexivity].
    apply getChatType_personal in Etype.
    assert (Hm : triple (cfg_inv p)
              (saveConfig serializeJson;;;
               safeSendMessage chat_id
                 ("💾 Configuration saved!" ++ nl ++ nl
                  ++ "🔄 Restarting device to apply changes...") "";;;
               delay 2000;;; ESP_restart)
              (fun (_ : unit) _ => False) (cfg_inv p) (cfg_inv p)).
    { eapply triple_bind; [apply saveConfig_cfg | intros ?].
      eapply triple_bind; [apply triple_send, cfg_inv_delivery | intros ?].
      eapply triple_bind; [apply triple_delay; [lia | apply cfg_inv_delivery] | intros ?].
      apply ESP_restart_cfg. }
    specialize (Hm s eq_refl). revert Hm. unfold ends, cfg_inv, p, Rst.
    match goal with |- match ?m with _ => _ end -> _ => destruct m end; intros H; auto.
    destruct H. }
  apply Hnever. cbv zeta.
  eapply triple_bind; [apply triple_send, cfg_inv_delivery | intros ?; apply triple_ret].
Qed.

Lemma handleTelegramMessage_unfold serializeJson message chat_id userName s :
  let s1 := set_telegramStats
              (with_commandsProcessed (wrap32 (commandsProcessed (telegramStats s) + 1))
                 (telegramStats s)) s in
  handleTelegramMessage serializeJson message chat_id userName s
  = if editingMode (editing s) && String.eqb chat_id (editingChatID (editing s))
    then handleEditingInput message chat_id s1
    else handleExactCommands serializeJson message chat_id s1.
Proof.
  cbv zeta. unfold handleTelegramMessage. unfold bind at 1.
  unfold modify_stats, modify. unfold bind at 1. unfold gets at 1.
  cbn [editing set_telegramStats].
  destruct (editingMode (editing s) && String.eqb chat_id (editingChatID (editing s)));
    reflexivity.
Qed.

(** X1. No Telegram message changes the configuration: whatever the text
    and the chat, and however the call ends (return, restart or panic),
    [handleTelegramMessage] leaves [config] as it was.  The session chat's
    messages only ever set the pending value, and [confirmEdit] is only
    reached from chats whose request it rejects. *)
Theorem telegram_never_changes_config (serializeJson : JsonDocument -> string)
    (message chat_id userName : string) (s : State) :
  match handleTelegramMessage serializeJson message chat_id userName s with
  | Running _ s' | Restarted s' | Crashed s' => config s' = config s
  | OutOfFuel => False
  end.
Proof.
  rewrite handleTelegramMessage_unfold. cbv zeta.
  set (s1 := set_telegramStats _ s).
  destruct (editingMode (editing s) && String.eqb chat_id (editingChatID (editing s))) eqn:Eroute.
  - pose proof (handleEditingInput_cfg message chat_id (fun x => x = config s)
                  (fun _ => False) (fun _ => False) s1 eq_refl) as H.
    unfold ends, cfg_inv in H. destruct (handleEditingInput message chat_id s1); try done.
  - pose proof (handleExactCommands_outcome serializeJson message chat_id s1 Eroute) as H.
    unfold ends in H.
    destruct (handleExactCommands serializeJson message chat_id s1); try done.
    apply H.
Qed.

(** X2. A Telegram message restarts the device only if it comes from the
    personal chat, is not captured by an editing session of that chat, and
    its command is [/restart] or [/save_restart]. *)
Theorem telegram_restart_owner_only (serializeJson : JsonDocument -> string)
    (message chat_id userName : string) (s s' : State) :
  handleTelegramMessage serializeJson message chat_id userName s = Restarted s' ->
  chat_id = personalChatId (config s)
  /\ (extractCommand message = "/restart" \/ extractCommand message = "/save_restart")
  /\ editingMode (editing s) && String.eqb chat_id (editingChatID (editing s)) = false.
Proof.
  rewrite handleTelegramMessage_unfold. cbv zeta.
  set (s1 := set_telegramStats _ s).
  destruct (editingMode (editing s) && String.eqb chat_id (editingChatID (editing s))) eqn:Eroute.
  - pose proof (handleEditingInput_cfg message chat_id (fun x => x = config s)
                  (fun _ => False) (fun _ => False) s1 eq_refl) as H.
    unfold ends in H. intros E. rewrite E in H. destruct H.
  - pose proof (handleExactCommands_outcome serializeJson message chat_id s1 Eroute) as H.
    unfold ends in H. intros E. rewrite E in H. destruct H as (_ & H1 & H2). auto.
Qed.

Lemma telegram_restart_owner_only_witness :
  let s := demo_state 20000 [(true, 100%N)] in
  exists s',
    handleTelegramMessage demo_serializeJson "/restart,CAM AB" "1001" "Ann" s = Restarted s'
    /\ "1001" = personalChatId (config s)
    /\ (extractCommand "/restart,CAM AB" = "/restart"
        \/ extractCommand "/restart,CAM AB" = "/save_restart")
    /\ editingMode (editing s) && String.eqb "1001" (editingChatID (editing s)) = false.
Proof.
  intros s.
  destruct (handleTelegramMessage demo_serializeJson "/restart,CAM AB" "1001" "Ann" s)
    as [a s' | s' | s' |] eqn:E; try (vm_compute in E; discriminate E).
  exists s'. split; [reflexivity |].
  exact (telegram_restart_owner_only demo_serializeJson "/restart,CAM AB" "1001" "Ann" s s' E).
Defined.

(** ** Access to the configuration *)

Lemma getChatType_not_personal c chat_id :
  chat_id <> personalChatId c -> String.eqb (getChatType c chat_id) "personal" = false.
Proof.
  intros H. apply not_true_is_false. intros E. apply getChatType_personal in E. contradiction.
Qed.

Lemma send_then_ret chat_id message s :
  exists s',
    bind (safeSendMessage chat_id message "") (fun _ => ret tt) s = Running tt s'
    /\ delivery_step s s'
    /\ (bot s <> None -> replies_with chat_id message (since s s')).
Proof.
  destruct (returns_inv _ _ _ (safeSendMessage_step chat_id message "" s)) as (b & s' & E & D).
  exists s'. rewrite (bind_run _ _ _ _ _ E). split; [reflexivity |]. split; [exact D |].
  intros Hbot.
  destruct (safeSendMessage_replies chat_id message s Hbot) as (? & ? & E' & _ & R).
  rewrite E in E'. injection E' as <- <-. exact R.
Qed.

(** X3. A chat that is not the personal chat cannot open an editing
    session or get the configuration menu: [startEditMode] and
    [sendConfigMenu] return after sending the "only available in personal
    chat" reply, and leave the editing session and the configuration
    untouched. *)
Theorem config_access_denied (field chat_id : string) (s : State) :
  chat_id <> personalChatId (config s) ->
  exists s1 s2,
    startEditMode field chat_id s = Running tt s1
    /\ sendConfigMenu chat_id s = Running tt s2
    /\ editing s1 = editing s /\ config s1 = config s
    /\ editing s2 = editing s /\ config s2 = config s
    /\ (bot s <> None ->
        replies_with chat_id msg_config_personal_only (since s s1)
        /\ replies_with chat_id msg_config_personal_only (since s s2)).
Proof.
  intros Hne. pose proof (getChatType_not_personal _ _ Hne) as Etype.
  destruct (send_then_ret chat_id msg_config_personal_only s) as (s' & E & D & R).
  exists s', s'.
  assert (E1 : startEditMode field chat_id s
               = bind (safeSendMessage chat_id msg_config_personal_only "") (fun _ => ret tt) s).
  { unfold startEditMode. unfold bind at 1. unfold gets at 1. cbv zeta. rewrite Etype.
    reflexivity. }
  assert (E2 : sendConfigMenu chat_id s
               = bind (safeSendMessage chat_id msg_config_personal_only "") (fun _ => ret tt) s).
  { unfold sendConfigMenu. unfold bind at 1. unfold gets at 1. cbv zeta. rewrite Etype.
    reflexivity. }
  rewrite E1, E2.
  split; [exact E |]. split; [exact E |].
  split; [apply D |]. split; [apply D |]. split; [apply D |]. split; [apply D |].
  intros Hbot. split; apply R, Hbot.
Qed.

Lemma config_access_denied_witness :
  let s := demo_state 20000 [(true, 100%N); (true, 100%N)] in
  "2002" <> personalChatId (config s)
  /\ exists s1 s2,
       startEditMode "/edit_alert" "2002" s = Running tt s1
       /\ sendConfigMenu "2002" s = Running tt s2
       /\ editing s1 = editing s /\ config s1 = config s
       /\ editing s2 = editing s /\ config s2 = config s
       /\ (bot s <> None ->
           replies_with "2002" msg_config_personal_only (since s s1)
           /\ replies_with "2002" msg_config_personal_only (since s s2)).
Proof.
  intros s.
  assert (H : "2002" <> personalChatId (config s)) by discriminate.
  split; [exact H |].
  exact (config_access_denied "/edit_alert" "2002" s H).
Defined.

(** ** The editing session, function by function *)

(** X4. From the personal chat [startEditMode] always opens a session for
    the given field, stamped with the current [millis()] and with no
    pending value, also when a session was already open (the older one is
    replaced); the configuration is untouched and what is sent is the
    edit prompt with the cancel keyboard. *)
Theorem startEditMode_opens (field : string) (s : State) :
  let chat_id := personalChatId (config s) in
  exists s',
    startEditMode field chat_id s = Running tt s'
    /\ editing s' = mkEditing true field chat_id "" (wrap32 (clock (world s)))
    /\ config s' = config s
    /\ Forall (fun te => exists ok,
                 snd te = EvSendKeyboard chat_id
                            (getEditPrompt field (getCurrentConfigValue (config s) field))
                            (getCancelKeyboard (config s)) ok)
              (attempts (since s s')).
Proof.
  cbv zeta.
  set (chat_id := personalChatId (config s)).
  set (e := mkEditing true field chat_id "" (wrap32 (clock (world s)))).
  set (prompt := getEditPrompt field (getCurrentConfigValue (config s) field)).
  assert (Etype : String.eqb (getChatType (config s) chat_id) "personal" = true)
    by (apply getChatType_personal; reflexivity).
  assert (E1 : startEditMode field chat_id s
               = bind (safeSendMessage chat_id prompt (getCancelKeyboard (config s)))
                      (fun _ => ret tt) (set_editing e s)).
  { unfold startEditMode. unfold bind at 1. unfold gets at 1. cbv zeta. rewrite Etype.
    reflexivity. }
  rewrite E1.
  destruct (returns_inv _ _ _
              (safeSendMessage_step chat_id prompt (getCancelKeyboard (config s)) (set_editing e s)))
    as (b & s' & E & D).
  exists s'. rewrite (bind_run _ _ _ _ _ E).
  split; [reflexivity |].
  split; [rewrite (ds_editing _ _ D); reflexivity |].
  split; [rewrite (ds_config _ _ D); reflexivity |].
  change (since s s') with (since (set_editing e s) s').
  destruct (bot (set_editing e s)) as [tok |] eqn:Eb.
  - rewrite (safeSendMessage_eq _ _ _ _ _ Eb) in E. injection E as _ <-.
    rewrite send_outcome_since, send_events_attempts. unfold retry_events.
    assert (Hkb : forall ok, send_event chat_id prompt (getCancelKeyboard (config s)) ok
                             = EvSendKeyboard chat_id prompt (getCancelKeyboard (config s)) ok)
      by reflexivity.
    destruct (ok1 _); [| destruct (ok2 _ _)]; autorewrite with evs;
      repeat constructor; eexists; apply Hkb.
  - rewrite (safeSendMessage_no_bot _ _ _ _ Eb) in E. injection E as _ <-.
    rewrite since_refl. constructor.
Qed.

(** X5. [handleEditingInput]: after more than 300000 ms the session is
    reset; an empty input or one longer than 100 bytes leaves the session
    as it is (the owner may retry); any other input becomes the pending
    value.  In every case the call returns and the configuration, the
    session's field and its chat are not what changes. *)
Theorem handleEditingInput_session (message chat_id : string) (s : State) :
  exists s',
    handleEditingInput message chat_id s = Running tt s'
    /\ config s' = config s
    /\ editing s'
       = if EDITING_TIMEOUT <? wrap32 (wrap32 (clock (world s)) - editingStartTime (editing s))
         then mkEditing false "" "" "" 0
         else if ((String.length message =? 0) || (100 <? String.length message))%nat
              then editing s
              else with_pendingEditValue message (editing s).
Proof.
  apply returns_inv_unit.
  unfold handleEditingInput. apply returns_bind. unfold millis. apply returns_gets.
  apply returns_bind, returns_gets.
  destruct (EDITING_TIMEOUT <? _).
  { apply returns_bind, returns_modify.
    eapply (triple_run (fun x => config x = config s /\ editing x = mkEditing false "" "" "" 0));
      [| split; reflexivity].
    eapply triple_bind; [apply triple_send, config_editing_invariant | intros ?; apply triple_ret]. }
  destruct (String.length message =? 0)%nat; cbn [orb].
  { eapply (triple_run (fun x => config x = config s /\ editing x = editing s));
      [| split; reflexivity].
    eapply triple_bind; [apply triple_send, config_editing_invariant | intros ?; apply triple_ret]. }
  destruct (100 <? String.length message)%nat.
  { eapply (triple_run (fun x => config x = config s /\ editing x = editing s));
      [| split; reflexivity].
    eapply triple_bind; [apply triple_send, config_editing_invariant | intros ?; apply triple_ret]. }
  unfold showEditConfirmation. apply returns_bind, returns_gets. cbv zeta.
  apply returns_bind. unfold modify_editing. apply returns_modify.
  eapply (triple_run (fun x => config x = config s
                               /\ editing x = with_pendingEditValue message (editing s)));
    [| split; reflexivity].
  eapply triple_bind; [apply triple_send, config_editing_invariant | intros ?; apply triple_ret].
Qed.

Lemma saved_invariant (c : SmartWitnessConfig) (file : option string) (e : EditingState) :
  delivery_invariant
    (fun x => config x = c /\ spiffs_config (world x) = file /\ editing x = e).
Proof.
  intros s s' H (Hc & Hf & He).
  rewrite (ds_config _ _ H), (ds_editing _ _ H), (delivery_step_spiffs _ _ H). auto.
Qed.

Lemma saveConfig_eq serializeJson s :
  saveConfig serializeJson s
  = Running tt
      (if spiffs_writable (world s) then
         let out := serializeJson (config_document (config s)) in
         let s1 := set_world (with_spiffs_config (Some out) (world s)) s in
         set_trace (trace s1 ++ [(clock (world s1), EvSaveConfig (negb (String.eqb out "")))])%list s1
       else s).
Proof.
  unfold saveConfig. unfold bind at 1. unfold gets at 1. cbv zeta.
  unfold bind at 1. unfold gets at 1.
  destruct (spiffs_writable (world s)); reflexivity.
Qed.

(** After the configuration is changed, [confirmEdit] saves it, reports,
    closes the session and shows the menu. *)
Lemma confirm_tail_spec serializeJson chat_id text s :
  returns (saveConfig serializeJson;;;
           safeSendMessage chat_id text "";;;
           resetEditingState;;;
           delay 1000;;;
           sendConfigMenu chat_id) s
    (fun _ s' =>
       config s' = config s
       /\ editing s' = mkEditing false "" "" "" 0
       /\ spiffs_config (world s')
          = if spiffs_writable (world s)
            then Some (serializeJson (config_document (config s)))
            else spiffs_config (world s)).
Proof.
  apply returns_bind. eapply returns_eq; [apply saveConfig_eq |].
  set (file := if spiffs_writable (world s)
               then Some (serializeJson (config_document (config s)))
               else spiffs_config (world s)).
  match goal with |- returns _ ?s1 _ => set (s1' := s1) end.
  assert (H1 : config s1' = config s /\ spiffs_config (world s1') = file
               /\ editing s1' = editing s).
  { subst s1' file. destruct (spiffs_writable (world s)); repeat split. }
  clearbody s1'.
  eapply (triple_run (fun x => config x = config s /\ spiffs_config (world x) = file
                               /\ editing x = editing s)); [| exact H1].
  eapply triple_bind; [apply triple_send, saved_invariant | intros ?].
  eapply triple_bind with
    (Q1 := fun _ x => config x = config s /\ spiffs_config (world x) = file
                      /\ editing x = mkEditing false "" "" "" 0).
  { unfold resetEditingState. apply triple_modify. intros x (Hc & Hf & _). auto. }
  intros ?.
  eapply triple_bind; [apply triple_delay; [lia | apply saved_invariant] | intros ?].
  eapply triple_weaken;
    [apply (sendConfigMenu_keeps
              (fun x => config x = config s /\ spiffs_config (world x) = file
                        /\ editing x = mkEditing false "" "" "" 0)), saved_invariant
    | intros ? H; exact H | cbv beta; intros ? ? (Hc & Hf & He); auto
    | intros ? H; exact H | intros ? H; exact H].
Qed.

(** X6. [confirmEdit] from the chat of an open session with a pending
    value, for one of the eight field names it knows: the field is
    overwritten with the value cut to its buffer, [configVersion] goes up
    by one (modulo 2^32), nothing else in the configuration changes, the
    configuration is written to [/config.json] when the file can be opened,
    and the session is closed. *)
Theorem confirmEdit_applies (serializeJson : JsonDocument -> string)
    (chat_id : string) (s : State) (c' : SmartWitnessConfig) :
  confirm_ready (editing s) chat_id = true ->
  apply_edit (editingField (editing s)) (pendingEditValue (editing s)) (config s) = Some c' ->
  exists s',
    confirmEdit serializeJson chat_id s = Running tt s'
    /\ config s' = with_configVersion (wrap32 (configVersion (config s) + 1)) c'
    /\ editing s' = mkEditing false "" "" "" 0
    /\ spiffs_config (world s')
       = if spiffs_writable (world s)
         then Some (serializeJson (config_document (config s')))
         else spiffs_config (world s).
Proof.
  intros Hready Happly. apply returns_inv_unit.
  unfold confirm_ready in Hready. apply andb_true_iff in Hready as [Hready Hpend].
  apply andb_true_iff in Hready as [Hmode Hchat]. apply negb_true_iff in Hpend.
  unfold confirmEdit. apply returns_bind, returns_gets. cbv beta.
  rewrite Hmode, Hchat, Hpend. cbn [negb orb]. cbv zeta.
  revert Happly. unfold apply_edit.
  repeat match goal with
         | |- context [if String.eqb (editingField (editing s)) ?f then _ else _] =>
             destruct (String.eqb (editingField (editing s)) f) eqn:?
         end; intros Happly; try discriminate Happly.
  all: injection Happly as <-.
  all: apply returns_bind, returns_bind; unfold modify_config; apply returns_modify, returns_ret;
       cbv beta iota; apply returns_bind, returns_modify.
  all: eapply returns_mono; [apply confirm_tail_spec |].
  all: cbv beta; intros ? s' (Hc & He & Hf).
  all: split; [exact Hc |]; split; [exact He |]; rewrite Hf, Hc; reflexivity.
Qed.

(** The spec's scenario with the function calls the router should make:
    the owner opens an edit of the alert message, submits "Intruder!" and
    confirms. *)
Lemma confirmEdit_applies_witness :
  let s0 := demo_state 20000 (replicate 8 (true, 100%N)) in
  exists s1 s2 s3,
    startEditMode "edit_alert" "1001" s0 = Running tt s1
    /\ handleEditingInput "Intruder!" "1001" s1 = Running tt s2
    /\ confirmEdit demo_serializeJson "1001" s2 = Running tt s3
    /\ confirm_ready (editing s2) "1001" = true
    /\ apply_edit (editingField (editing s2)) (pendingEditValue (editing s2)) (config s2)
       = Some (with_alertMsg "Intruder!" (config s2))
    /\ config s3 = with_configVersion 2 (with_alertMsg "Intruder!" demo_config)
    /\ editing s3 = mkEditing false "" "" "" 0
    /\ spiffs_config (world s3) = Some "{}".
Proof.
  intros s0.
  destruct (startEditMode "edit_alert" "1001" s0) as [[] s1 | | |] eqn:E1;
    try (vm_compute in E1; discriminate E1).
  destruct (handleEditingInput "Intruder!" "1001" s1) as [[] s2 | | |] eqn:E2;
    try (vm_compute in E1; injection E1 as <-; vm_compute in E2; discriminate E2).
  assert (Hs2 : editing s2 = mkEditing true "edit_alert" "1001" "Intruder!" 20000
                /\ config s2 = demo_config /\ spiffs_writable (world s2) = true).
  { vm_compute in E1. injection E1 as <-. vm_compute in E2. injection E2 as <-.
    split; [reflexivity |]. split; reflexivity. }
  destruct Hs2 as (He & Hc & Hw).
  assert (H1 : confirm_ready (editing s2) "1001" = true) by (rewrite He; reflexivity).
  assert (H2 : apply_edit (editingField (editing s2)) (pendingEditValue (editing s2)) (config s2)
               = Some (with_alertMsg "Intruder!" (config s2))) by (rewrite He; reflexivity).
  destruct (confirmEdit_applies demo_serializeJson "1001" s2 _ H1 H2) as (s3 & E3 & C3 & Ed3 & F3).
  exists s1, s2, s3.
  split; [reflexivity |]. split; [exact E2 |]. split; [exact E3 |].
  split; [exact H1 |]. split; [exact H2 |].
  split; [rewrite C3, Hc; reflexivity |]. split; [exact Ed3 |].
  rewrite F3, Hw. reflexivity.
Defined.

(** X7. [cancelEdit] from the chat of the open session closes the
    session and changes neither the configuration nor the stored file. *)
Theorem cancelEdit_closes (chat_id : string) (s : State) :
  editingMode (editing s) = true ->
  editingChatID (editing s) = chat_id ->
  exists s',
    cancelEdit chat_id s = Running tt s'
    /\ editing s' = mkEditing false "" "" "" 0
    /\ config s' = config s
    /\ spiffs_config (world s') = spiffs_config (world s).
Proof.
  intros Hmode Hchat. apply returns_inv_unit.
  unfold cancelEdit. apply returns_bind, returns_gets. cbv beta.
  rewrite Hmode, Hchat, String.eqb_refl. cbn [negb orb]. cbv zeta.
  apply returns_bind. unfold resetEditingState. apply returns_modify.
  eapply (triple_run (fun x => config x = config s
                               /\ spiffs_config (world x) = spiffs_config (world s)
                               /\ editing x = mkEditing false "" "" "" 0));
    [| repeat split].
  eapply triple_bind; [apply triple_send, saved_invariant | intros ?].
  eapply triple_bind; [apply triple_delay; [lia | apply saved_invariant] | intros ?].
  eapply triple_weaken;
    [apply (sendConfigMenu_keeps
              (fun x => config x = config s
                        /\ spiffs_config (world x) = spiffs_config (world s)
                        /\ editing x = mkEditing false "" "" "" 0)), saved_invariant
    | intros ? H; exact H | cbv beta; intros ? ? (Hc & Hf & He); auto
    | intros ? H; exact H | intros ? H; exact H].
Qed.

Lemma cancelEdit_closes_witness :
  let s := set_editing (mkEditing true "edit_alert" "1001" "Intruder!" 20000)
             (demo_state 20000 [(true, 100%N); (true, 100%N)]) in
  editingMode (editing s) = true
  /\ editingChatID (editing s) = "1001"
  /\ exists s',
       cancelEdit "1001" s = Running tt s'
       /\ editing s' = mkEditing false "" "" "" 0
       /\ config s' = config s
       /\ spiffs_config (world s') = spiffs_config (world s).
Proof.
  intros s. split; [reflexivity |]. split; [reflexivity |].
  exact (cancelEdit_closes "1001" s eq_refl eq_refl).
Defined.

(** ** Delivery outcomes *)

(** X8. Exhausted retries: when the next three transport calls fail (or
    the network is down), [safeSendMessage] makes exactly three calls with
    the 500 ms and 1000 ms backoff, returns [false], adds one to the
    failed-sends counter, records the error text and time, and leaves the
    sent counter and the rate-limit baseline as they were. *)
Theorem safeSendMessage_exhausted (chat_id message keyboard : string) (s : State) :
  bot s <> None ->
  Forall (fun r => fst r = false) (take 3 (net (world s))) ->
  exists s',
    safeSendMessage chat_id message keyboard s = Running false s'
    /\ map (fun te => attempt_ok (snd te)) (attempts (since s s')) = [false; false; false]
    /\ backoffs (since s s') false 0 = [500; 1000]
    /\ totalFailedSends (telegramStats s') = wrap32 (totalFailedSends (telegramStats s) + 1)
    /\ totalMessagesSent (telegramStats s') = totalMessagesSent (telegramStats s)
    /\ lastError (telegramStats s') = "Message send failure to " ++ chat_id
    /\ lastErrorTime (telegramStats s') = wrap32 (clock (world s'))
    /\ lastMessageTime s' = lastMessageTime s.
Proof.
  intros Hbot Hfail. destruct (bot s) as [tok |] eqn:Eb; [clear Hbot | done].
  destruct (tries_ok (send_event chat_id message keyboard) s) as (Hok1 & Hok2 & Hok3).
  assert (H1 : ok1 s = false /\ ok2 (send_event chat_id message keyboard) s = false
               /\ ok3 (send_event chat_id message keyboard) s = false).
  { rewrite Hok1, Hok2, Hok3. clear Hok1 Hok2 Hok3.
    destruct (net (world s)) as [| [r1 d1] [| [r2 d2] [| [r3 d3] rest]]];
      cbn [take tail fst] in *; repeat split; try reflexivity;
      repeat match goal with H : Forall _ (_ :: _) |- _ => inversion_clear H end;
      cbn [fst] in *; assumption. }
  destruct H1 as (E1 & E2 & E3).
  exists (snd (send_outcome chat_id message keyboard s)).
  assert (Eo : send_outcome chat_id message keyboard s
               = (false, after_failure chat_id (try3 (send_event chat_id message keyboard) s))).
  { unfold send_outcome. rewrite E1, E2, E3. reflexivity. }
  split; [rewrite (safeSendMessage_eq _ _ _ _ _ Eb), Eo; reflexivity |].
  rewrite send_outcome_since, send_events_attempts. unfold send_events.
  destruct (backoffs_rate_events s (retry_events chat_id message keyboard s) 0) as (acc & ->).
  unfold retry_events. rewrite E1, E2, E3, Eo. cbn [snd].
  autorewrite with evs.
  destruct (after_failure_stats chat_id (try3 (send_event chat_id message keyboard) s))
    as (F1 & F2 & F3 & F4 & F5 & F6).
  destruct (tries_stats (send_event chat_id message keyboard) s) as (_ & _ & (S3 & L3)).
  rewrite F1, F2, F3, F4, F5, F6, S3, L3.
  split; [cbn [map snd]; rewrite !attempt_ok_send; reflexivity |].
  split; [reflexivity |].
  split; [reflexivity |]. split; [reflexivity |]. split; [reflexivity |].
  split; reflexivity.
Qed.

Lemma safeSendMessage_exhausted_witness :
  let s := demo_state 20000 [(false, 10%N); (false, 10%N); (false, 10%N); (true, 10%N)] in
  bot s <> None
  /\ Forall (fun r => fst r = false) (take 3 (net (world s)))
  /\ exists s',
       safeSendMessage "1001" "hello" "" s = Running false s'
       /\ map (fun te => attempt_ok (snd te)) (attempts (since s s')) = [false; false; false]
       /\ backoffs (since s s') false 0 = [500; 1000]
       /\ totalFailedSends (telegramStats s') = wrap32 (totalFailedSends (telegramStats s) + 1)
       /\ totalMessagesSent (telegramStats s') = totalMessagesSent (telegramStats s)
       /\ lastError (telegramStats s') = "Message send failure to " ++ "1001"
       /\ lastErrorTime (telegramStats s') = wrap32 (clock (world s'))
       /\ lastMessageTime s' = lastMessageTime s.
Proof.
  intros s.
  assert (H1 : bot s <> None) by discriminate.
  assert (H2 : Forall (fun r => fst r = false) (take 3 (net (world s))))
    by (repeat constructor).
  split; [exact H1 |]. split; [exact H2 |].
  exact (safeSendMessage_exhausted "1001" "hello" "" s H1 H2).
Defined.

(** X9. When the next transport call succeeds, [safeSendMessage] makes
    that one call and no backoff delay, after waiting out what is left of
    the 1500 ms since the recorded baseline, and returns [true]. *)
Theorem safeSendMessage_first_try (chat_id message keyboard : string) (s : State)
    (d : N) (rest : list (bool * N)) :
  bot s <> None ->
  net (world s) = (true, d) :: rest ->
  exists s',
    safeSendMessage chat_id message keyboard s = Running true s'
    /\ since s s'
       = (rate_events s
          ++ [(clock (world (after_rate_limit s)), send_event chat_id message keyboard true)])%list
    /\ net (world s') = rest
    /\ clock (world s') = clock (world (after_rate_limit s)) + Z.of_N d.
Proof.
  intros Hbot Hnet. destruct (bot s) as [tok |] eqn:Eb; [clear Hbot | done].
  destruct (tries_ok (send_event chat_id message keyboard) s) as (Hok1 & _).
  rewrite Hnet in Hok1. cbn [fst] in Hok1.
  assert (Eo : send_outcome chat_id message keyboard s
               = (true, after_success (try1 (send_event chat_id message keyboard) s))).
  { unfold send_outcome. rewrite Hok1. reflexivity. }
  exists (snd (send_outcome chat_id message keyboard s)).
  split; [rewrite (safeSendMessage_eq _ _ _ _ _ Eb), Eo; reflexivity |].
  rewrite send_outcome_since. unfold send_events, retry_events. rewrite Hok1, Eo. cbn [snd].
  split; [reflexivity |].
  destruct (after_rate_limit_stats s) as (_ & _ & Hn).
  assert (Hnext : net_next (world (after_rate_limit s)) = (true, d)).
  { unfold net_next. rewrite Hn, Hnet. reflexivity. }
  destruct (after_success_stats (try1 (send_event chat_id message keyboard) s))
    as (_ & _ & _ & _ & Hw).
  rewrite Hw. unfold try1, after_transport.
  cbn [world net clock set_world set_trace with_net with_clock].
  rewrite Hn, Hnet, Hnext. split; reflexivity.
Qed.

Lemma safeSendMessage_first_try_witness :
  let s := demo_state 20000 [(true, 100%N)] in
  bot s <> None
  /\ net (world s) = [(true, 100%N)]
  /\ exists s',
       safeSendMessage "1001" "hello" "" s = Running true s'
       /\ since s s'
          = (rate_events s
             ++ [(clock (world (after_rate_limit s)), send_event "1001" "hello" "" true)])%list
       /\ net (world s') = []
       /\ clock (world s') = clock (world (after_rate_limit s)) + Z.of_N 100.
Proof.
  intros s.
  assert (H1 : bot s <> None) by discriminate.
  split; [exact H1 |]. split; [reflexivity |].
  exact (safeSendMessage_first_try "1001" "hello" "" s 100 [] H1 eq_refl).
Defined.

(** ** Addressed commands *)

Lemma append_cons (a : ascii) (s t : string) : String a s ++ t = String a (s ++ t).
Proof. reflexivity. Qed.

Lemma append_nil (t : string) : "" ++ t = t.
Proof. reflexivity. Qed.

Lemma index_comma_app (cmd name : string) :
  String.index 0 "," cmd = None ->
  String.index 0 "," (cmd ++ "," ++ name) = Some (String.length cmd).
Proof.
  induction cmd as [| a cmd IH]; intros H.
  - destruct name; reflexivity.
  - rewrite append_cons. cbn [String.length String.index] in H |- *.
    cbn [String.prefix] in H |- *.
    destruct (ascii_dec "," a) as [-> | Hne].
    + exfalso. destruct cmd; cbn in H; discriminate H.
    + destruct (String.index 0 "," cmd) eqn:E; [discriminate H |].
      rewrite (IH eq_refl). reflexivity.
Qed.

Lemma substring_prefix_app (a b : string) :
  String.substring 0 (String.length a) (a ++ b) = a.
Proof.
  induction a as [| c a IH]; rewrite ?append_cons, ?append_nil; cbn [String.length String.substring].
  - destruct b; reflexivity.
  - rewrite IH. reflexivity.
Qed.

Lemma substring_suffix_app (a b : string) :
  String.substring (String.length a) (String.length b) (a ++ b) = b.
Proof.
  induction a as [| c a IH]; rewrite ?append_cons, ?append_nil; cbn [String.length String.substring].
  - induction b as [| c b IHb]; [reflexivity |].
    cbn [String.length String.substring]. rewrite IHb. reflexivity.
  - exact IH.
Qed.

Lemma length_app_string (a b : string) :
  String.length (a ++ b) = (String.length a + String.length b)%nat.
Proof.
  induction a as [| c a IH]; rewrite ?append_cons, ?append_nil; cbn [String.length];
    [reflexivity | rewrite IH; reflexivity].
Qed.

Lemma append_assoc_string (a b c : string) : (a ++ b) ++ c = a ++ b ++ c.
Proof.
  induction a as [| x a IH]; rewrite ?append_cons, ?append_nil; [reflexivity | rewrite IH; reflexivity].
Qed.

Lemma extractCommand_app (cmd name : string) :
  indexOf_comma cmd = None -> extractCommand (cmd ++ "," ++ name) = cmd.
Proof.
  unfold indexOf_comma, extractCommand, indexOf_comma. intros H.
  rewrite (index_comma_app cmd name H). unfold substring_to.
  rewrite Nat.sub_0_r. apply substring_prefix_app.
Qed.

Lemma extractDeviceName_app (cmd name : string) :
  indexOf_comma cmd = None -> extractDeviceName (cmd ++ "," ++ name) = name.
Proof.
  unfold indexOf_comma, extractDeviceName, indexOf_comma. intros H.
  rewrite (index_comma_app cmd name H). unfold substring_from.
  replace (cmd ++ "," ++ name) with ((cmd ++ ",") ++ name)
    by apply append_assoc_string.
  replace (String.length cmd + 1)%nat with (String.length (cmd ++ ","))
    by (rewrite length_app_string; reflexivity).
  replace (String.length ((cmd ++ ",") ++ name) - String.length (cmd ++ ","))%nat
    with (String.length name) by (rewrite (length_app_string (cmd ++ ",")); lia).
  apply substring_suffix_app.
Qed.

(** X10. A message of the form [command,deviceName], where the command
    holds no comma, is split back into exactly these two parts; a message
    without a comma is all command and names no device. *)
Theorem extract_roundtrip (cmd name : string) :
  indexOf_comma cmd = None ->
  extractCommand (cmd ++ "," ++ name) = cmd
  /\ extractDeviceName (cmd ++ "," ++ name) = name
  /\ extractCommand cmd = cmd
  /\ extractDeviceName cmd = "".
Proof.
  intros H. split; [apply extractCommand_app, H |].
  split; [apply extractDeviceName_app, H |].
  unfold extractCommand, extractDeviceName. rewrite H. split; reflexivity.
Qed.

Lemma extract_roundtrip_witness :
  indexOf_comma "/photo" = None
  /\ extractCommand ("/photo" ++ "," ++ "CAM AB") = "/photo"
  /\ extractDeviceName ("/photo" ++ "," ++ "CAM AB") = "CAM AB"
  /\ extractCommand "/photo" = "/photo"
  /\ extractDeviceName "/photo" = "".
Proof. split; [reflexivity | apply (extract_roundtrip "/photo" "CAM AB"); reflexivity]. Defined.

Lemma bind_gets {A B} (f : State -> A) (k : A -> M B) (s : State) :
  bind (gets f) k s = k (f s) s.
Proof. reflexivity. Qed.

(** X11. A command addressed to this device by name is handled exactly as
    the bare command is. *)
Theorem addressed_command_same (serializeJson : JsonDocument -> string)
    (cmd chat_id : string) (s : State) :
  indexOf_comma cmd = None ->
  handleExactCommands serializeJson (cmd ++ "," ++ deviceName (config s)) chat_id s
  = handleExactCommands serializeJson cmd chat_id s.
Proof.
  intros H.
  pose proof (extractCommand_app cmd (deviceName (config s)) H) as Ec.
  pose proof (extractDeviceName_app cmd (deviceName (config s)) H) as En.
  unfold handleExactCommands. rewrite !bind_gets. cbv zeta. rewrite Ec, En.
  unfold extractCommand, extractDeviceName. rewrite H.
  rewrite String.eqb_refl. cbn [negb andb String.length Nat.ltb Nat.leb].
  rewrite andb_false_r. reflexivity.
Qed.

Lemma addressed_command_same_witness :
  let s := demo_state 20000 [(true, 100%N)] in
  indexOf_comma "/status" = None
  /\ handleExactCommands demo_serializeJson ("/status" ++ "," ++ deviceName (config s)) "2002" s
     = handleExactCommands demo_serializeJson "/status" "2002" s.
Proof.
  intros s. split; [reflexivity |].
  apply (addressed_command_same demo_serializeJson "/status" "2002" s). reflexivity.
Defined.

(** ** The pairing PIN *)

Lemma pin_digits_all : forallb pin_digits_ok (seq 0 899) = true.
Proof. vm_compute. reflexivity. Qed.

Lemma pin_digits (v : Z) :
  100 <= v <= 998 ->
  String.length (String_of_Z v) = 3%nat /\ strncpy (String_of_Z v) sz_devicePIN = String_of_Z v.
Proof.
  intros Hv. pose proof pin_digits_all as H. rewrite forallb_forall in H.
  specialize (H (Z.to_nat (v - 100))).
  assert (Hin : In (Z.to_nat (v - 100)) (seq 0 899)) by (apply in_seq; lia).
  specialize (H Hin). unfold pin_digits_ok in H.
  replace (100 + Z.of_nat (Z.to_nat (v - 100))) with v in H by lia.
  apply andb_prop in H. destruct H as (H1 & H2).
  split; [apply Nat.eqb_eq, H1 | apply String.eqb_eq, H2].
Qed.

Lemma generateDevicePIN_value (s : State) :
  exists v,
    100 <= v <= 998
    /\ String.length (String_of_Z v) = 3%nat
    /\ strncpy (String_of_Z v) sz_devicePIN = String_of_Z v
    /\ generateDevicePIN s
       = Running (String_of_Z v) (set_world (with_rng (tail (rng (world s))) (world s)) s).
Proof.
  set (r := match rng (world s) with r :: _ => r | [] => 0 end).
  exists (100 + r mod (999 - 100)).
  assert (Hr : 100 <= 100 + r mod (999 - 100) <= 998).
  { pose proof (Z.mod_pos_bound r (999 - 100) ltac:(lia)). lia. }
  destruct (pin_digits _ Hr) as (H1 & H2).
  split; [exact Hr |]. split; [exact H1 |]. split; [exact H2 | reflexivity].
Qed.

(** X12. [generateDevicePIN] returns the decimal text of a number between
    100 and 998: three digits, which fit the PIN buffer untruncated; it
    consumes one random draw and touches nothing else. *)
Theorem generateDevicePIN_three_digits (s : State) :
  exists v s',
    generateDevicePIN s = Running (String_of_Z v) s'
    /\ 100 <= v <= 998
    /\ String.length (String_of_Z v) = 3%nat
    /\ strncpy (String_of_Z v) sz_devicePIN = String_of_Z v
    /\ s' = set_world (with_rng (tail (rng (world s))) (world s)) s.
Proof.
  destruct (generateDevicePIN_value s) as (v & Hv & H1 & H2 & E).
  exists v. eexists. split; [exact E |]. auto.
Qed.

(** ** What the configuration operations write *)

Lemma strncpy_member_value doc k n (P : State -> Prop) R :
  triple P (strncpy_member doc k n) (fun v s => P s /\ exists src, v = strncpy src n) R P.
Proof.
  unfold strncpy_member. intros s Hs. destruct (as_cstr doc k) as [v |]; [| exact Hs].
  split; [exact Hs | exists v; reflexivity].
Qed.

Lemma triple_pure {A} (P0 : Prop) (P : State -> Prop) (m : M A) Q R C :
  (P0 -> triple P m Q R C) -> triple (fun s => P s /\ P0) m Q R C.
Proof. intros H s [Hs H0]. apply (H H0 s Hs). Qed.

Lemma member_then doc k n p {B} (rest : string -> M B) Q R :
  (forall src, triple (cfg_inv p) (rest (strncpy src n)) Q R (cfg_inv p)) ->
  triple (cfg_inv p) (bind (strncpy_member doc k n) rest) Q R (cfg_inv p).
Proof.
  intros H. eapply triple_bind; [apply strncpy_member_value | intros v].
  apply triple_pure. intros [src ->]. apply H.
Qed.

Lemma processBLEConfiguration_closed deserializeJson serializeJson configData p :
  write_closed p ->
  triple (cfg_inv p) (processBLEConfiguration deserializeJson serializeJson configData)
         (fun _ => cfg_inv p) (cfg_inv p) (cfg_inv p).
Proof.
  intros [Hname Htok Hssid Hpass Halert _ _ Hconf Hver].
  unfold processBLEConfiguration.
  destruct (deserializeJson 1024%nat configData) as [doc |]; [| apply updateBLEStatus_cfg].
  destruct (_ || _); [apply updateBLEStatus_cfg |].
  assert (Hupd : forall (f : SmartWitnessConfig -> SmartWitnessConfig),
            (forall x, p x -> p (f x)) ->
            triple (cfg_inv p) (modify_config f) (fun _ => cfg_inv p) (cfg_inv p) (cfg_inv p))
    by (intros f Hf; apply triple_cfg_update, Hf).
  eapply triple_bind with (Q1 := fun _ => cfg_inv p).
  { apply triple_when. apply member_then. intros src. apply Hupd, Hname. }
  intros ?.
  apply member_then; intros ?. eapply triple_bind; [apply Hupd, Htok | intros ?].
  apply member_then; intros ?. eapply triple_bind; [apply Hupd, Hssid | intros ?].
  apply member_then; intros ?. eapply triple_bind; [apply Hupd, Hpass | intros ?].
  eapply triple_bind with (Q1 := fun _ => cfg_inv p).
  { apply triple_when.
    apply member_then; intros ?. eapply triple_bind; [apply Hupd, Hssid | intros ?].
    apply member_then; intros ?. apply Hupd, Hpass. }
  intros ?.
  eapply triple_bind with (Q1 := fun _ => cfg_inv p).
  { apply triple_when.
    apply member_then; intros ?. eapply triple_bind; [apply Hupd, Hssid | intros ?].
    apply member_then; intros ?. apply Hupd, Hpass. }
  intros ?.
  eapply triple_bind with (Q1 := fun _ => cfg_inv p).
  { apply triple_when. apply member_then; intros ?. apply Hupd, Halert. }
  intros ?.
  eapply triple_bind; [apply Hupd, Hconf | intros ?].
  eapply triple_bind; [apply Hupd, Hver | intros ?].
  eapply triple_bind; [apply saveConfig_cfg | intros ?].
  eapply triple_bind; [apply updateBLEStatus_cfg | intros ?].
  eapply triple_bind; [apply triple_delay; [lia | apply cfg_inv_delivery] | intros ?].
  apply triggerConfigurationRestart_cfg.
Qed.

Lemma apply_edit_closed p field pending c c' :
  write_closed p -> p c -> apply_edit field pending c = Some c' -> p c'.
Proof.
  intros [Hname Htok Hssid _ Halert Hfam Hvec _ _] Hc. unfold apply_edit.
  repeat match goal with
         | |- context [if ?b then _ else _] => destruct b
         end; intros H; inversion H; auto.
Qed.

Lemma state_after_closed deserializeJson serializeJson p op s :
  write_closed p -> p (config s) -> p (config (state_after deserializeJson serializeJson op s)).
Proof.
  intros Hp Hs. unfold state_after.
  destruct op as [configData | field chat_id | message chat_id | chat_id | chat_id]; cbn [run_op].
  - pose proof (processBLEConfiguration_closed deserializeJson serializeJson configData p Hp s Hs) as H.
    unfold ends in H.
    destruct (processBLEConfiguration _ _ _ s); first [exact H | exact Hs].
  - pose proof (startEditMode_cfg field chat_id p (cfg_inv p) (cfg_inv p) s Hs) as H.
    unfold ends in H. destruct (startEditMode _ _ s); first [exact H | exact Hs].
  - pose proof (handleEditingInput_cfg message chat_id p (cfg_inv p) (cfg_inv p) s Hs) as H.
    unfold ends in H. destruct (handleEditingInput _ _ s); first [exact H | exact Hs].
  - destruct (confirmEdit_spec serializeJson chat_id s) as (s' & -> & Hc & _).
    rewrite Hc. destruct (confirm_ready _ _); [| exact Hs].
    destruct (apply_edit _ _ _) as [c' |] eqn:E; [| exact Hs].
    apply (wc_configVersion p Hp). apply (apply_edit_closed p _ _ _ _ Hp Hs E).
  - pose proof (cancelEdit_cfg chat_id p (cfg_inv p) (cfg_inv p) s Hs) as H.
    unfold ends in H. destruct (cancelEdit _ s); first [exact H | exact Hs].
Qed.

Lemma run_ops_closed deserializeJson serializeJson p ops : forall s,
  write_closed p -> p (config s) -> p (config (run_ops deserializeJson serializeJson ops s)).
Proof.
  induction ops as [| op ops IH]; intros s Hp Hs; [exact Hs |].
  cbn [run_ops]. apply IH; [exact Hp |]. apply state_after_closed; assumption.
Qed.

Lemma identity_kept_closed c : write_closed (identity_kept c).
Proof. split; intros; assumption. Qed.

(** X13. Whatever provisioning payloads and editing operations the device
    handles, in any order, its name, its PIN, the Telegram user, the
    personal chat id and the PIN flag stay what they were. *)
Theorem operations_keep_identity (deserializeJson : nat -> string -> option JsonDocument)
    (serializeJson : JsonDocument -> string) (ops : list ConfigOp) (s : State) :
  identity_kept (config s) (config (run_ops deserializeJson serializeJson ops s)).
Proof.
  apply run_ops_closed; [apply identity_kept_closed |]. repeat split.
Qed.

(** X14. A device without a personal chat id cannot be given a valid
    configuration by provisioning payloads and editing operations. *)
Theorem unowned_stays_invalid (deserializeJson : nat -> string -> option JsonDocument)
    (serializeJson : JsonDocument -> string) (ops : list ConfigOp) (s : State) :
  personalChatId (config s) = "" ->
  hasValidConfig (config (run_ops deserializeJson serializeJson ops s)) = false.
Proof.
  intros H.
  pose proof (run_ops_closed deserializeJson serializeJson (identity_kept (config s)) ops s
                (identity_kept_closed _)) as (_ & _ & _ & Hid & _); [repeat split |].
  rewrite hasValidConfig_andb, Hid, H. apply andb_false_r.
Qed.

Lemma unowned_stays_invalid_witness :
  let s := set_config (with_personalChatId "" demo_config) (demo_state 20000 []) in
  personalChatId (config s) = ""
  /\ hasValidConfig
       (config (run_ops demo_deserializeJson demo_serializeJson
                  [OpProvision "complete"; OpOpen "edit_alert" "1001"] s)) = false.
Proof.
  intros s. split; [reflexivity |].
  apply (unowned_stays_invalid demo_deserializeJson demo_serializeJson
           [OpProvision "complete"; OpOpen "edit_alert" "1001"] s).
  reflexivity.
Defined.

(** ** Buffers *)

Lemma strncpy_idem (n : nat) : forall src, strncpy (strncpy src n) n = strncpy src n.
Proof.
  induction n as [| n IH]; intros src; [destruct src; reflexivity |].
  destruct src as [| c rest]; [reflexivity |]. cbn [strncpy].
  destruct (is_nul c) eqn:E; [reflexivity |]. cbn [strncpy]. rewrite E, IH. reflexivity.
Qed.

Lemma fits_strncpy n src : fits n (strncpy src n).
Proof. apply strncpy_idem. Qed.

Lemma strncpy_length (n : nat) : forall src, (String.length (strncpy src n) <= n)%nat.
Proof.
  induction n as [| n IH]; intros src; [destruct src; cbn; lia |].
  destruct src as [| c rest]; [cbn; lia |]. cbn [strncpy].
  destruct (is_nul c); [cbn; lia |]. cbn [String.length]. specialize (IH rest). lia.
Qed.

Lemma fits_length n v : fits n v -> (String.length v <= n)%nat.
Proof. unfold fits. intros <-. apply strncpy_length. Qed.

Lemma fits_insert n (l : list string) i src :
  length l = 3%nat /\ Forall (fits n) l ->
  length (<[i := strncpy src n]> l) = 3%nat /\ Forall (fits n) (<[i := strncpy src n]> l).
Proof.
  intros [Hl Hf]. split; [rewrite length_insert; exact Hl |].
  apply Forall_insert; [exact Hf | apply fits_strncpy].
Qed.

Lemma buffers_ok_closed : write_closed buffers_ok.
Proof.
  split; intros; match goal with H : buffers_ok _ |- _ => destruct H end;
    split; cbn; try assumption; try apply fits_strncpy; try apply fits_insert;
    try assumption; try apply wrap32_range.
Qed.

(** ** Loading the configuration *)

Lemma loadDefaultConfig_eq s : loadDefaultConfig s = Running tt (after_default s).
Proof. reflexivity. Qed.

Lemma loadConfig_eq deserializeJson s :
  loadConfig deserializeJson s
  = Running tt (match stored_document deserializeJson (world s) with
                | Some doc => set_config (loaded_config doc (config s)) s
                | None => after_default s
                end).
Proof.
  unfold loadConfig, stored_document. rewrite bind_gets.
  destruct (spiffs_config (world s)) as [buf |]; [| reflexivity].
  destruct (2048 <? String.length buf)%nat; [reflexivity |].
  destruct (deserializeJson 2048%nat buf) as [doc |]; reflexivity.
Qed.

Lemma three_inserts {A} (l : list A) (x y z : A) :
  length l = 3%nat -> <[2%nat := z]> (<[1%nat := y]> (<[0%nat := x]> l)) = [x; y; z].
Proof. destruct l as [| a [| b [| c [| d l]]]]; intros H; try discriminate H; reflexivity. Qed.

Lemma loaded_config_wifiSSID doc c :
  length (wifiSSID c) = 3%nat ->
  wifiSSID (loaded_config doc c)
  = [strncpy (cstr_or doc "wifiSSID0" "") sz_wifi; strncpy (cstr_or doc "wifiSSID1" "") sz_wifi;
     strncpy (cstr_or doc "wifiSSID2" "") sz_wifi].
Proof. intros H. rewrite <- (three_inserts (wifiSSID c) _ _ _ H). reflexivity. Qed.

Lemma loaded_config_wifiPassword doc c :
  length (wifiPassword c) = 3%nat ->
  wifiPassword (loaded_config doc c)
  = [strncpy (cstr_or doc "wifiPassword0" "") sz_wifi;
     strncpy (cstr_or doc "wifiPassword1" "") sz_wifi;
     strncpy (cstr_or doc "wifiPassword2" "") sz_wifi].
Proof. intros H. rewrite <- (three_inserts (wifiPassword c) _ _ _ H). reflexivity. Qed.

Lemma loaded_config_buffers doc c :
  length (wifiSSID c) = 3%nat -> length (wifiPassword c) = 3%nat ->
  buffers_ok (loaded_config doc c).
Proof.
  intros Hs Hp. split;
    rewrite ?(loaded_config_wifiSSID doc c Hs), ?(loaded_config_wifiPassword doc c Hp);
    try (apply fits_strncpy);
    try (split; [reflexivity | repeat constructor; apply fits_strncpy]).
  apply wrap32_range.
Qed.

Lemma default_config_buffers w : buffers_ok (default_config w).
Proof.
  split; try (apply fits_strncpy); try reflexivity;
    try (split; [reflexivity | repeat constructor]).
  change (configVersion (default_config w)) with 1. lia.
Qed.

(** X15. [loadConfig] returns, and leaves a configuration of which every
    field is within its buffer, whatever the file holds. *)
Theorem loadConfig_buffers (deserializeJson : nat -> string -> option JsonDocument)
    (s : State) :
  length (wifiSSID (config s)) = 3%nat ->
  length (wifiPassword (config s)) = 3%nat ->
  exists s', loadConfig deserializeJson s = Running tt s' /\ buffers_ok (config s').
Proof.
  intros Hs Hp. rewrite loadConfig_eq. eexists. split; [reflexivity |].
  destruct (stored_document deserializeJson (world s)) as [doc |].
  - apply loaded_config_buffers; assumption.
  - apply default_config_buffers.
Qed.

Lemma loadConfig_buffers_witness :
  let s := boot (set_spiffs "complete" (demo_world 0 [])) in
  length (wifiSSID (config s)) = 3%nat
  /\ length (wifiPassword (config s)) = 3%nat
  /\ exists s', loadConfig demo_deserializeJson s = Running tt s' /\ buffers_ok (config s').
Proof.
  intros s. split; [reflexivity |]. split; [reflexivity |].
  apply (loadConfig_buffers demo_deserializeJson s); reflexivity.
Defined.

(** X16. The fields stay within their buffers through any run of
    provisioning payloads and editing operations. *)
Theorem operations_keep_buffers (deserializeJson : nat -> string -> option JsonDocument)
    (serializeJson : JsonDocument -> string) (ops : list ConfigOp) (s : State) :
  buffers_ok (config s) ->
  buffers_ok (config (run_ops deserializeJson serializeJson ops s)).
Proof. intros H. apply run_ops_closed; [apply buffers_ok_closed | exact H]. Qed.

Lemma demo_config_buffers : buffers_ok demo_config.
Proof. split; try reflexivity; try (split; [reflexivity | repeat constructor]). cbn. lia. Qed.

Lemma operations_keep_buffers_witness :
  let s := demo_state 20000 [] in
  buffers_ok (config s)
  /\ buffers_ok (config (run_ops demo_deserializeJson demo_serializeJson
                           [OpOpen "edit_alert" "1001"; OpSubmit "Intruder!" "1001";
                            OpConfirm "1001"] s)).
Proof.
  intros s. split; [exact demo_config_buffers |].
  apply (operations_keep_buffers demo_deserializeJson demo_serializeJson
           [OpOpen "edit_alert" "1001"; OpSubmit "Intruder!" "1001"; OpConfirm "1001"] s).
  exact demo_config_buffers.
Defined.

(** The length bounds behind [buffers_ok]: a field within its buffer is no
    longer than the buffer less the terminating NUL. *)
Lemma buffers_ok_lengths (c : SmartWitnessConfig) :
  buffers_ok c ->
  (String.length (deviceName c) <= 31 /\ String.length (friendlyName c) <= 63
   /\ String.length (devicePIN c) <= 3 /\ String.length (telegramToken c) <= 127
   /\ String.length (telegramUser c) <= 63 /\ String.length (personalChatId c) <= 31
   /\ String.length (familiarChatId c) <= 31 /\ String.length (vecinalChatId c) <= 31
   /\ String.length (alertMsg c) <= 99
   /\ Forall (fun v => String.length v <= 63) (wifiSSID c)
   /\ Forall (fun v => String.length v <= 63) (wifiPassword c))%nat.
Proof.
  intros [H1 H2 H3 [_ H4] [_ H5] H6 H7 H8 H9 H10 H11 _].
  repeat split; try (apply fits_length; assumption);
    (eapply Forall_impl; [eassumption | intros v Hv; apply (fits_length sz_wifi), Hv]).
Qed.

(** ** Saving and loading *)

Lemma config_ext (a b : SmartWitnessConfig) :
  deviceName a = deviceName b -> friendlyName a = friendlyName b ->
  devicePIN a = devicePIN b -> wifiSSID a = wifiSSID b -> wifiPassword a = wifiPassword b ->
  telegramToken a = telegramToken b -> telegramUser a = telegramUser b ->
  personalChatId a = personalChatId b -> familiarChatId a = familiarChatId b ->
  vecinalChatId a = vecinalChatId b -> alertMsg a = alertMsg b ->
  isConfigured a = isConfigured b -> pinConfigured a = pinConfigured b ->
  configVersion a = configVersion b -> a = b.
Proof. destruct a, b. cbn. intros. subst. reflexivity. Qed.

Lemma three_fits (l : list string) :
  length l = 3%nat /\ Forall (fits sz_wifi) l ->
  [strncpy (l !!! 0%nat) sz_wifi; strncpy (l !!! 1%nat) sz_wifi; strncpy (l !!! 2%nat) sz_wifi] = l.
Proof.
  intros [Hl Hf]. destruct l as [| a [| b [| c [| d l]]]]; try discriminate Hl.
  inversion_clear Hf as [| ? ? Ha Hf']. inversion_clear Hf' as [| ? ? Hb Hf''].
  inversion_clear Hf'' as [| ? ? Hc _].
  change ([strncpy a sz_wifi; strncpy b sz_wifi; strncpy c sz_wifi] = [a; b; c]).
  unfold fits in Ha, Hb, Hc. rewrite Ha, Hb, Hc. reflexivity.
Qed.

Lemma loaded_saved (c c0 : SmartWitnessConfig) :
  buffers_ok c -> length (wifiSSID c0) = 3%nat -> length (wifiPassword c0) = 3%nat ->
  loaded_config (config_document c) c0
  = with_configVersion (if configVersion c <? 2 ^ 31 then configVersion c else 1) c.
Proof.
  intros [H1 H2 H3 H4 H5 H6 H7 H8 H9 H10 H11 H12] Hs Hp.
  apply config_ext;
    rewrite ?(loaded_config_wifiSSID _ c0 Hs), ?(loaded_config_wifiPassword _ c0 Hp).
  - exact H1.
  - exact H2.
  - exact H3.
  - exact (three_fits _ H4).
  - exact (three_fits _ H5).
  - exact H6.
  - exact H7.
  - exact H8.
  - exact H9.
  - exact H10.
  - exact H11.
  - reflexivity.
  - reflexivity.
  - change (wrap32 (if in_int_range (configVersion c) then configVersion c else 1)
            = if configVersion c <? 2 ^ 31 then configVersion c else 1).
    unfold in_int_range.
    destruct (Z.ltb_spec (configVersion c) (2 ^ 31)) as [Hlt | Hge].
    + replace (- 2 ^ 31 <=? configVersion c) with true by (symmetry; apply Z.leb_le; lia).
      apply wrap32_small. lia.
    + rewrite andb_false_r. reflexivity.
Qed.

(** X17. What [saveConfig] writes, [loadConfig] reads back: if the file
    can be written and the JSON codec returns the document it was given,
    a later [loadConfig] restores every field of the configuration, except
    that a [configVersion] of 2^31 or more comes back as 1. *)
Theorem save_then_load (deserializeJson : nat -> string -> option JsonDocument)
    (serializeJson : JsonDocument -> string) (s : State) :
  buffers_ok (config s) ->
  spiffs_writable (world s) = true ->
  (String.length (serializeJson (config_document (config s))) <= 2048)%nat ->
  deserializeJson 2048%nat (serializeJson (config_document (config s)))
  = Some (config_document (config s)) ->
  exists s1,
    saveConfig serializeJson s = Running tt s1
    /\ forall b : State,
         spiffs_config (world b) = spiffs_config (world s1) ->
         length (wifiSSID (config b)) = 3%nat ->
         length (wifiPassword (config b)) = 3%nat ->
         exists s2,
           loadConfig deserializeJson b = Running tt s2
           /\ config s2
              = with_configVersion
                  (if configVersion (config s) <? 2 ^ 31 then configVersion (config s) else 1)
                  (config s).
Proof.
  intros Hok Hw Hlen Hdj. rewrite saveConfig_eq, Hw. eexists. split; [reflexivity |].
  intros b Hfile Hs Hp. rewrite loadConfig_eq. eexists. split; [reflexivity |].
  unfold stored_document. rewrite Hfile.
  cbn [world set_trace set_world spiffs_config with_spiffs_config].
  replace (2048 <? String.length (serializeJson (config_document (config s))))%nat with false
    by (symmetry; apply Nat.ltb_ge, Hlen).
  rewrite Hdj. cbn [config set_config]. apply loaded_saved; assumption.
Qed.

Lemma save_then_load_witness :
  let s := demo_state 20000 [] in
  buffers_ok (config s)
  /\ spiffs_writable (world s) = true
  /\ (String.length (store_serializeJson (config_document (config s))) <= 2048)%nat
  /\ store_deserializeJson 2048%nat (store_serializeJson (config_document (config s)))
     = Some (config_document (config s))
  /\ exists s1,
       saveConfig store_serializeJson s = Running tt s1
       /\ forall b : State,
            spiffs_config (world b) = spiffs_config (world s1) ->
            length (wifiSSID (config b)) = 3%nat ->
            length (wifiPassword (config b)) = 3%nat ->
            exists s2,
              loadConfig store_deserializeJson b = Running tt s2
              /\ config s2
                 = with_configVersion
                     (if configVersion (config s) <? 2 ^ 31 then configVersion (config s) else 1)
                     (config s).
Proof.
  intros s.
  assert (H3 : (String.length (store_serializeJson (config_document (config s))) <= 2048)%nat)
    by (vm_compute; lia).
  split; [exact demo_config_buffers |]. split; [reflexivity |]. split; [exact H3 |].
  split; [reflexivity |].
  exact (save_then_load store_deserializeJson store_serializeJson s
           demo_config_buffers eq_refl H3 eq_refl).
Defined.

(** ** Boot without a usable configuration *)

Lemma setup_need_config deserializeJson s s0 :
  loadConfig deserializeJson (after_delay 2000 s) = Running tt s0 ->
  hasValidConfig (config s0) = false ->
  setup deserializeJson s = Running tt (after_need_config (after_resets s0)).
Proof.
  intros Eload Hv. unfold setup. rewrite (bind_run _ _ _ _ _ (delay_eq 2000 s)).
  rewrite (bind_run _ _ _ _ _ Eload).
  change (initializeTelegramStats;;; resetEditingState;;;
          let* c := gets config in
          if negb (hasValidConfig c) then
            assign_currentState NEED_CONFIG;;;
            initBLE;;;
            let* now := millis in
            modify (set_bleConfigStartTime now);;;
            assign_currentState BLE_CONFIG_PHASE
          else
            assign_currentState NORMAL_OPERATION;;;
            let* connected := connectWiFiWithFallback in
            when connected
              (modify (set_bot (Some (telegramToken c)));;;
               delay 5000;;;
               sendStartupAlertsToAllChats))
    with (fun x : State =>
            (let* c := gets config in
             if negb (hasValidConfig c) then
               assign_currentState NEED_CONFIG;;;
               initBLE;;;
               let* now := millis in
               modify (set_bleConfigStartTime now);;;
               assign_currentState BLE_CONFIG_PHASE
             else
               assign_currentState NORMAL_OPERATION;;;
               let* connected := connectWiFiWithFallback in
               when connected
                 (modify (set_bot (Some (telegramToken c)));;;
                  delay 5000;;;
                  sendStartupAlertsToAllChats)) (after_resets x)).
  cbv beta. rewrite bind_gets.
  change (config (after_resets s0)) with (config s0). rewrite Hv. cbn [negb].
  apply need_config_eq.
Qed.

Lemma default_config_invalid w : hasValidConfig (default_config w) = false.
Proof.
  rewrite hasValidConfig_andb.
  change (personalChatId (default_config w)) with "". apply andb_false_r.
Qed.

(** Without a usable file, [setup] goes through the defaults into the BLE
    configuration phase. *)
Lemma setup_defaults deserializeJson s :
  stored_document deserializeJson (world s) = None ->
  setup deserializeJson s
  = Running tt (after_need_config (after_resets (after_default (after_delay 2000 s)))).
Proof.
  intros Hdoc.
  assert (Eload : loadConfig deserializeJson (after_delay 2000 s)
                  = Running tt (after_default (after_delay 2000 s))).
  { rewrite loadConfig_eq.
    change (stored_document deserializeJson (world (after_delay 2000 s)))
      with (stored_document deserializeJson (world s)).
    rewrite Hdoc. reflexivity. }
  apply (setup_need_config _ _ _ Eload).
  change (config (after_default (after_delay 2000 s))) with (default_config (world s)).
  apply default_config_invalid.
Qed.

(** X18. When [/config.json] is missing, longer than 2048 bytes or not
    JSON, [setup] loads the defaults (name from the chip id, fresh PIN,
    no WiFi, no token, no chat), starts the BLE server and ends in
    [BLE_CONFIG_PHASE]; it makes no Telegram call and creates no bot. *)
Theorem setup_without_document (deserializeJson : nat -> string -> option JsonDocument)
    (s : State) :
  stored_document deserializeJson (world s) = None ->
  exists s',
    setup deserializeJson s = Running tt s'
    /\ currentState s' = BLE_CONFIG_PHASE
    /\ config s' = default_config (world s)
    /\ hasValidConfig (config s') = false
    /\ bot s' = bot s
    /\ advertising (ble s') = true
    /\ bleConfigStartTime s' = wrap32 (clock (world s) + 2000)
    /\ since s s'
       = [(clock (world s), EvDelay 2000);
          (clock (world s) + 2000, EvState NEED_CONFIG);
          (clock (world s) + 2000, EvBLEInit (deviceName (default_config (world s))));
          (clock (world s) + 2000, EvBLEAdvertise true);
          (clock (world s) + 2000, EvBLEStatus "waiting_for_connection");
          (clock (world s) + 2000, EvState BLE_CONFIG_PHASE)].
Proof.
  intros Hdoc. rewrite (setup_defaults _ _ Hdoc).
  eexists. split; [reflexivity |].
  split; [reflexivity |]. split; [reflexivity |].
  split; [apply default_config_invalid |].
  split; [reflexivity |]. split; [reflexivity |]. split; [reflexivity |].
  apply since_app. unfold after_need_config, after_assign, after_initBLE, after_resets,
    after_default, after_delay.
  cbn [trace set_trace set_currentState set_ble set_bleConfigStartTime set_editing
       set_telegramStats set_world set_config world clock with_clock with_rng config].
  rewrite <- !app_assoc. reflexivity.
Qed.

Lemma setup_without_document_witness :
  let s := boot (demo_world 0 []) in
  stored_document demo_deserializeJson (world s) = None
  /\ exists s',
       setup demo_deserializeJson s = Running tt s'
       /\ currentState s' = BLE_CONFIG_PHASE
       /\ config s' = default_config (world s)
       /\ hasValidConfig (config s') = false
       /\ bot s' = bot s
       /\ advertising (ble s') = true
       /\ bleConfigStartTime s' = wrap32 (clock (world s) + 2000)
       /\ since s s'
          = [(clock (world s), EvDelay 2000);
             (clock (world s) + 2000, EvState NEED_CONFIG);
             (clock (world s) + 2000, EvBLEInit (deviceName (default_config (world s))));
             (clock (world s) + 2000, EvBLEAdvertise true);
             (clock (world s) + 2000, EvBLEStatus "waiting_for_connection");
             (clock (world s) + 2000, EvState BLE_CONFIG_PHASE)].
Proof.
  intros s. split; [reflexivity |].
  exact (setup_without_document demo_deserializeJson s eq_refl).
Defined.

(** ** Provisioning and the next boot *)

Lemma updateBLEStatus_keeps (P : State -> Prop) status R C :
  (forall s tr, P s -> P (set_trace tr s)) ->
  triple P (updateBLEStatus status) (fun _ => P) R C.
Proof.
  intros H. unfold updateBLEStatus.
  eapply triple_bind; [apply triple_gets | intros b].
  eapply triple_bind; [apply triple_when, triple_log, H | intros ?].
  eapply triple_bind; [apply triple_gets | intros pin].
  apply triple_when, triple_log, H.
Qed.

Lemma triggerConfigurationRestart_keeps (P : State -> Prop) (Q : unit -> State -> Prop) C :
  (forall s tr, P s -> P (set_trace tr s)) ->
  (forall s b, P s -> P (set_ble b s)) ->
  delivery_invariant P ->
  triple P triggerConfigurationRestart Q P C.
Proof.
  intros Htr Hble Hd. unfold triggerConfigurationRestart.
  eapply triple_bind; [apply triple_gets | intros b].
  eapply triple_bind with (Q1 := fun _ => P).
  - apply triple_when.
    eapply triple_bind; [apply triple_log, Htr | intros ?].
    eapply triple_bind; [apply triple_log, Htr | intros ?].
    apply triple_modify. intros s Hs. apply Hble, Hs.
  - intros ?. eapply triple_bind with (Q1 := fun _ => P).
    + apply triple_delay; [lia | exact Hd].
    + intros ? s Hs. exact (Htr s _ Hs).
Qed.

Lemma strncpy_member_keeps doc k n (P : State -> Prop) R (C : State -> Prop) :
  (forall s, P s -> C s) -> triple P (strncpy_member doc k n) (fun _ => P) R C.
Proof.
  intros H. unfold strncpy_member. intros s Hs.
  destruct (as_cstr doc k); [exact Hs | apply H, Hs].
Qed.

Lemma saved_unowned_delivery serializeJson : delivery_invariant (saved_unowned serializeJson).
Proof.
  intros s s' H [H1 H2]. unfold saved_unowned.
  rewrite (ds_config _ _ H), (delivery_step_spiffs _ _ H). auto.
Qed.

Lemma saveConfig_unowned serializeJson R C :
  triple unowned_writable (saveConfig serializeJson) (fun _ => saved_unowned serializeJson) R C.
Proof.
  intros s [H1 H2]. unfold ends. rewrite saveConfig_eq, H2. split; [exact H1 | reflexivity].
Qed.

(** A provisioning intake that ends in the restart has written the
    configuration it leaves in memory, still without a personal chat id. *)
Lemma processBLEConfiguration_saved deserializeJson serializeJson configData :
  triple unowned_writable
         (processBLEConfiguration deserializeJson serializeJson configData)
         (fun _ _ => True) (saved_unowned serializeJson) (fun _ => True).
Proof.
  unfold processBLEConfiguration.
  assert (Herr : forall status,
            triple unowned_writable (updateBLEStatus status) (fun _ _ => True)
                   (saved_unowned serializeJson) (fun _ => True)).
  { intros status. eapply triple_weaken;
      [apply (updateBLEStatus_keeps unowned_writable); intros s tr H; exact H
      | intros ? H; exact H | intros ? ? ?; exact I | intros ? H; exact H | intros ? H; exact H]. }
  destruct (deserializeJson 1024%nat configData) as [doc |]; [| apply Herr].
  destruct (_ || _); [apply Herr |].
  set (R := saved_unowned serializeJson). set (C := fun _ : State => True).
  assert (Hupd : forall (f : SmartWitnessConfig -> SmartWitnessConfig),
            (forall x, personalChatId (f x) = personalChatId x) ->
            triple unowned_writable (modify_config f) (fun _ => unowned_writable) R C).
  { intros f Hf. unfold modify_config. apply triple_modify. intros s [H1 H2].
    split; [cbn [config set_config]; rewrite Hf; exact H1 | exact H2]. }
  assert (Hmem : forall k n,
            triple unowned_writable (strncpy_member doc k n) (fun _ => unowned_writable) R C)
    by (intros; apply strncpy_member_keeps; intros; exact I).
  eapply triple_bind with (Q1 := fun _ => unowned_writable).
  { apply triple_when. eapply triple_bind; [apply Hmem | intros ?]. apply Hupd. reflexivity. }
  intros ?.
  eapply triple_bind; [apply Hmem | intros ?].
  eapply triple_bind; [apply Hupd; reflexivity | intros ?].
  eapply triple_bind; [apply Hmem | intros ?].
  eapply triple_bind; [apply Hupd; reflexivity | intros ?].
  eapply triple_bind; [apply Hmem | intros ?].
  eapply triple_bind; [apply Hupd; reflexivity | intros ?].
  eapply triple_bind with (Q1 := fun _ => unowned_writable).
  { apply triple_when. eapply triple_bind; [apply Hmem | intros ?].
    eapply triple_bind; [apply Hupd; reflexivity | intros ?].
    eapply triple_bind; [apply Hmem | intros ?]. apply Hupd. reflexivity. }
  intros ?.
  eapply triple_bind with (Q1 := fun _ => unowned_writable).
  { apply triple_when. eapply triple_bind; [apply Hmem | intros ?].
    eapply triple_bind; [apply Hupd; reflexivity | intros ?].
    eapply triple_bind; [apply Hmem | intros ?]. apply Hupd. reflexivity. }
  intros ?.
  eapply triple_bind with (Q1 := fun _ => unowned_writable).
  { apply triple_when. eapply triple_bind; [apply Hmem | intros ?]. apply Hupd. reflexivity. }
  intros ?.
  eapply triple_bind; [apply Hupd; reflexivity | intros ?].
  eapply triple_bind; [apply Hupd; reflexivity | intros ?].
  eapply triple_bind with (Q1 := fun _ => R); [apply saveConfig_unowned | intros ?].
  eapply triple_bind with (Q1 := fun _ => R);
    [apply updateBLEStatus_keeps; intros s tr H; exact H | intros ?].
  eapply triple_bind with (Q1 := fun _ => R);
    [apply triple_delay; [lia | apply saved_unowned_delivery] | intros ?].
  apply triggerConfigurationRestart_keeps;
    [intros s tr H; exact H | intros s b H; exact H | apply saved_unowned_delivery].
Qed.

Lemma loaded_config_personalChatId doc c :
  personalChatId (loaded_config doc c) = strncpy (cstr_or doc "personalChatId" "") sz_chatId.
Proof. reflexivity. Qed.

Lemma strncpy_empty n : strncpy "" n = "".
Proof. destruct n; reflexivity. Qed.

(** X19. Provisioning alone never completes.  On a device without a
    personal chat id, a provisioning payload that is accepted saves a
    configuration that still has none; if the codec reads back what was
    written, the boot that follows the restart finds the configuration
    invalid and ends in [BLE_CONFIG_PHASE] again. *)
Theorem provisioning_cannot_complete (deserializeJson : nat -> string -> option JsonDocument)
    (serializeJson : JsonDocument -> string) (configData : string) (s s1 : State) :
  personalChatId (config s) = "" ->
  spiffs_writable (world s) = true ->
  processBLEConfiguration deserializeJson serializeJson configData s = Restarted s1 ->
  (forall doc',
     deserializeJson 2048%nat (serializeJson (config_document (config s1))) = Some doc' ->
     doc' = config_document (config s1)) ->
  forall w' : World,
    spiffs_config w' = spiffs_config (world s1) ->
    exists s2,
      setup deserializeJson (boot w') = Running tt s2
      /\ currentState s2 = BLE_CONFIG_PHASE
      /\ hasValidConfig (config s2) = false.
Proof.
  intros Hown Hw Hrun Hcodec w' Hfile.
  pose proof (processBLEConfiguration_saved deserializeJson serializeJson configData s
                (conj Hown Hw)) as H.
  unfold ends in H. rewrite Hrun in H. destruct H as [Hp Hs].
  assert (Hinv : forall x, loadConfig deserializeJson (after_delay 2000 (boot w')) = Running tt x ->
                           hasValidConfig (config x) = false).
  { intros x. rewrite loadConfig_eq. intros [= <-].
    change (world (after_delay 2000 (boot w'))) with (with_clock (clock w' + 2000) w').
    unfold stored_document. cbn [spiffs_config with_clock]. rewrite Hfile, Hs.
    destruct (2048 <? _)%nat; [apply default_config_invalid |].
    destruct (deserializeJson 2048%nat _) as [doc' |] eqn:E; [| apply default_config_invalid].
    rewrite (Hcodec doc' eq_refl), hasValidConfig_andb.
    cbn [config set_config]. rewrite loaded_config_personalChatId.
    change (cstr_or (config_document (config s1)) "personalChatId" "")
      with (personalChatId (config s1)).
    rewrite Hp, strncpy_empty. apply andb_false_r. }
  destruct (loadConfig deserializeJson (after_delay 2000 (boot w'))) as [[] x | | |] eqn:Eload;
    try (rewrite loadConfig_eq in Eload; discriminate Eload).
  rewrite (setup_need_config _ _ _ Eload (Hinv x eq_refl)).
  eexists. split; [reflexivity |]. split; [reflexivity |]. exact (Hinv x eq_refl).
Qed.

Lemma provisioning_cannot_complete_witness :
  let s := set_currentState BLE_CONFIG_PHASE
             (set_config unowned_config (demo_state 20000 [])) in
  let s1 := state_after store_deserializeJson store_serializeJson (OpProvision "complete") s in
  personalChatId (config s) = ""
  /\ spiffs_writable (world s) = true
  /\ processBLEConfiguration store_deserializeJson store_serializeJson "complete" s = Restarted s1
  /\ exists s2,
       setup store_deserializeJson (boot (world s1)) = Running tt s2
       /\ currentState s2 = BLE_CONFIG_PHASE
       /\ hasValidConfig (config s2) = false.
Proof.
  intros s s1.
  assert (H3 : processBLEConfiguration store_deserializeJson store_serializeJson "complete" s
               = Restarted s1) by (vm_compute; reflexivity).
  assert (Hc : config s1 = provisioned_config) by (vm_compute; reflexivity).
  split; [reflexivity |]. split; [reflexivity |]. split; [exact H3 |].
  refine (provisioning_cannot_complete store_deserializeJson store_serializeJson "complete"
            s s1 eq_refl eq_refl H3 _ (world s1) eq_refl).
  rewrite Hc. intros doc' H.
  change (Some (config_document provisioned_config) = Some doc') in H.
  injection H as <-. reflexivity.
Defined.

(** ** The BLE callbacks *)

Lemma updateBLEStatus_pin s :
  pStatusCharacteristic (ble s) = true -> pPinCharacteristic (ble s) = true ->
  updateBLEStatus "connected_pin_ready" s
  = Running tt (set_trace (trace s ++ [(clock (world s), EvBLEStatus "connected_pin_ready");
                                       (clock (world s), EvBLEPin (devicePIN (config s)))])%list s).
Proof.
  intros H1 H2. unfold updateBLEStatus. rewrite bind_gets, H1, H2.
  unfold when, bind, log, modify, gets. cbn [trace set_trace world config ble].
  change (("connected_pin_ready" =? "connected_pin_ready")%string && true) with true.
  cbv beta iota. cbn [trace set_trace world]. rewrite <- app_assoc. reflexivity.
Qed.

(** X20. When a BLE client connects to the provisioning server, the
    device draws a new three-digit PIN (100 to 998), stores it untruncated
    in the configuration in memory, and notifies the status
    [connected_pin_ready] and then that PIN; the configuration file is not
    written. *)
Theorem onConnect_publishes_pin (s : State) :
  pStatusCharacteristic (ble s) = true ->
  pPinCharacteristic (ble s) = true ->
  exists v s',
    onConnect s = Running tt s'
    /\ 100 <= v <= 998
    /\ String.length (String_of_Z v) = 3%nat
    /\ devicePIN (config s') = String_of_Z v
    /\ deviceConnected (ble s') = true
    /\ since s s' = [(clock (world s), EvBLEStatus "connected_pin_ready");
                     (clock (world s), EvBLEPin (String_of_Z v))]
    /\ spiffs_config (world s') = spiffs_config (world s).
Proof.
  intros H1 H2.
  destruct (generateDevicePIN_value (set_deviceConnected true s)) as (v & Hv & Hlen & Hfit & Egen).
  exists v. unfold onConnect.
  rewrite (bind_run _ _ _ _ _ (eq_refl : modify (set_deviceConnected true) s = Running tt _)).
  rewrite (bind_run _ _ _ _ _ Egen).
  rewrite (bind_run _ _ _ _ _
             (eq_refl : modify_config (with_devicePIN (strncpy (String_of_Z v) sz_devicePIN)) _
                        = Running tt _)).
  rewrite updateBLEStatus_pin by (cbn; assumption).
  eexists. split; [reflexivity |]. split; [exact Hv |]. split; [exact Hlen |].
  split; [cbn [config set_trace set_config devicePIN with_devicePIN]; exact Hfit |].
  split; [reflexivity |].
  split; [| reflexivity].
  apply since_app. cbn [trace set_trace set_config set_world set_deviceConnected set_ble
                        config devicePIN with_devicePIN world clock with_rng].
  rewrite Hfit. reflexivity.
Qed.

Lemma onConnect_publishes_pin_witness :
  let s := set_ble (mkBLE true true true true false) (boot (demo_world 0 [])) in
  pStatusCharacteristic (ble s) = true
  /\ pPinCharacteristic (ble s) = true
  /\ exists v s',
       onConnect s = Running tt s'
       /\ 100 <= v <= 998
       /\ String.length (String_of_Z v) = 3%nat
       /\ devicePIN (config s') = String_of_Z v
       /\ deviceConnected (ble s') = true
       /\ since s s' = [(clock (world s), EvBLEStatus "connected_pin_ready");
                        (clock (world s), EvBLEPin (String_of_Z v))]
       /\ spiffs_config (world s') = spiffs_config (world s).
Proof.
  intros s. split; [reflexivity |]. split; [reflexivity |].
  exact (onConnect_publishes_pin s eq_refl eq_refl).
Defined.

Lemma file_invariant (c : SmartWitnessConfig) (file : option string) :
  delivery_invariant (fun x => config x = c /\ spiffs_config (world x) = file).
Proof.
  intros s s' H (Hc & Hf). rewrite (ds_config _ _ H), (delivery_step_spiffs _ _ H). auto.
Qed.

(** X21. A write to the BLE command characteristic changes nothing unless
    the command is [telegram_opened]; that command restarts the device,
    with the configuration in memory and the configuration file as they
    were. *)
Theorem ble_command_outcome (raw : string) (s : State) :
  match CommandCharacteristic_onWrite raw s with
  | Running _ s' => of_c_str raw <> "telegram_opened" /\ s' = s
  | Restarted s' =>
      of_c_str raw = "telegram_opened" /\ config s' = config s
      /\ spiffs_config (world s') = spiffs_config (world s)
  | Crashed _ | OutOfFuel => False
  end.
Proof.
  unfold CommandCharacteristic_onWrite. cbv zeta.
  destruct (String.eqb_spec (of_c_str raw) "telegram_opened") as [Hcmd | Hcmd];
    [| split; [exact Hcmd | reflexivity]].
  set (P := fun x : State => config x = config s
                             /\ spiffs_config (world x) = spiffs_config (world s)).
  assert (HP : delivery_invariant P) by apply file_invariant.
  assert (Hm : triple P (updateBLEStatus "telegram_opened_restarting";;;
                         delay 2000;;; triggerConfigurationRestart)
                 (fun (_ : unit) _ => False) P (fun _ => False)).
  { eapply triple_bind with (Q1 := fun _ => P);
      [apply updateBLEStatus_keeps; intros ? ? H; exact H | intros ?].
    eapply triple_bind with (Q1 := fun _ => P); [apply triple_delay; [lia | exact HP] | intros ?].
    apply triggerConfigurationRestart_keeps; [intros ? ? H; exact H | intros ? ? H; exact H | exact HP]. }
  specialize (Hm s (conj eq_refl eq_refl)). unfold ends in Hm. unfold when.
  destruct ((updateBLEStatus "telegram_opened_restarting";;;
             delay 2000;;; triggerConfigurationRestart) s); try (destruct Hm; fail).
  split; [exact Hcmd | exact Hm].
Qed.

(** ** Who creates the bot *)

Lemma bot_is_delivery b : delivery_invariant (bot_is b).
Proof. intros s s' H Hs. unfold bot_is. rewrite (ds_bot _ _ H). exact Hs. Qed.

(** One step of a proof that a call keeps the bot pointer, whichever way
    it ends. *)
Ltac keep_bot_leaf := solve [intros ? H; exact H].

Ltac keep_bot :=
  repeat match goal with
    | |- triple _ (ret _) _ _ _ => apply triple_ret
    | |- triple _ (gets _) _ _ _ => apply triple_gets
    | |- triple _ (safeSendMessage _ _ _) _ _ _ => apply triple_send; apply bot_is_delivery
    | |- triple _ (delay _) _ _ _ => apply triple_delay; [lia | apply bot_is_delivery]
    | |- triple _ (transport _) _ _ _ =>
        apply triple_transport; [reflexivity | apply bot_is_delivery]
    | |- triple _ (sendStatus _) _ _ _ => apply sendStatus_keeps; apply bot_is_delivery
    | |- triple _ (sendMainMenu _) _ _ _ => apply sendMainMenu_keeps; apply bot_is_delivery
    | |- triple _ (sendConfigMenu _) _ _ _ => apply sendConfigMenu_keeps; apply bot_is_delivery
    | |- triple _ getFormattedDateTime _ _ _ => apply getFormattedDateTime_keeps
    | |- triple _ (when _ _) _ _ _ => apply triple_when
    | |- triple _ (modify _) _ _ _ => keep_bot_leaf
    | |- triple _ (modify_stats _) _ _ _ => keep_bot_leaf
    | |- triple _ (modify_config _) _ _ _ => keep_bot_leaf
    | |- triple _ (modify_editing _) _ _ _ => keep_bot_leaf
    | |- triple _ (modify_world _) _ _ _ => keep_bot_leaf
    | |- triple _ (log _) _ _ _ => keep_bot_leaf
    | |- triple _ millis _ _ _ => keep_bot_leaf
    | |- triple _ resetEditingState _ _ _ => keep_bot_leaf
    | |- triple _ esp_camera_fb_get _ _ _ => keep_bot_leaf
    | |- triple _ ESP_restart _ _ _ => keep_bot_leaf
    | |- triple _ panic _ _ _ => keep_bot_leaf
    | |- triple _ (assign_currentState _) _ _ _ => keep_bot_leaf
    | |- triple (bot_is ?b) (bind _ _) _ _ _ =>
        eapply triple_bind with (Q1 := fun _ => bot_is b); [| intros ?]
    | |- triple _ (if ?c then _ else _) _ _ _ => destruct c
    | |- triple _ (match ?c with Some _ => _ | None => _ end) _ _ _ => destruct c
    end.

Lemma takePhoto_bot chat_id b :
  triple (bot_is b) (takePhoto chat_id) (fun _ => bot_is b) (bot_is b) (bot_is b).
Proof. unfold takePhoto. cbv zeta. keep_bot. Qed.

Lemma saveConfig_bot serializeJson b :
  triple (bot_is b) (saveConfig serializeJson) (fun _ => bot_is b) (bot_is b) (bot_is b).
Proof. unfold saveConfig. cbv zeta. keep_bot. Qed.

Lemma startEditMode_bot field chat_id b :
  triple (bot_is b) (startEditMode field chat_id) (fun _ => bot_is b) (bot_is b) (bot_is b).
Proof. unfold startEditMode. cbv zeta. keep_bot. Qed.

Lemma handleEditingInput_bot message chat_id b :
  triple (bot_is b) (handleEditingInput message chat_id) (fun _ => bot_is b) (bot_is b) (bot_is b).
Proof. unfold handleEditingInput, showEditConfirmation. cbv zeta. keep_bot. Qed.

Lemma confirmEdit_bot serializeJson chat_id b :
  triple (bot_is b) (confirmEdit serializeJson chat_id) (fun _ => bot_is b) (bot_is b) (bot_is b).
Proof.
  unfold confirmEdit. cbv zeta.
  eapply triple_bind with (Q1 := fun _ => bot_is b); [apply triple_gets | intros e].
  destruct (_ || _); [keep_bot |].
  destruct (_ =? _)%nat; [keep_bot |].
  eapply triple_bind with (Q1 := fun _ => bot_is b); [keep_bot | intros success].
  destruct success; [| keep_bot].
  eapply triple_bind with (Q1 := fun _ => bot_is b); [keep_bot | intros ?].
  eapply triple_bind with (Q1 := fun _ => bot_is b); [apply saveConfig_bot | intros ?].
  keep_bot.
Qed.

Lemma cancelEdit_bot chat_id b :
  triple (bot_is b) (cancelEdit chat_id) (fun _ => bot_is b) (bot_is b) (bot_is b).
Proof. unfold cancelEdit. cbv zeta. keep_bot. Qed.

Lemma handleExactCommands_bot serializeJson message chat_id b :
  triple (bot_is b) (handleExactCommands serializeJson message chat_id)
         (fun _ => bot_is b) (bot_is b) (bot_is b).
Proof.
  unfold handleExactCommands. cbv zeta.
  eapply triple_bind with (Q1 := fun _ => bot_is b); [apply triple_gets | intros c].
  destruct (_ && _); [apply triple_ret |].
  destruct (String.eqb _ "/photo"); [apply takePhoto_bot |].
  destruct (String.eqb _ "/status"); [keep_bot |].
  destruct (String.eqb _ "/menu"); [keep_bot |].
  destruct (String.eqb _ "/config"); [keep_bot |].
  destruct (startsWith _ "/edit_"); [apply startEditMode_bot |].
  destruct (String.eqb _ "/confirm_edit"); [apply confirmEdit_bot |].
  destruct (String.eqb _ "/cancel"); [apply cancelEdit_bot |].
  destruct (String.eqb _ "/restart"); [keep_bot |].
  destruct (String.eqb _ "/info"); [keep_bot |].
  destruct (String.eqb _ "/save_restart").
  { destruct (String.eqb _ "personal"); [| apply triple_ret].
    eapply triple_bind with (Q1 := fun _ => bot_is b); [apply saveConfig_bot | intros ?].
    keep_bot. }
  keep_bot.
Qed.

Lemma handleTelegramMessage_bot serializeJson message chat_id userName b :
  triple (bot_is b) (handleTelegramMessage serializeJson message chat_id userName)
         (fun _ => bot_is b) (bot_is b) (bot_is b).
Proof.
  unfold handleTelegramMessage.
  eapply triple_bind with (Q1 := fun _ => bot_is b); [keep_bot | intros ?].
  eapply triple_bind with (Q1 := fun _ => bot_is b); [apply triple_gets | intros e].
  destruct (_ && _); [apply handleEditingInput_bot | apply handleExactCommands_bot].
Qed.

(** ** What a pass of the main loop keeps *)

Lemma ends_bind_returns {A B} (m : M A) (k : A -> M B) s Q R C :
  returns m s (fun a s' => ends (k a) s' Q R C) -> ends (bind m k) s Q R C.
Proof. unfold returns, ends, bind. destruct (m s); auto; intros []. Qed.

Section LoopFrame.

(** A property of the globals that waiting, the transport, the WiFi
    station, the trace, the BLE objects, the lifecycle state and the
    statistics do not affect, and that handling a Telegram message and
    taking a photo keep. *)
Variable P : State -> Prop.
Variable serializeJson : JsonDocument -> string.

Hypothesis P_delivery : delivery_invariant P.
Hypothesis P_world : forall s w, P s -> P (set_world w s).
Hypothesis P_trace : forall s tr, P s -> P (set_trace tr s).
Hypothesis P_ble : forall s b, P s -> P (set_ble b s).
Hypothesis P_state : forall s st, P s -> P (set_currentState st s).
Hypothesis P_stats : forall s st, P s -> P (set_telegramStats st s).
Hypothesis P_message : forall message chat_id userName,
  triple P (handleTelegramMessage serializeJson message chat_id userName) (fun _ => P) P P.
Hypothesis P_photo : forall chat_id, triple P (takePhoto chat_id) (fun _ => P) P P.

Ltac frame :=
  repeat match goal with
    | |- triple _ (ret _) _ _ _ => apply triple_ret
    | |- triple _ (gets _) _ _ _ => apply triple_gets
    | |- triple _ millis _ _ _ => unfold millis; apply triple_gets
    | |- triple _ (safeSendMessage _ _ _) _ _ _ => apply triple_send; exact P_delivery
    | |- triple _ (delay _) _ _ _ => apply triple_delay; [lia | exact P_delivery]
    | |- triple _ (takePhoto _) _ _ _ => apply P_photo
    | |- triple _ (handleTelegramMessage _ _ _ _) _ _ _ => apply P_message
    | |- triple _ (updateBLEStatus _) _ _ _ => apply updateBLEStatus_keeps; exact P_trace
    | |- triple _ (when _ _) _ _ _ => apply triple_when
    | |- triple _ (modify_world _) _ _ _ =>
        unfold modify_world; apply triple_modify; intros ? H; apply P_world, H
    | |- triple _ (modify_stats _) _ _ _ =>
        unfold modify_stats; apply triple_modify; intros ? H; apply P_stats, H
    | |- triple _ (modify_lastError _) _ _ _ =>
        unfold modify_lastError, modify_stats; apply triple_modify; intros ? H; apply P_stats, H
    | |- triple _ (modify (set_currentState _)) _ _ _ =>
        apply triple_modify; intros ? H; apply P_state, H
    | |- triple _ (modify _) _ _ _ => apply triple_modify; intros ? H; apply P_ble, H
    | |- triple _ (log _) _ _ _ => apply triple_log; exact P_trace
    | |- triple _ (assign_currentState _) _ _ _ => unfold assign_currentState
    | |- triple _ ESP_restart _ _ _ => intros ? H; exact (P_trace _ _ H)
    | |- triple _ panic _ _ _ => intros ? H; exact H
    | |- triple _ (bind _ _) _ _ _ => eapply triple_bind with (Q1 := fun _ => P); [| intros ?]
    | |- triple _ (if ?c then _ else _) _ _ _ => destruct c
    | |- triple _ (match ?c with Some _ => _ | None => _ end) _ _ _ => destruct c
    end.

Lemma wifi_wait_frame fuel : forall k T0 s,
  P s ->
  clock (world s) = T0 + 100 * Z.of_nat k ->
  (k <= 150)%nat -> (150 <= fuel + k)%nat ->
  returns (wifi_wait fuel (wrap32 T0)) s (fun _ s' => P s').
Proof.
  induction fuel as [| fuel IH]; intros k T0 s Hs Hclock Hk Hfuel.
  - assert (k = 150)%nat as -> by lia.
    unfold wifi_wait. apply returns_bind. unfold millis. apply returns_gets.
    rewrite Hclock, wrap32_sub.
    replace (T0 + 100 * Z.of_nat 150 - T0) with 15000 by lia.
    change (wrap32 15000 <? 15000) with false. exact Hs.
  - cbn [wifi_wait]. apply returns_bind. unfold millis at 1. apply returns_gets.
    rewrite Hclock, wrap32_sub.
    replace (T0 + 100 * Z.of_nat k - T0) with (100 * Z.of_nat k) by lia.
    rewrite wrap32_small by (change (2 ^ 32) with 4294967296; lia).
    destruct (100 * Z.of_nat k <? 15000) eqn:E; [| exact Hs].
    apply Z.ltb_lt in E.
    apply returns_bind, returns_gets.
    destruct (WiFi_connected (world s)); [exact Hs |].
    apply returns_bind. eapply returns_eq; [apply delay_eq |].
    apply (IH (S k) T0 (after_delay 100 s)).
    + eapply P_delivery; [apply (after_delay_step 100); lia | exact Hs].
    + rewrite clock_after_delay, Hclock. lia.
    + lia.
    + lia.
Qed.

Lemma wifi_networks_frame n : forall i R C,
  triple P (wifi_networks i n) (fun _ => P) R C.
Proof.
  induction n as [| n IH]; intros i R C; cbn [wifi_networks]; [apply triple_ret |].
  eapply triple_bind with (Q1 := fun _ => P); [apply triple_gets | intros c].
  destruct (_ =? _); [apply IH |].
  unfold WiFi_disconnect, WiFi_begin.
  eapply triple_bind with (Q1 := fun _ => P); [frame | intros ?].
  eapply triple_bind with (Q1 := fun _ => P); [frame | intros ?].
  eapply triple_bind with (Q1 := fun _ => P); [frame | intros ?].
  intros s Hs. unfold millis. apply ends_bind_gets.
  apply ends_bind_returns.
  eapply returns_mono;
    [apply (wifi_wait_frame 150 0 (clock (world s)) s Hs); [lia | lia | lia] |].
  intros up s1 Hs1. cbv beta.
  destruct up; [exact Hs1 |].
  refine (triple_bind P _ _ (fun _ => P) _ R C _ (fun _ => IH (S i) R C) s1 Hs1).
  frame.
Qed.

Lemma connectWiFiWithFallback_frame R C :
  triple P connectWiFiWithFallback (fun _ => P) R C.
Proof. apply wifi_networks_frame. Qed.

Lemma initBLE_frame R C : triple P initBLE (fun _ => P) R C.
Proof. unfold initBLE. frame. Qed.

Lemma checkSystemHealth_frame g R C : triple P (checkSystemHealth g) (fun _ => P) R C.
Proof.
  unfold checkSystemHealth.
  eapply triple_bind with (Q1 := fun _ => P); [frame | intros now]. cbv zeta.
  eapply triple_bind with (Q1 := fun _ => P); [frame | intros w].
  eapply triple_bind with (Q1 := fun _ => P); [frame | intros ?].
  eapply triple_bind with (Q1 := fun _ => P); [frame | intros w'].
  eapply triple_bind with (Q1 := fun _ => P); [frame | intros st].
  eapply triple_bind with (Q1 := fun _ => P); [| intros ?; apply triple_ret].
  destruct (_ && _); [| apply triple_ret].
  eapply triple_bind with (Q1 := fun _ => P); [apply connectWiFiWithFallback_frame | intros ?].
  frame.
Qed.

Lemma handleSerialCommands_frame line : triple P (handleSerialCommands line) (fun _ => P) P P.
Proof.
  unfold handleSerialCommands. destruct line as [raw |]; [| apply triple_ret]. cbv zeta.
  destruct (String.eqb _ "status"); [apply triple_ret |].
  destruct (String.eqb _ "restart"); [frame |].
  destruct (String.eqb _ "reset"); [unfold SPIFFS_remove; frame |].
  destruct (String.eqb _ "test_photo"); [frame |].
  destruct (String.eqb _ "wifi_scan"); [apply triple_ret |].
  destruct (String.eqb _ "memory"); [apply triple_ret |].
  destruct (String.eqb _ "stats"); [apply triple_ret |].
  destruct (startsWith _ "send "); [frame |].
  destruct (String.eqb _ "ble_start").
  { eapply triple_bind with (Q1 := fun _ => P); [frame | intros st].
    apply triple_when.
    eapply triple_bind with (Q1 := fun _ => P); [frame | intros ?]. apply initBLE_frame. }
  destruct (String.eqb _ "ble_stop"); [frame |].
  apply triple_ret.
Qed.

Lemma handle_messages_frame msgs : triple P (handle_messages serializeJson msgs) (fun _ => P) P P.
Proof.
  induction msgs as [| m msgs IH]; cbn [handle_messages]; [apply triple_ret |].
  eapply triple_bind with (Q1 := fun _ => P); [apply P_message | intros ?; exact IH].
Qed.

Lemma handleProductionTelegramPolling_frame msgs g :
  triple P (handleProductionTelegramPolling serializeJson msgs g) (fun _ => P) P P.
Proof.
  unfold handleProductionTelegramPolling.
  eapply triple_bind with (Q1 := fun _ => P); [frame | intros b].
  destruct b as [tok |]; [| apply triple_ret].
  eapply triple_bind with (Q1 := fun _ => P); [frame | intros now].
  destruct (_ && _); [apply triple_ret |]. cbv zeta.
  eapply triple_bind with (Q1 := fun _ => P); [frame | intros e].
  destruct (_ <? _); [apply triple_ret |].
  eapply triple_bind with (Q1 := fun _ => P); [frame | intros ?].
  eapply triple_bind with (Q1 := fun _ => P); [apply handle_messages_frame | intros ?].
  apply triple_ret.
Qed.

Lemma loop_state_frame input g :
  triple P (loop_state serializeJson input g) (fun _ => P) P P.
Proof.
  unfold loop_state.
  eapply triple_bind with (Q1 := fun _ => P); [frame | intros st].
  destruct st; try (intros ? H; exact (P_trace _ _ H)).
  - frame.
  - frame.
  - eapply triple_bind with (Q1 := fun _ => P); [frame | intros w].
    eapply triple_bind with (Q1 := fun _ => P); [frame | intros b].
    eapply triple_bind with (Q1 := fun _ => P).
    { destruct (_ && _); [apply handleProductionTelegramPolling_frame |].
      destruct (negb _); [| apply triple_ret].
      eapply triple_bind with (Q1 := fun _ => P); [frame | intros now].
      destruct (_ <? _); [| apply triple_ret].
      eapply triple_bind with (Q1 := fun _ => P); [apply connectWiFiWithFallback_frame | intros ?].
      frame. }
    intros g'.
    eapply triple_bind with (Q1 := fun _ => P); [frame | intros now].
    destruct (_ <? _); [| apply triple_ret].
    eapply triple_bind with (Q1 := fun _ => P); [apply checkSystemHealth_frame | intros ?].
    frame.
Qed.

Lemma loop_frame input g : triple P (loop serializeJson input g) (fun _ => P) P P.
Proof.
  unfold loop.
  eapply triple_bind with (Q1 := fun _ => P); [apply loop_state_frame | intros g1].
  eapply triple_bind with (Q1 := fun _ => P); [apply handleSerialCommands_frame | intros ?].
  eapply triple_bind with (Q1 := fun _ => P); [frame | intros b].
  eapply triple_bind with (Q1 := fun _ => P).
  { destruct (_ && _); [| apply triple_ret].
    eapply triple_bind with (Q1 := fun _ => P); [frame | intros ?].
    eapply triple_bind with (Q1 := fun _ => P); [frame | intros st].
    eapply triple_bind with (Q1 := fun _ => P); [| intros ?; apply triple_ret].
    destruct (SystemState_eqb _ _); [| apply triple_ret].
    destruct (pServer b); frame. }
  intros g2.
  eapply triple_bind with (Q1 := fun _ => P); [frame | intros b']. cbv zeta.
  frame.
Qed.

End LoopFrame.

Lemma handleTelegramMessage_cfg serializeJson message chat_id userName p :
  triple (cfg_inv p) (handleTelegramMessage serializeJson message chat_id userName)
         (fun _ => cfg_inv p) (cfg_inv p) (cfg_inv p).
Proof.
  intros s Hs. unfold ends. rewrite handleTelegramMessage_unfold. cbv zeta.
  set (s1 := set_telegramStats _ s).
  assert (Hs1 : cfg_inv p s1) by exact Hs.
  destruct (editingMode (editing s) && String.eqb chat_id (editingChatID (editing s))) eqn:Eroute.
  - apply (handleEditingInput_cfg message chat_id p (cfg_inv p) (cfg_inv p) s1 Hs1).
  - pose proof (handleExactCommands_outcome serializeJson message chat_id s1 Eroute) as H.
    unfold ends, cfg_inv in *.
    destruct (handleExactCommands serializeJson message chat_id s1);
      first [destruct H as (H & _) | idtac]; first [rewrite H; exact Hs1 | exact H].
Qed.

Lemma loop_cfg serializeJson input g p :
  triple (cfg_inv p) (loop serializeJson input g) (fun _ => cfg_inv p) (cfg_inv p) (cfg_inv p).
Proof.
  apply loop_frame; try (intros ? ? H; exact H).
  - apply cfg_inv_delivery.
  - intros. apply handleTelegramMessage_cfg.
  - intros. apply takePhoto_cfg.
Qed.

Lemma loop_bot serializeJson input g b :
  triple (bot_is b) (loop serializeJson input g) (fun _ => bot_is b) (bot_is b) (bot_is b).
Proof.
  apply loop_frame; try (intros ? ? H; exact H).
  - apply bot_is_delivery.
  - intros. apply handleTelegramMessage_bot.
  - intros. apply takePhoto_bot.
Qed.

Lemma loop_passes_keeps (P : State -> Prop) serializeJson :
  (forall input g, triple P (loop serializeJson input g) (fun _ => P) P P) ->
  forall inputs g, triple P (loop_passes serializeJson inputs g) (fun _ => P) P P.
Proof.
  intros H. induction inputs as [| input inputs IH]; intros g; cbn [loop_passes];
    [apply triple_ret |].
  eapply triple_bind with (Q1 := fun _ => P); [apply H | intros g'; apply IH].
Qed.

(** X22. The main loop never changes the configuration in memory: through
    any number of passes, whatever arrives by Telegram and on the serial
    port, and however the run ends, [config] is what it was.  Only [setup]
    and the BLE callbacks assign it. *)
Theorem loop_keeps_config (serializeJson : JsonDocument -> string)
    (inputs : list LoopInput) (g : LoopGlobals) (s : State) :
  match loop_passes serializeJson inputs g s with
  | Running _ s' | Restarted s' | Crashed s' => config s' = config s
  | OutOfFuel => False
  end.
Proof.
  pose proof (loop_passes_keeps (cfg_inv (fun x => x = config s)) serializeJson
                (fun input g => loop_cfg serializeJson input g _) inputs g s eq_refl) as H.
  unfold ends, cfg_inv in H. destruct (loop_passes serializeJson inputs g s); exact H.
Qed.

(** X23. The main loop never creates the bot: through any number of
    passes, [bot] is what [setup] left.  A device whose WiFi was down
    when [setup] ran has no bot, so it neither polls nor sends, however
    often the loop reconnects the WiFi, until it is restarted. *)
Theorem loop_never_creates_bot (serializeJson : JsonDocument -> string)
    (inputs : list LoopInput) (g : LoopGlobals) (s : State) :
  match loop_passes serializeJson inputs g s with
  | Running _ s' | Restarted s' | Crashed s' => bot s' = bot s
  | OutOfFuel => False
  end.
Proof.
  pose proof (loop_passes_keeps (bot_is (bot s)) serializeJson
                (fun input g => loop_bot serializeJson input g _) inputs g s eq_refl) as H.
  unfold ends, bot_is in H. destruct (loop_passes serializeJson inputs g s); exact H.
Qed.

(** ** The serial console *)

Lemma wrap32_sub_l a b : wrap32 (wrap32 a - b) = wrap32 (a - b).
Proof. unfold wrap32. apply Zminus_mod_idemp_l. Qed.

Lemma serial_reset_eq line :
  trim line = "reset" ->
  handleSerialCommands (Some line)
  = (SPIFFS_remove;;; delay 1000;;; ESP_restart).
Proof. intros H. unfold handleSerialCommands. cbv zeta. rewrite H. reflexivity. Qed.

Lemma serial_ble_start_eq line :
  trim line = "ble_start" ->
  handleSerialCommands (Some line)
  = (let* st := gets currentState in
     when (negb (SystemState_eqb st BLE_CONFIG_PHASE))
       (assign_currentState BLE_CONFIG_PHASE;;; initBLE)).
Proof. intros H. unfold handleSerialCommands. cbv zeta. rewrite H. reflexivity. Qed.

(** X24. The serial command [reset] deletes the configuration file and
    restarts the device; the boot that follows loads the defaults and ends
    in [BLE_CONFIG_PHASE]. *)
Theorem serial_reset_factory (deserializeJson : nat -> string -> option JsonDocument)
    (line : string) (s : State) :
  trim line = "reset" ->
  spiffs_writable (world s) = true ->
  exists s1,
    handleSerialCommands (Some line) s = Restarted s1
    /\ spiffs_config (world s1) = None
    /\ forall w' : World,
         spiffs_config w' = spiffs_config (world s1) ->
         exists s2,
           setup deserializeJson (boot w') = Running tt s2
           /\ currentState s2 = BLE_CONFIG_PHASE
           /\ config s2 = default_config w'.
Proof.
  intros Hline Hw. rewrite (serial_reset_eq _ Hline).
  unfold SPIFFS_remove. unfold bind at 1. unfold bind at 1. unfold gets at 1. rewrite Hw.
  unfold when, modify_world, modify.
  rewrite (bind_run _ _ _ _ _ (delay_eq 1000 _)).
  eexists. split; [reflexivity |]. split; [reflexivity |].
  intros w' Hfile. cbn [world set_trace after_delay set_world spiffs_config with_spiffs_config
                        with_clock] in Hfile.
  assert (Hdoc : stored_document deserializeJson (world (boot w')) = None)
    by (unfold stored_document; cbn [boot world]; rewrite Hfile; reflexivity).
  rewrite (setup_defaults _ _ Hdoc).
  eexists. split; [reflexivity |]. split; reflexivity.
Qed.

Lemma serial_reset_factory_witness :
  let s := demo_state 20000 [] in
  trim " reset " = "reset"
  /\ spiffs_writable (world s) = true
  /\ exists s1,
       handleSerialCommands (Some " reset ") s = Restarted s1
       /\ spiffs_config (world s1) = None
       /\ forall w' : World,
            spiffs_config w' = spiffs_config (world s1) ->
            exists s2,
              setup demo_deserializeJson (boot w') = Running tt s2
              /\ currentState s2 = BLE_CONFIG_PHASE
              /\ config s2 = default_config w'.
Proof.
  intros s. split; [reflexivity |]. split; [reflexivity |].
  exact (serial_reset_factory demo_deserializeJson " reset " s eq_refl eq_refl).
Defined.

(** X25. The serial command [ble_start] enters [BLE_CONFIG_PHASE] and
    starts the BLE server without setting [bleConfigStartTime].  If more
    than [BLE_SESSION_TIMEOUT] has passed since that time (in normal
    operation it is 0, the boot), the state switch of the next loop pass
    restarts the device. *)
Theorem serial_ble_start_times_out (serializeJson : JsonDocument -> string)
    (line : string) (s : State) :
  trim line = "ble_start" ->
  currentState s <> BLE_CONFIG_PHASE ->
  BLE_SESSION_TIMEOUT < wrap32 (clock (world s) - bleConfigStartTime s) ->
  exists s1,
    handleSerialCommands (Some line) s = Running tt s1
    /\ currentState s1 = BLE_CONFIG_PHASE
    /\ advertising (ble s1) = true
    /\ bleConfigStartTime s1 = bleConfigStartTime s
    /\ forall input g, exists s2, loop_state serializeJson input g s1 = Restarted s2.
Proof.
  intros Hline Hst Hlate. rewrite (serial_ble_start_eq _ Hline). rewrite bind_gets.
  replace (SystemState_eqb (currentState s) BLE_CONFIG_PHASE) with false
    by (destruct (currentState s); try reflexivity; contradiction).
  cbn [negb when].
  rewrite (bind_run _ _ _ _ _ (assign_currentState_eq BLE_CONFIG_PHASE s)).
  rewrite initBLE_eq.
  eexists. split; [reflexivity |]. split; [reflexivity |]. split; [reflexivity |].
  split; [reflexivity |].
  intros input g. unfold loop_state. rewrite bind_gets.
  change (currentState (after_initBLE (after_assign BLE_CONFIG_PHASE s))) with BLE_CONFIG_PHASE.
  cbv iota. unfold millis. rewrite !bind_gets.
  change (clock (world (after_initBLE (after_assign BLE_CONFIG_PHASE s))))
    with (clock (world s)).
  change (bleConfigStartTime (after_initBLE (after_assign BLE_CONFIG_PHASE s)))
    with (bleConfigStartTime s).
  rewrite wrap32_sub_l.
  replace (BLE_SESSION_TIMEOUT <? wrap32 (clock (world s) - bleConfigStartTime s)) with true
    by (symmetry; apply Z.ltb_lt, Hlate).
  eexists. reflexivity.
Qed.

Lemma serial_ble_start_times_out_witness :
  let s := demo_state 400000 [] in
  trim "ble_start" = "ble_start"
  /\ currentState s <> BLE_CONFIG_PHASE
  /\ BLE_SESSION_TIMEOUT < wrap32 (clock (world s) - bleConfigStartTime s)
  /\ exists s1,
       handleSerialCommands (Some "ble_start") s = Running tt s1
       /\ currentState s1 = BLE_CONFIG_PHASE
       /\ advertising (ble s1) = true
       /\ bleConfigStartTime s1 = bleConfigStartTime s
       /\ forall input g, exists s2, loop_state demo_serializeJson input g s1 = Restarted s2.
Proof.
  intros s.
  assert (H2 : currentState s <> BLE_CONFIG_PHASE) by discriminate.
  assert (H3 : BLE_SESSION_TIMEOUT < wrap32 (clock (world s) - bleConfigStartTime s))
    by (vm_compute; reflexivity).
  split; [reflexivity |]. split; [exact H2 |]. split; [exact H3 |].
  exact (serial_ble_start_times_out demo_serializeJson "ble_start" s eq_refl H2 H3).
Defined.

(** ** WiFi out of reach at boot *)

Lemma waited_refl s : waited s s.
Proof.
  split; try reflexivity. exists []. split; [symmetry; apply app_nil_r | constructor].
Qed.

Lemma waited_trans s1 s2 s3 : waited s1 s2 -> waited s2 s3 -> waited s1 s3.
Proof.
  intros [C1 S1 B1 J1 (e1 & T1 & F1)] [C2 S2 B2 J2 (e2 & T2 & F2)].
  split; try congruence.
  exists (e1 ++ e2)%list. split.
  - rewrite T2, T1. symmetry. apply app_assoc.
  - apply Forall_app. auto.
Qed.

Lemma waited_delay ms s : waited s (after_delay ms s).
Proof.
  split; try reflexivity. eexists. split; [reflexivity |]. repeat constructor.
Qed.

Lemma waited_link l s : waited s (set_world (with_wifi_link l (world s)) s).
Proof.
  split; try reflexivity. exists []. split; [symmetry; apply app_nil_r | constructor].
Qed.

Lemma wifi_wait_down fuel : forall k T0 s0 s,
  waited s0 s ->
  wifi_link (world s) = None ->
  clock (world s) = T0 + 100 * Z.of_nat k ->
  (k <= 150)%nat -> (150 <= fuel + k)%nat ->
  returns (wifi_wait fuel (wrap32 T0)) s
          (fun up s' => up = false /\ waited s0 s' /\ wifi_link (world s') = None).
Proof.
  induction fuel as [| fuel IH]; intros k T0 s0 s Hw Hlink Hclock Hk Hfuel.
  - assert (k = 150)%nat as -> by lia.
    unfold wifi_wait. apply returns_bind. unfold millis. apply returns_gets.
    rewrite Hclock, wrap32_sub.
    replace (T0 + 100 * Z.of_nat 150 - T0) with 15000 by lia.
    change (wrap32 15000 <? 15000) with false. split; [reflexivity | split; assumption].
  - cbn [wifi_wait]. apply returns_bind. unfold millis at 1. apply returns_gets.
    rewrite Hclock, wrap32_sub.
    replace (T0 + 100 * Z.of_nat k - T0) with (100 * Z.of_nat k) by lia.
    rewrite wrap32_small by (change (2 ^ 32) with 4294967296; lia).
    destruct (100 * Z.of_nat k <? 15000) eqn:E;
      [| split; [reflexivity | split; assumption]].
    apply Z.ltb_lt in E.
    apply returns_bind, returns_gets.
    unfold WiFi_connected. rewrite Hlink.
    apply returns_bind. eapply returns_eq; [apply delay_eq |].
    apply (IH (S k) T0 s0 (after_delay 100 s)).
    + eapply waited_trans; [exact Hw | apply waited_delay].
    + exact Hlink.
    + rewrite clock_after_delay, Hclock. lia.
    + lia.
    + lia.
Qed.

Lemma wifi_networks_down n : forall i s0 s,
  unreachable (world s0) ->
  waited s0 s ->
  returns (wifi_networks i n) s (fun up s' => up = false /\ waited s0 s').
Proof.
  induction n as [| n IH]; intros i s0 s Hun Hw; cbn [wifi_networks];
    [split; [reflexivity | exact Hw] |].
  apply returns_bind, returns_gets.
  destruct (_ =? _); [apply IH; assumption |].
  unfold WiFi_disconnect at 1. unfold modify_world at 1.
  apply returns_bind, returns_modify.
  apply returns_bind. eapply returns_eq; [apply delay_eq |].
  unfold WiFi_begin, modify_world. apply returns_bind, returns_modify.
  set (s1 := set_world (with_wifi_link None (world s)) s).
  set (s2 := after_delay 100 s1).
  assert (Hw2 : waited s0 s2).
  { eapply waited_trans; [exact Hw |]. eapply waited_trans; [apply waited_link | apply waited_delay]. }
  assert (Hjoin : wifi_join (world s2) (wifiSSID_at (config s) i) (wifiPassword_at (config s) i)
                  = None).
  { rewrite (wt_join _ _ Hw2). apply Hun. }
  rewrite Hjoin.
  set (s3 := set_world (with_wifi_link None (world s2)) s2).
  assert (Hw3 : waited s0 s3) by (eapply waited_trans; [exact Hw2 | apply waited_link]).
  apply returns_bind. unfold millis. apply returns_gets.
  apply returns_bind.
  eapply returns_mono;
    [apply (wifi_wait_down 150 0 (clock (world s3)) s0 s3 Hw3 eq_refl); lia |].
  intros up s4 (-> & Hw4 & Hlink4). cbv beta iota.
  unfold WiFi_disconnect, modify_world. apply returns_bind, returns_modify.
  apply IH; [exact Hun |]. eapply waited_trans; [exact Hw4 | apply waited_link].
Qed.

(** X26. If the stored configuration is valid but no configured network
    can be joined when the device boots, [setup] returns in
    [NORMAL_OPERATION] without creating the bot and without any call to
    the Telegram API. *)
Theorem setup_wifi_unreachable (deserializeJson : nat -> string -> option JsonDocument)
    (doc : JsonDocument) (s : State) :
  stored_document deserializeJson (world s) = Some doc ->
  hasValidConfig (loaded_config doc (config s)) = true ->
  unreachable (world s) ->
  exists s',
    setup deserializeJson s = Running tt s'
    /\ currentState s' = NORMAL_OPERATION
    /\ config s' = loaded_config doc (config s)
    /\ bot s' = bot s
    /\ Forall (fun te => is_telegram (snd te) = false) (since s s').
Proof.
  intros Hdoc Hvalid Hun.
  set (s0 := set_config (loaded_config doc (config s)) (after_delay 2000 s)).
  assert (Eload : loadConfig deserializeJson (after_delay 2000 s) = Running tt s0).
  { rewrite loadConfig_eq.
    change (stored_document deserializeJson (world (after_delay 2000 s)))
      with (stored_document deserializeJson (world s)).
    rewrite Hdoc. reflexivity. }
  set (s3 := after_assign NORMAL_OPERATION (after_resets s0)).
  assert (Hsetup : setup deserializeJson s
                   = (let* connected := connectWiFiWithFallback in
                      when connected
                        (modify (set_bot (Some (telegramToken (config s0))));;;
                         delay 5000;;;
                         sendStartupAlertsToAllChats)) s3).
  { unfold setup. rewrite (bind_run _ _ _ _ _ (delay_eq 2000 s)).
    rewrite (bind_run _ _ _ _ _ Eload).
    change (initializeTelegramStats;;; resetEditingState;;;
            let* c := gets config in
            if negb (hasValidConfig c) then
              assign_currentState NEED_CONFIG;;;
              initBLE;;;
              let* now := millis in
              modify (set_bleConfigStartTime now);;;
              assign_currentState BLE_CONFIG_PHASE
            else
              assign_currentState NORMAL_OPERATION;;;
              let* connected := connectWiFiWithFallback in
              when connected
                (modify (set_bot (Some (telegramToken c)));;;
                 delay 5000;;;
                 sendStartupAlertsToAllChats))
      with (fun x : State =>
              (let* c := gets config in
               if negb (hasValidConfig c) then
                 assign_currentState NEED_CONFIG;;;
                 initBLE;;;
                 let* now := millis in
                 modify (set_bleConfigStartTime now);;;
                 assign_currentState BLE_CONFIG_PHASE
               else
                 assign_currentState NORMAL_OPERATION;;;
                 let* connected := connectWiFiWithFallback in
                 when connected
                   (modify (set_bot (Some (telegramToken c)));;;
                    delay 5000;;;
                    sendStartupAlertsToAllChats)) (after_resets x)).
    cbv beta. rewrite bind_gets.
    change (config (after_resets s0)) with (loaded_config doc (config s)).
    rewrite Hvalid. cbn [negb].
    rewrite (bind_run _ _ _ _ _ (assign_currentState_eq NORMAL_OPERATION _)).
    reflexivity. }
  rewrite Hsetup.
  assert (Hun3 : unreachable (world s3)) by exact Hun.
  destruct (returns_inv _ _ _ (wifi_networks_down 3 0 s3 s3 Hun3 (waited_refl s3)))
    as (up & s' & E & -> & [Wc Ws Wb _ (evs & Wt & Wf)]).
  unfold connectWiFiWithFallback. rewrite (bind_run _ _ _ _ _ E).
  exists s'. split; [reflexivity |].
  split; [rewrite Ws; reflexivity |]. split; [rewrite Wc; reflexivity |].
  split; [rewrite Wb; reflexivity |].
  assert (Ht : trace s' = (trace s ++ [(clock (world s), EvDelay 2000);
                                       (clock (world s) + 2000, EvState NORMAL_OPERATION)]
                           ++ evs)%list).
  { rewrite Wt. subst s3 s0. unfold after_assign, after_resets, after_delay.
    cbn [trace set_trace set_currentState set_editing set_telegramStats set_config set_world
         world clock with_clock].
    rewrite <- !app_assoc. reflexivity. }
  rewrite (since_app _ _ _ Ht). repeat constructor. exact Wf.
Qed.

Lemma setup_wifi_unreachable_witness :
  let s := boot (set_spiffs "stored" (demo_world 0 [])) in
  let doc := config_document demo_config in
  stored_document store_deserializeJson (world s) = Some doc
  /\ hasValidConfig (loaded_config doc (config s)) = true
  /\ unreachable (world s)
  /\ exists s',
       setup store_deserializeJson s = Running tt s'
       /\ currentState s' = NORMAL_OPERATION
       /\ config s' = loaded_config doc (config s)
       /\ bot s' = bot s
       /\ Forall (fun te => is_telegram (snd te) = false) (since s s').
Proof.
  intros s doc.
  assert (H1 : stored_document store_deserializeJson (world s) = Some doc) by reflexivity.
  assert (H2 : hasValidConfig (loaded_config doc (config s)) = true) by (vm_compute; reflexivity).
  assert (H3 : unreachable (world s)) by (intros ? ?; reflexivity).
  split; [exact H1 |]. split; [exact H2 |]. split; [exact H3 |].
  exact (setup_wifi_unreachable store_deserializeJson doc s H1 H2 H3).
Defined.

Lemma serial_test_photo_eq line :
  trim line = "test_photo" ->
  handleSerialCommands (Some line)
  = (let* c := gets config in
     when (0 <? strlen (personalChatId c)) (takePhoto (personalChatId c))).
Proof. intros H. unfold handleSerialCommands. cbv zeta. rewrite H. reflexivity. Qed.

Lemma bind_crash {A B} (m : M A) (k : A -> M B) s s' :
  m s = Crashed s' -> bind m k s = Crashed s'.
Proof. unfold bind. intros ->. reflexivity. Qed.

(** X27. The serial command [test_photo] on a device that has no bot (its
    WiFi was down when [setup] ran) and whose camera delivers a frame
    dereferences the null bot pointer: the call ends in a panic, after the
    200 ms flash delay and without any Telegram call. *)
Theorem serial_test_photo_without_bot (line : string) (frames : list bool) (s : State) :
  trim line = "test_photo" ->
  bot s = None ->
  personalChatId (config s) <> "" ->
  camera (world s) = true :: frames ->
  exists s',
    handleSerialCommands (Some line) s = Crashed s'
    /\ since s s' = [(clock (world s), EvDelay 200)]
    /\ config s' = config s.
Proof.
  intros Hline Hbot Hchat Hcam. rewrite (serial_test_photo_eq _ Hline), bind_gets.
  replace (0 <? strlen (personalChatId (config s))) with true.
  2:{ symmetry. apply Z.ltb_lt. unfold strlen.
      destruct (personalChatId (config s)); [contradiction | cbn [String.length]; lia]. }
  cbn [when]. unfold takePhoto.
  rewrite (bind_run _ _ _ _ _ (safeSendMessage_no_bot _ _ _ s Hbot)).
  rewrite (bind_run _ _ _ _ _ (delay_eq 200 s)).
  assert (Efb : esp_camera_fb_get (after_delay 200 s)
                = Running true (set_world (with_camera frames (world (after_delay 200 s)))
                                  (after_delay 200 s))).
  { unfold esp_camera_fb_get.
    change (camera (world (after_delay 200 s))) with (camera (world s)).
    rewrite Hcam. reflexivity. }
  rewrite (bind_run _ _ _ _ _ Efb). cbn [negb].
  rewrite bind_gets.
  change (bot (set_world (with_camera frames (world (after_delay 200 s))) (after_delay 200 s)))
    with (bot s).
  rewrite Hbot.
  eexists. split; [apply bind_crash; reflexivity |].
  split; [| reflexivity].
  apply since_app. reflexivity.
Qed.

Lemma serial_test_photo_without_bot_witness :
  let s := set_bot None
             (set_world (with_camera [true] (demo_world 60000 [])) (demo_state 60000 [])) in
  trim "test_photo" = "test_photo"
  /\ bot s = None
  /\ personalChatId (config s) <> ""
  /\ camera (world s) = [true]
  /\ exists s',
       handleSerialCommands (Some "test_photo") s = Crashed s'
       /\ since s s' = [(clock (world s), EvDelay 200)]
       /\ config s' = config s.
Proof.
  intros s.
  assert (H3 : personalChatId (config s) <> "") by discriminate.
  split; [reflexivity |]. split; [reflexivity |]. split; [exact H3 |]. split; [reflexivity |].
  exact (serial_test_photo_without_bot "test_photo" [] s eq_refl eq_refl H3 eq_refl).
Defined.

(** * The configuration version across restarts *)

Section DeviceVersions.

Variable deserializeJson : nat -> string -> option JsonDocument.
Variable serializeJson : JsonDocument -> string.




(** When the file holds a configuration that the codec reads back, the
    boot loads its version, unless that is 2^31 or more: [| 1] takes an
    [int], and the boot then loads 1. *)
Lemma reloaded_version_saved (w : World) (c : SmartWitnessConfig) :
  spiffs_config w = Some (serializeJson (config_document c)) ->
  (String.length (serializeJson (config_document c)) <= 2048)%nat ->
  deserializeJson 2048%nat (serializeJson (config_document c)) = Some (config_document c) ->
  0 <= configVersion c < 2 ^ 32 ->
  reloaded_version deserializeJson w
  = if configVersion c <? 2 ^ 31 then configVersion c else 1.
Proof.
  intros Hfile Hlen Hdj Hv. unfold reloaded_version, stored_document. rewrite Hfile.
  replace (2048 <? String.length (serializeJson (config_document c)))%nat with false
    by (symmetry; apply Nat.ltb_ge, Hlen).
  rewrite Hdj.
  change (int_or (config_document c) "configVersion" 1)
    with (if in_int_range (configVersion c) then configVersion c else 1).
  unfold in_int_range.
  destruct (Z.ltb_spec (configVersion c) (2 ^ 31)) as [Hlt | Hge].
  - replace (- 2 ^ 31 <=? configVersion c) with true by (symmetry; apply Z.leb_le; lia).
    apply wrap32_small. lia.
  - rewrite andb_false_r. reflexivity.
Qed.





End DeviceVersions.

